(** * batch_exporter.py: tokenizer, encoder, transport, readiness probe, orchestrator

    A shallow embedding of [src/batch_exporter.py]: [iter_diagrams],
    [_enc6], [_encode_bytes], [plantuml_encode], [_is_png], [_export_post],
    [_export_get], [export_png], [_wait_for_server], [run_exports],
    [docker_plantuml] and [main] (from the arguments that [parse_args]
    returns).

    - A Python [str] is a sequence of Unicode code points: [list N].
    - A Python [bytes] is a sequence of integers below 256: [list N].
    - The methods of [str] and the classes of [re] that the program uses are
      defined in [Py], with the tables of the interpreter for white space,
      line boundaries and alphanumeric characters.
    - What the interpreter and its libraries provide beyond that
      ([zlib.compress], [str.upper], the [requests] calls, the clock, the
      file system) is the environment [Env]: functions that the functions
      of the program take as a parameter, with a state of the world that is
      threaded through the calls, next to a log of the effects in the order
      they happen.
    - A raised exception is the [Raise] case of [result].
    - The commands and the files of [docker_plantuml] and [main] are the
      system [Host]; these two functions run in a [process], with a trace
      of what is done and with [SystemExit] among the ways to end.
    - A [while] loop that may go on for ever takes a number of rounds and
      returns [None] when they are used up.
    - [print] calls are left out; what [run_exports] prints at the end (the
      two counts and the failure list) is returned as a [report]. *)

From Stdlib Require Import NArith ZArith Ascii String DecimalString Bool Arith Lia List.
Import ListNotations.

Set Implicit Arguments.

(** ** Python values *)

Definition str := list N.
Definition bytes := list N.

(** An ASCII literal of the source as a [str]. *)
Definition lit (s : string) : str := map N_of_ascii (list_ascii_of_string s).

(** The line feed, ["\n"]. *)
Definition LF : N := 10%N.

Inductive exn : Type :=
| RuntimeError (msg : str)
| RequestException (msg : str)
| UnicodeEncodeError (msg : str)
| OSError (msg : str).

(** [str(e)] *)
Definition exn_str (e : exn) : str :=
  match e with
  | RuntimeError m | RequestException m | UnicodeEncodeError m | OSError m => m
  end.

Inductive result (A : Type) : Type :=
| Ok (a : A)
| Raise (e : exn).
Arguments Ok {A} a.
Arguments Raise {A} e.

(** ** The parts of [str], [bytes] and [re] that the program uses *)

Module Py.

(** [l[start:stop]] for [0 <= start] and [0 <= stop]. *)
Definition slice {A} (start stop : nat) (l : list A) : list A :=
  firstn (stop - start) (skipn start l).

(** [l[start:-back]]: the stop index is [len(l) - back], and 0 when the list
    is shorter than [back]. *)
Definition slice_to_back {A} (start back : nat) (l : list A) : list A :=
  slice start (length l - back) l.

(** [b.startswith(prefix)] *)
Fixpoint startswith (prefix b : list N) : bool :=
  match prefix, b with
  | [], _ => true
  | _ :: _, [] => false
  | p :: prefix', x :: b' => (p =? x)%N && startswith prefix' b'
  end.

(** [sub in s] *)
Fixpoint contains (sub s : list N) : bool :=
  startswith sub s ||
  match s with
  | [] => false
  | _ :: s' => contains sub s'
  end.

(** [a == b] *)
Fixpoint eqb (a b : str) : bool :=
  match a, b with
  | [], [] => true
  | x :: a', y :: b' => (x =? y)%N && eqb a' b'
  | _, _ => false
  end.

(** [sep.join(parts)] *)
Fixpoint join (sep : str) (parts : list str) : str :=
  match parts with
  | [] => []
  | [p] => p
  | p :: (_ :: _) as rest => p ++ sep ++ join sep rest
  end.

(** [str(n)] and [f"{n}"] for an [int]. *)
Definition decimal (n : Z) : str := lit (NilZero.string_of_int (Z.to_int n)).

(** [f"{n:02}"] for [0 <= n]: at least two digits, filled with zeros. *)
Definition decimal02 (n : nat) : str :=
  let d := decimal (Z.of_nat n) in
  repeat 0x30%N (2 - length d) ++ d.

(** UTF-8 bytes of one code point; [None] for a surrogate, which
    [str.encode()] refuses with [UnicodeEncodeError]. *)
Definition utf8_char (c : N) : option bytes :=
  (if c <? 0x80 then Some [c]
   else if c <? 0x800 then
     Some [N.lor 0xC0 (N.shiftr c 6); N.lor 0x80 (N.land c 0x3F)]
   else if c <? 0x10000 then
     if (0xD800 <=? c) && (c <=? 0xDFFF) then None
     else Some [N.lor 0xE0 (N.shiftr c 12);
                N.lor 0x80 (N.land (N.shiftr c 6) 0x3F);
                N.lor 0x80 (N.land c 0x3F)]
   else if c <? 0x110000 then
     Some [N.lor 0xF0 (N.shiftr c 18);
           N.lor 0x80 (N.land (N.shiftr c 12) 0x3F);
           N.lor 0x80 (N.land (N.shiftr c 6) 0x3F);
           N.lor 0x80 (N.land c 0x3F)]
   else None)%N.

(** [text.encode()]; of the message of the exception, which names the codec
    and the place of the surrogate, the end is kept. *)
Fixpoint encode (text : str) : result bytes :=
  match text with
  | [] => Ok []
  | c :: text' =>
      match utf8_char c with
      | None => Raise (UnicodeEncodeError (lit "surrogates not allowed"))
      | Some bs =>
          match encode text' with
          | Ok rest => Ok (bs ++ rest)
          | Raise e => Raise e
          end
      end
  end.

(** The code points [encode] accepts: those of the Unicode range that are
    not surrogates. A file decoded as UTF-8 holds no others. *)
Definition scalar (c : N) : bool :=
  ((c <? 0xD800) || (0xDFFF <? c) && (c <? 0x110000))%N.

(** [c.isspace()], which is also the class [\s] of [re] on a [str]. *)
Definition isspace (c : N) : bool :=
  ((0x9 <=? c) && (c <=? 0xD) || (0x1C <=? c) && (c <=? 0x20) ||
   (c =? 0x85) || (c =? 0xA0) || (c =? 0x1680) ||
   (0x2000 <=? c) && (c <=? 0x200A) || (c =? 0x2028) || (c =? 0x2029) ||
   (c =? 0x202F) || (c =? 0x205F) || (c =? 0x3000))%N.

(** The line boundaries of [str.splitlines()]. *)
Definition islinebreak (c : N) : bool :=
  ((0xA <=? c) && (c <=? 0xD) || (0x1C <=? c) && (c <=? 0x1E) ||
   (c =? 0x85) || (c =? 0x2028) || (c =? 0x2029))%N.

Fixpoint dropwhile (p : N -> bool) (s : str) : str :=
  match s with
  | [] => []
  | c :: s' => if p c then dropwhile p s' else s
  end.

Fixpoint takewhile (p : N -> bool) (s : str) : str :=
  match s with
  | [] => []
  | c :: s' => if p c then c :: takewhile p s' else []
  end.

(** [s.rstrip(chars)], by the class of the stripped characters. *)
Definition rstrip (p : N -> bool) (s : str) : str := rev (dropwhile p (rev s)).

(** [s.strip()] *)
Definition strip (s : str) : str := rstrip isspace (dropwhile isspace s).

(** [text.splitlines()], with [cur] the line read so far: the boundaries are
    dropped, [\r\n] is one boundary, and no empty last line is added after a
    final boundary. *)
Fixpoint splitlines_from (cur : str) (text : str) : list str :=
  match text with
  | [] => match cur with [] => [] | _ :: _ => [cur] end
  | c :: text' =>
      if islinebreak c then
        cur :: match text' with
               | d :: text'' =>
                   if ((c =? 0xD) && (d =? 0xA))%N then splitlines_from [] text''
                   else splitlines_from [] text'
               | [] => splitlines_from [] text'
               end
      else splitlines_from (cur ++ [c]) text'
  end.

Definition splitlines (text : str) : list str := splitlines_from [] text.

(** [c.isalnum()] by ranges of code points (Unicode 14.0.0, the database of
    CPython 3.11). *)
Definition alnum_ranges : list (N * N) := [
  (48, 57); (65, 90); (97, 122); (170, 170); (178, 179); (181, 181);
   (185, 186); (188, 190); (192, 214); (216, 246); (248, 705); (710, 721);
   (736, 740); (748, 748); (750, 750); (880, 884); (886, 887); (890, 893);
   (895, 895); (902, 902); (904, 906); (908, 908); (910, 929); (931, 1013);
   (1015, 1153); (1162, 1327); (1329, 1366); (1369, 1369); (1376, 1416);
   (1488, 1514); (1519, 1522); (1568, 1610); (1632, 1641); (1646, 1647);
   (1649, 1747); (1749, 1749); (1765, 1766); (1774, 1788); (1791, 1791);
   (1808, 1808); (1810, 1839); (1869, 1957); (1969, 1969); (1984, 2026);
   (2036, 2037); (2042, 2042); (2048, 2069); (2074, 2074); (2084, 2084);
   (2088, 2088); (2112, 2136); (2144, 2154); (2160, 2183); (2185, 2190);
   (2208, 2249); (2308, 2361); (2365, 2365); (2384, 2384); (2392, 2401);
   (2406, 2415); (2417, 2432); (2437, 2444); (2447, 2448); (2451, 2472);
   (2474, 2480); (2482, 2482); (2486, 2489); (2493, 2493); (2510, 2510);
   (2524, 2525); (2527, 2529); (2534, 2545); (2548, 2553); (2556, 2556);
   (2565, 2570); (2575, 2576); (2579, 2600); (2602, 2608); (2610, 2611);
   (2613, 2614); (2616, 2617); (2649, 2652); (2654, 2654); (2662, 2671);
   (2674, 2676); (2693, 2701); (2703, 2705); (2707, 2728); (2730, 2736);
   (2738, 2739); (2741, 2745); (2749, 2749); (2768, 2768); (2784, 2785);
   (2790, 2799); (2809, 2809); (2821, 2828); (2831, 2832); (2835, 2856);
   (2858, 2864); (2866, 2867); (2869, 2873); (2877, 2877); (2908, 2909);
   (2911, 2913); (2918, 2927); (2929, 2935); (2947, 2947); (2949, 2954);
   (2958, 2960); (2962, 2965); (2969, 2970); (2972, 2972); (2974, 2975);
   (2979, 2980); (2984, 2986); (2990, 3001); (3024, 3024); (3046, 3058);
   (3077, 3084); (3086, 3088); (3090, 3112); (3114, 3129); (3133, 3133);
   (3160, 3162); (3165, 3165); (3168, 3169); (3174, 3183); (3192, 3198);
   (3200, 3200); (3205, 3212); (3214, 3216); (3218, 3240); (3242, 3251);
   (3253, 3257); (3261, 3261); (3293, 3294); (3296, 3297); (3302, 3311);
   (3313, 3314); (3332, 3340); (3342, 3344); (3346, 3386); (3389, 3389);
   (3406, 3406); (3412, 3414); (3416, 3425); (3430, 3448); (3450, 3455);
   (3461, 3478); (3482, 3505); (3507, 3515); (3517, 3517); (3520, 3526);
   (3558, 3567); (3585, 3632); (3634, 3635); (3648, 3654); (3664, 3673);
   (3713, 3714); (3716, 3716); (3718, 3722); (3724, 3747); (3749, 3749);
   (3751, 3760); (3762, 3763); (3773, 3773); (3776, 3780); (3782, 3782);
   (3792, 3801); (3804, 3807); (3840, 3840); (3872, 3891); (3904, 3911);
   (3913, 3948); (3976, 3980); (4096, 4138); (4159, 4169); (4176, 4181);
   (4186, 4189); (4193, 4193); (4197, 4198); (4206, 4208); (4213, 4225);
   (4238, 4238); (4240, 4249); (4256, 4293); (4295, 4295); (4301, 4301);
   (4304, 4346); (4348, 4680); (4682, 4685); (4688, 4694); (4696, 4696);
   (4698, 4701); (4704, 4744); (4746, 4749); (4752, 4784); (4786, 4789);
   (4792, 4798); (4800, 4800); (4802, 4805); (4808, 4822); (4824, 4880);
   (4882, 4885); (4888, 4954); (4969, 4988); (4992, 5007); (5024, 5109);
   (5112, 5117); (5121, 5740); (5743, 5759); (5761, 5786); (5792, 5866);
   (5870, 5880); (5888, 5905); (5919, 5937); (5952, 5969); (5984, 5996);
   (5998, 6000); (6016, 6067); (6103, 6103); (6108, 6108); (6112, 6121);
   (6128, 6137); (6160, 6169); (6176, 6264); (6272, 6276); (6279, 6312);
   (6314, 6314); (6320, 6389); (6400, 6430); (6470, 6509); (6512, 6516);
   (6528, 6571); (6576, 6601); (6608, 6618); (6656, 6678); (6688, 6740);
   (6784, 6793); (6800, 6809); (6823, 6823); (6917, 6963); (6981, 6988);
   (6992, 7001); (7043, 7072); (7086, 7141); (7168, 7203); (7232, 7241);
   (7245, 7293); (7296, 7304); (7312, 7354); (7357, 7359); (7401, 7404);
   (7406, 7411); (7413, 7414); (7418, 7418); (7424, 7615); (7680, 7957);
   (7960, 7965); (7968, 8005); (8008, 8013); (8016, 8023); (8025, 8025);
   (8027, 8027); (8029, 8029); (8031, 8061); (8064, 8116); (8118, 8124);
   (8126, 8126); (8130, 8132); (8134, 8140); (8144, 8147); (8150, 8155);
   (8160, 8172); (8178, 8180); (8182, 8188); (8304, 8305); (8308, 8313);
   (8319, 8329); (8336, 8348); (8450, 8450); (8455, 8455); (8458, 8467);
   (8469, 8469); (8473, 8477); (8484, 8484); (8486, 8486); (8488, 8488);
   (8490, 8493); (8495, 8505); (8508, 8511); (8517, 8521); (8526, 8526);
   (8528, 8585); (9312, 9371); (9450, 9471); (10102, 10131); (11264, 11492);
   (11499, 11502); (11506, 11507); (11517, 11517); (11520, 11557);
   (11559, 11559); (11565, 11565); (11568, 11623); (11631, 11631);
   (11648, 11670); (11680, 11686); (11688, 11694); (11696, 11702);
   (11704, 11710); (11712, 11718); (11720, 11726); (11728, 11734);
   (11736, 11742); (11823, 11823); (12293, 12295); (12321, 12329);
   (12337, 12341); (12344, 12348); (12353, 12438); (12445, 12447);
   (12449, 12538); (12540, 12543); (12549, 12591); (12593, 12686);
   (12690, 12693); (12704, 12735); (12784, 12799); (12832, 12841);
   (12872, 12879); (12881, 12895); (12928, 12937); (12977, 12991);
   (13312, 19903); (19968, 42124); (42192, 42237); (42240, 42508);
   (42512, 42539); (42560, 42606); (42623, 42653); (42656, 42735);
   (42775, 42783); (42786, 42888); (42891, 42954); (42960, 42961);
   (42963, 42963); (42965, 42969); (42994, 43009); (43011, 43013);
   (43015, 43018); (43020, 43042); (43056, 43061); (43072, 43123);
   (43138, 43187); (43216, 43225); (43250, 43255); (43259, 43259);
   (43261, 43262); (43264, 43301); (43312, 43334); (43360, 43388);
   (43396, 43442); (43471, 43481); (43488, 43492); (43494, 43518);
   (43520, 43560); (43584, 43586); (43588, 43595); (43600, 43609);
   (43616, 43638); (43642, 43642); (43646, 43695); (43697, 43697);
   (43701, 43702); (43705, 43709); (43712, 43712); (43714, 43714);
   (43739, 43741); (43744, 43754); (43762, 43764); (43777, 43782);
   (43785, 43790); (43793, 43798); (43808, 43814); (43816, 43822);
   (43824, 43866); (43868, 43881); (43888, 44002); (44016, 44025);
   (44032, 55203); (55216, 55238); (55243, 55291); (63744, 64109);
   (64112, 64217); (64256, 64262); (64275, 64279); (64285, 64285);
   (64287, 64296); (64298, 64310); (64312, 64316); (64318, 64318);
   (64320, 64321); (64323, 64324); (64326, 64433); (64467, 64829);
   (64848, 64911); (64914, 64967); (65008, 65019); (65136, 65140);
   (65142, 65276); (65296, 65305); (65313, 65338); (65345, 65370);
   (65382, 65470); (65474, 65479); (65482, 65487); (65490, 65495);
   (65498, 65500); (65536, 65547); (65549, 65574); (65576, 65594);
   (65596, 65597); (65599, 65613); (65616, 65629); (65664, 65786);
   (65799, 65843); (65856, 65912); (65930, 65931); (66176, 66204);
   (66208, 66256); (66273, 66299); (66304, 66339); (66349, 66378);
   (66384, 66421); (66432, 66461); (66464, 66499); (66504, 66511);
   (66513, 66517); (66560, 66717); (66720, 66729); (66736, 66771);
   (66776, 66811); (66816, 66855); (66864, 66915); (66928, 66938);
   (66940, 66954); (66956, 66962); (66964, 66965); (66967, 66977);
   (66979, 66993); (66995, 67001); (67003, 67004); (67072, 67382);
   (67392, 67413); (67424, 67431); (67456, 67461); (67463, 67504);
   (67506, 67514); (67584, 67589); (67592, 67592); (67594, 67637);
   (67639, 67640); (67644, 67644); (67647, 67669); (67672, 67702);
   (67705, 67742); (67751, 67759); (67808, 67826); (67828, 67829);
   (67835, 67867); (67872, 67897); (67968, 68023); (68028, 68047);
   (68050, 68096); (68112, 68115); (68117, 68119); (68121, 68149);
   (68160, 68168); (68192, 68222); (68224, 68255); (68288, 68295);
   (68297, 68324); (68331, 68335); (68352, 68405); (68416, 68437);
   (68440, 68466); (68472, 68497); (68521, 68527); (68608, 68680);
   (68736, 68786); (68800, 68850); (68858, 68899); (68912, 68921);
   (69216, 69246); (69248, 69289); (69296, 69297); (69376, 69415);
   (69424, 69445); (69457, 69460); (69488, 69505); (69552, 69579);
   (69600, 69622); (69635, 69687); (69714, 69743); (69745, 69746);
   (69749, 69749); (69763, 69807); (69840, 69864); (69872, 69881);
   (69891, 69926); (69942, 69951); (69956, 69956); (69959, 69959);
   (69968, 70002); (70006, 70006); (70019, 70066); (70081, 70084);
   (70096, 70106); (70108, 70108); (70113, 70132); (70144, 70161);
   (70163, 70187); (70272, 70278); (70280, 70280); (70282, 70285);
   (70287, 70301); (70303, 70312); (70320, 70366); (70384, 70393);
   (70405, 70412); (70415, 70416); (70419, 70440); (70442, 70448);
   (70450, 70451); (70453, 70457); (70461, 70461); (70480, 70480);
   (70493, 70497); (70656, 70708); (70727, 70730); (70736, 70745);
   (70751, 70753); (70784, 70831); (70852, 70853); (70855, 70855);
   (70864, 70873); (71040, 71086); (71128, 71131); (71168, 71215);
   (71236, 71236); (71248, 71257); (71296, 71338); (71352, 71352);
   (71360, 71369); (71424, 71450); (71472, 71483); (71488, 71494);
   (71680, 71723); (71840, 71922); (71935, 71942); (71945, 71945);
   (71948, 71955); (71957, 71958); (71960, 71983); (71999, 71999);
   (72001, 72001); (72016, 72025); (72096, 72103); (72106, 72144);
   (72161, 72161); (72163, 72163); (72192, 72192); (72203, 72242);
   (72250, 72250); (72272, 72272); (72284, 72329); (72349, 72349);
   (72368, 72440); (72704, 72712); (72714, 72750); (72768, 72768);
   (72784, 72812); (72818, 72847); (72960, 72966); (72968, 72969);
   (72971, 73008); (73030, 73030); (73040, 73049); (73056, 73061);
   (73063, 73064); (73066, 73097); (73112, 73112); (73120, 73129);
   (73440, 73458); (73648, 73648); (73664, 73684); (73728, 74649);
   (74752, 74862); (74880, 75075); (77712, 77808); (77824, 78894);
   (82944, 83526); (92160, 92728); (92736, 92766); (92768, 92777);
   (92784, 92862); (92864, 92873); (92880, 92909); (92928, 92975);
   (92992, 92995); (93008, 93017); (93019, 93025); (93027, 93047);
   (93053, 93071); (93760, 93846); (93952, 94026); (94032, 94032);
   (94099, 94111); (94176, 94177); (94179, 94179); (94208, 100343);
   (100352, 101589); (101632, 101640); (110576, 110579); (110581, 110587);
   (110589, 110590); (110592, 110882); (110928, 110930); (110948, 110951);
   (110960, 111355); (113664, 113770); (113776, 113788); (113792, 113800);
   (113808, 113817); (119520, 119539); (119648, 119672); (119808, 119892);
   (119894, 119964); (119966, 119967); (119970, 119970); (119973, 119974);
   (119977, 119980); (119982, 119993); (119995, 119995); (119997, 120003);
   (120005, 120069); (120071, 120074); (120077, 120084); (120086, 120092);
   (120094, 120121); (120123, 120126); (120128, 120132); (120134, 120134);
   (120138, 120144); (120146, 120485); (120488, 120512); (120514, 120538);
   (120540, 120570); (120572, 120596); (120598, 120628); (120630, 120654);
   (120656, 120686); (120688, 120712); (120714, 120744); (120746, 120770);
   (120772, 120779); (120782, 120831); (122624, 122654); (123136, 123180);
   (123191, 123197); (123200, 123209); (123214, 123214); (123536, 123565);
   (123584, 123627); (123632, 123641); (124896, 124902); (124904, 124907);
   (124909, 124910); (124912, 124926); (124928, 125124); (125127, 125135);
   (125184, 125251); (125259, 125259); (125264, 125273); (126065, 126123);
   (126125, 126127); (126129, 126132); (126209, 126253); (126255, 126269);
   (126464, 126467); (126469, 126495); (126497, 126498); (126500, 126500);
   (126503, 126503); (126505, 126514); (126516, 126519); (126521, 126521);
   (126523, 126523); (126530, 126530); (126535, 126535); (126537, 126537);
   (126539, 126539); (126541, 126543); (126545, 126546); (126548, 126548);
   (126551, 126551); (126553, 126553); (126555, 126555); (126557, 126557);
   (126559, 126559); (126561, 126562); (126564, 126564); (126567, 126570);
   (126572, 126578); (126580, 126583); (126585, 126588); (126590, 126590);
   (126592, 126601); (126603, 126619); (126625, 126627); (126629, 126633);
   (126635, 126651); (127232, 127244); (130032, 130041); (131072, 173791);
   (173824, 177976); (177984, 178205); (178208, 183969); (183984, 191456);
   (194560, 195101); (196608, 201546)
]%N.

Definition isalnum (c : N) : bool :=
  existsb (fun r => (fst r <=? c) && (c <=? snd r))%N alnum_ranges.

(** The class [\w] of [re] on a [str]: alphanumeric or the underscore. *)
Definition isword (c : N) : bool := isalnum c || (c =? 0x5F)%N.

End Py.

(** ** Source parsing *)

Module Tokenizer.

(** [_START_RE = re.compile(r"@startuml(?:\s+([^\s]+))?", re.IGNORECASE)].

    The code points each character of the literal [@startuml] matches under
    [re.IGNORECASE]: both cases of the letter, and for [s] also U+017F (the
    long s), which [re] adds to the characters of equal lower case. *)
Definition START_LITERAL : list (list N) :=
  [ [0x40]; [0x73; 0x53; 0x17F]; [0x74; 0x54]; [0x61; 0x41]; [0x72; 0x52];
    [0x74; 0x54]; [0x75; 0x55]; [0x6D; 0x4D]; [0x6C; 0x4C] ]%N.

(** The literal part of a pattern matched at the start of [s]: the rest of
    [s] after it. *)
Fixpoint match_literal (pat : list (list N)) (s : str) : option str :=
  match pat, s with
  | [], _ => Some s
  | _ :: _, [] => None
  | cs :: pat', c :: s' =>
      if existsb (N.eqb c) cs then match_literal pat' s' else None
  end.

(** The optional group [(?:\s+([^\s]+))?] matched at the start of [s]:
    [group(1)], which is [None] when the group does not take part. *)
Definition match_name (s : str) : option str :=
  match Py.takewhile Py.isspace s with
  | [] => None
  | _ :: _ =>
      match Py.takewhile (fun c => negb (Py.isspace c)) (Py.dropwhile Py.isspace s) with
      | [] => None
      | name => Some name
      end
  end.

(** [_START_RE.match(s)]: [None] when there is no match, and [group(1)] of
    the match otherwise. *)
Definition _START_RE_match (s : str) : option (option str) :=
  match match_literal START_LITERAL s with
  | None => None
  | Some rest => Some (match_name rest)
  end.

Definition _END_DIRECTIVE : str := lit "@enduml".

(** [re.sub(r"[^\w\-_.]", "_", raw)] *)
Definition keeps (c : N) : bool :=
  Py.isword c || (c =? 0x2D)%N || (c =? 0x5F)%N || (c =? 0x2E)%N.

Definition sanitize (raw : str) : str :=
  map (fun c => if keeps c then c else 0x5F%N) raw.

(** [m.group(1) or f"diagram_{count:02}"]: a group that took part is not
    empty. *)
Definition raw_name (group1 : option str) (count : nat) : str :=
  match group1 with
  | Some ((_ :: _) as g) => g
  | _ => lit "diagram_" ++ Py.decimal02 count
  end.

(** A unit as the scan holds it: the name and [buf]. *)
Definition unit_lines : Type := str * list str.

(** The loops of [iter_diagrams] over [lines[i:]]. The outer loop skips the
    lines that are no start directive; the inner loop ([within]) appends
    lines to [buf] up to and with the first one that holds [_END_DIRECTIVE],
    or up to the end of the input. *)
Fixpoint scan (count : nat) (lines : list str) : list unit_lines :=
  match lines with
  | [] => []
  | line :: rest =>
      match _START_RE_match (Py.strip line) with
      | None => scan count rest
      | Some group1 =>
          let name := sanitize (raw_name group1 count) in
          (fix within (buf : list str) (ls : list str) {struct ls} : list unit_lines :=
             match ls with
             | [] => [(name, buf)]
             | l :: ls' =>
                 if negb (Py.contains _END_DIRECTIVE l)
                 then within (buf ++ [l]) ls'
                 else (name, buf ++ [l]) :: scan (S count) ls'
             end) [line] rest
      end
  end.

(** [yield name, "\n".join(buf) + "\n"] *)
Definition unit_text (buf : list str) : str := Py.join [LF] buf ++ [LF].

Definition iter_diagrams (text : str) : list (str * str) :=
  map (fun u => (fst u, unit_text (snd u))) (scan 1 (Py.splitlines text)).

(** A line that is a start directive: [_START_RE] matches it once stripped. *)
Definition is_start (line : str) : bool :=
  match _START_RE_match (Py.strip line) with
  | Some _ => true
  | None => false
  end.

(** The inner loop on its own: [buf] without its first line, and the lines
    left after it. *)
Fixpoint collect (ls : list str) : list str * list str :=
  match ls with
  | [] => ([], [])
  | l :: ls' =>
      if negb (Py.contains _END_DIRECTIVE l)
      then let (body, after) := collect ls' in (l :: body, after)
      else ([l], ls')
  end.

(** The start directives of a list of lines. *)
Definition count_starts (lines : list str) : nat := length (filter is_start lines).

(** The buffers of the units lie in the document one after the other, in
    the order of the list, with no start directive before, between or after
    them. *)
Inductive tiles : list str -> list (list str) -> Prop :=
| tiles_end (tail : list str) :
    count_starts tail = 0 -> tiles tail []
| tiles_unit (gap buf rest : list str) (bufs : list (list str)) :
    count_starts gap = 0 -> tiles rest bufs -> tiles (gap ++ buf ++ rest) (buf :: bufs).

(** The set [[A-Za-z0-9_.-]]. *)
Definition in_name_set (c : N) : bool :=
  ((0x41 <=? c) && (c <=? 0x5A) || (0x61 <=? c) && (c <=? 0x7A) ||
   (0x30 <=? c) && (c <=? 0x39) || (c =? 0x5F) || (c =? 0x2E) || (c =? 0x2D))%N.

End Tokenizer.

(** ** Stand-alone PlantUML encoder *)

Module Encoder.

Definition _ALPHABET : str :=
  lit "0123456789ABCDEFGHIJKLMNOPQRSTUVWXYZabcdefghijklmnopqrstuvwxyz-_".

(** [_ALPHABET[b & 0x3F]], a string of one character. *)
Definition _enc6 (b : N) : str :=
  [nth (N.to_nat (N.land b 0x3F)) _ALPHABET 0%N].

(** The four [out.append] calls of one round of the loop. *)
Definition encode_group (b1 b2 b3 : N) : list str :=
  [ _enc6 (N.shiftr b1 2);
    _enc6 (N.lor (N.shiftl (N.land b1 0x3) 4) (N.shiftr b2 4));
    _enc6 (N.lor (N.shiftl (N.land b2 0xF) 2) (N.shiftr b3 6));
    _enc6 (N.land b3 0x3F) ].

(** [out] after [for i in range(0, len(data), 3)]: a missing [data[i + 1]]
    or [data[i + 2]] is read as 0. *)
Fixpoint encode_groups (data : bytes) : list str :=
  match data with
  | [] => []
  | [b1] => encode_group b1 0 0
  | [b1; b2] => encode_group b1 b2 0
  | b1 :: b2 :: b3 :: rest => encode_group b1 b2 b3 ++ encode_groups rest
  end.

(** ["".join(out)] *)
Definition _encode_bytes (data : bytes) : str := concat (encode_groups data).

Section Zlib.

(** [zlib.compress(raw, 9)] *)
Variable zlib_compress9 : bytes -> bytes.

Definition plantuml_encode (text : str) : result str :=
  match Py.encode text with
  | Raise e => Raise e
  | Ok raw =>
      let comp := zlib_compress9 raw in
      Ok (_encode_bytes (Py.slice_to_back 2 4 comp))
  end.

End Zlib.

(** The 64 symbols [0-9A-Za-z-_]. *)
Definition in_alphabet (c : N) : bool :=
  ((0x30 <=? c) && (c <=? 0x39) || (0x41 <=? c) && (c <=? 0x5A) ||
   (0x61 <=? c) && (c <=? 0x7A) || (c =? 0x2D) || (c =? 0x5F))%N.

End Encoder.

(** ** The environment: HTTP, disk, clock *)

Inductive verb : Type := HttpPost | HttpGet.

(** One call of [requests.post] or [requests.get]. *)
Record Request : Type := {
  rq_verb : verb;
  rq_url : str;
  rq_headers : list (str * str);
  rq_data : option bytes;
  rq_timeout : Z
}.

(** [requests.Response], the two fields the program reads. *)
Record Response : Type := {
  status_code : Z;
  content : bytes
}.

(** What a call of [requests] comes to: a response, whatever its status, or
    [requests.exceptions.RequestException] (no connection, time out, ...). *)
Inductive HttpResult : Type :=
| Responded (r : Response)
| Failed (msg : str).

(** The world outside of the process, with state [W] and clock readings [T]. *)
Record Env (W T : Type) : Type := {
  (** [zlib.compress(raw, 9)] *)
  zlib_compress9 : bytes -> bytes;
  (** [s.upper()] *)
  upper : str -> str;
  (** [requests.post], [requests.get] *)
  http : Request -> W -> HttpResult * W;
  (** [open(path, "wb")] and [fh.write(data)] *)
  write_file : str -> bytes -> W -> result unit * W;
  (** [time.time()] *)
  clock : W -> T * W;
  (** [now - t0 < timeout] on two readings of the clock *)
  elapsed_below : T -> T -> Z -> bool;
  (** [time.sleep(1.5)] *)
  sleep : W -> W
}.

(** The effects of the process, as the log keeps them. *)
Inductive event : Type :=
| Sent (r : Request)
| Wrote (path : str) (data : bytes)
| Slept.

Record state (W : Type) : Type := {
  world : W;
  log : list event
}.

(** Computations with effects on the world that may raise. *)
Definition M (W A : Type) : Type := state W -> result A * state W.

Definition ret {W A} (a : A) : M W A := fun s => (Ok a, s).

Definition raise {W A} (e : exn) : M W A := fun s => (Raise e, s).

Definition bind {W A B} (m : M W A) (k : A -> M W B) : M W B :=
  fun s =>
    match m s with
    | (Ok a, s') => k a s'
    | (Raise e, s') => (Raise e, s')
    end.

(** A value or exception of a pure computation. *)
Definition lift {W A} (r : result A) : M W A := fun s => (r, s).

Notation "x <- m ;; k" := (bind m (fun x => k))
  (at level 61, m at next level, right associativity).

Section Effects.

Variables W T : Type.
Variable env : Env W T.

(** The state after a call of [requests]. *)
Definition sent (r : Request) (s : state W) : state W :=
  {| world := snd (http env r (world s)); log := log s ++ [Sent r] |}.

(** A call of [requests]: logged, and a failure is the exception. *)
Definition send (r : Request) : M W Response :=
  fun s =>
    match fst (http env r (world s)) with
    | Responded resp => (Ok resp, sent r s)
    | Failed msg => (Raise (RequestException msg), sent r s)
    end.

(** [with open(path, "wb") as fh: fh.write(data)]: logged when it succeeds. *)
Definition write (path : str) (data : bytes) : M W unit :=
  fun s =>
    let (res, w) := write_file env path data (world s) in
    match res with
    | Ok _ => (Ok tt, {| world := w; log := log s ++ [Wrote path data] |})
    | Raise e => (Raise e, {| world := w; log := log s |})
    end.

(** [time.time()] *)
Definition now (s : state W) : T * state W :=
  let (t, w) := clock env (world s) in (t, {| world := w; log := log s |}).

(** [time.sleep(1.5)] *)
Definition pause (s : state W) : state W :=
  {| world := sleep env (world s); log := log s ++ [Slept] |}.

End Effects.

(** ** HTTP helpers *)

Module Transport.

Definition _PNG_MAGIC : bytes := [0x89; 0x50; 0x4E; 0x47; 0x0D; 0x0A; 0x1A; 0x0A]%N.

Definition _HEADERS : list (str * str) :=
  [ (lit "Content-Type", lit "text/plain; charset=utf-8");
    (lit "Accept", lit "image/png");
    (lit "User-Agent", lit "batch_export/3.1") ].

Definition _is_png (resp : Response) : bool :=
  Py.startswith _PNG_MAGIC (content resp).

(** [requests.post(base + "/png", data=diagram.encode(), headers=_HEADERS,
    timeout=30)] *)
Definition post_request (base : str) (data : bytes) : Request :=
  {| rq_verb := HttpPost;
     rq_url := base ++ lit "/png";
     rq_headers := _HEADERS;
     rq_data := Some data;
     rq_timeout := 30 |}.

(** [requests.get(f"{base.rstrip('/')}/png/{code}",
    headers={"User-Agent": _HEADERS["User-Agent"]}, timeout=30)] *)
Definition get_request (base code : str) : Request :=
  {| rq_verb := HttpGet;
     rq_url := Py.rstrip (N.eqb 0x2F) base ++ lit "/png/" ++ code;
     rq_headers := [(lit "User-Agent", lit "batch_export/3.1")];
     rq_data := None;
     rq_timeout := 30 |}.

Section Transport.

Variables W T : Type.
Variable env : Env W T.

Definition _export_post (diagram base : str) : M W (option bytes) :=
  data <- lift (Py.encode diagram) ;;
  r <- send env (post_request base data) ;;
  ret (if _is_png r then Some (content r) else None).

(** [RuntimeError(f"GET failed: HTTP {r.status_code}")] *)
Definition get_failed (r : Response) : exn :=
  RuntimeError (lit "GET failed: HTTP " ++ Py.decimal (status_code r)).

Definition _export_get (diagram base : str) : M W bytes :=
  code <- lift (Encoder.plantuml_encode (zlib_compress9 env) diagram) ;;
  r <- send env (get_request base code) ;;
  if _is_png r then ret (content r)
  else raise (get_failed r).

Definition export_png (diagram base method : str) : M W bytes :=
  let method := upper env method in
  if Py.eqb method (lit "POST") then
    img <- _export_post diagram base ;;
    match img with
    | None => raise (RuntimeError (lit "Server did not return PNG on POST."))
    | Some png => ret png
    end
  else if Py.eqb method (lit "GET") then
    _export_get diagram base
  else
    (* AUTO; [a or b] is [b] when [a] is [None] or [b""] *)
    img <- _export_post diagram base ;;
    match img with
    | Some ((_ :: _) as png) => ret png
    | _ => _export_get diagram base
    end.

End Transport.

End Transport.

(** ** Docker helpers: the readiness probe *)

Module Lifecycle.

Section Lifecycle.

Variables W T : Type.
Variable env : Env W T.

Definition probe_request (url : str) : Request :=
  {| rq_verb := HttpGet; rq_url := url; rq_headers := [];
     rq_data := None; rq_timeout := 2 |}.

(** [r.status_code in (200, 400)] *)
Definition is_up (r : Response) : bool :=
  (status_code r =? 200)%Z || (status_code r =? 400)%Z.

(** The [while] loop of [_wait_for_server], at most [fuel] rounds of it:
    [None] when the rounds are used up before the loop ends. *)
Fixpoint poll (fuel : nat) (url : str) (t0 : T) (timeout : Z) (s : state W)
  : option (result unit * state W) :=
  match fuel with
  | O => None
  | S fuel' =>
      let (t, s1) := now env s in
      if elapsed_below env t t0 timeout then
        match send env (probe_request url) s1 with
        | (Ok r, s2) =>
            if is_up r then Some (Ok tt, s2)
            else poll fuel' url t0 timeout (pause env s2)
        | (Raise (RequestException _), s2) =>
            poll fuel' url t0 timeout (pause env s2)
        | (Raise e, s2) => Some (Raise e, s2)
        end
      else
        Some (Raise (RuntimeError
          (lit "Timed out waiting for local PlantUML server to start.")), s1)
  end.

Definition tiny : str := lit "@startuml" ++ [LF] ++ lit "@enduml" ++ [LF].

Definition probe_url (port : Z) (code : str) : str :=
  lit "http://localhost:" ++ Py.decimal port ++ lit "/png/" ++ code.

Definition _wait_for_server (fuel : nat) (port : Z) (timeout : Z) (s : state W)
  : option (result unit * state W) :=
  match Encoder.plantuml_encode (zlib_compress9 env) tiny with
  | Raise e => Some (Raise e, s)
  | Ok code =>
      let (t0, s0) := now env s in
      poll fuel (probe_url port code) t0 timeout s0
  end.

End Lifecycle.

End Lifecycle.

(** ** The batch *)

Module Orchestrator.

(** [os.path.join(a, b)] on a POSIX system: [b] when it starts with the
    separator, and else [a] and [b], with a separator between them unless
    [a] is empty or ends with one. *)
Definition path_join (a b : str) : str :=
  if Py.startswith [0x2F%N] b then b
  else if Nat.eqb (length a) 0 || Py.startswith [0x2F%N] (rev a) then a ++ b
  else a ++ [0x2F%N] ++ b.

(** The directory part that [path_join] puts before a relative name. *)
Definition dir_prefix (a : str) : str :=
  if Nat.eqb (length a) 0 || Py.startswith [0x2F%N] (rev a) then a else a ++ [0x2F%N].

(** [ok], [fail] and [failures]. *)
Record report : Type := {
  succeeded : nat;
  failed : nat;
  failures : list (str * str)
}.

Definition no_report : report := {| succeeded := 0; failed := 0; failures := [] |}.

Definition count_ok (r : report) : report :=
  {| succeeded := succeeded r + 1; failed := failed r; failures := failures r |}.

Definition count_fail (name : str) (e : exn) (r : report) : report :=
  {| succeeded := succeeded r;
     failed := failed r + 1;
     failures := failures r ++ [(name, exn_str e)] |}.

(** The end of [run_exports]: [sys.exit(1)], or [None] when the function
    returns. *)
Definition exit_call (r : report) : option Z :=
  match failures r with
  | [] => None
  | _ :: _ => if Nat.eqb (failed r) 0 then None else Some 1%Z
  end.

(** The exit status of the process: that of [sys.exit], and 0 when [main]
    returns. *)
Definition exit_status (r : report) : Z :=
  match exit_call r with
  | Some c => c
  | None => 0%Z
  end.

Section Orchestrator.

Variables W T : Type.
Variable env : Env W T.

(** The [try] block of one round of the loop. *)
Definition export_to_file (text base : str) (method : str) (out_path : str)
  : M W unit :=
  img <- Transport.export_png env text base method ;;
  write env out_path img.

(** One round of the loop of [run_exports]. *)
Definition export_unit (base : str) (method : str) (out_dir : str)
  (acc : report * state W) (u : str * str) : report * state W :=
  let (name, text) := u in
  let out_path := path_join out_dir (name ++ lit ".png") in
  match export_to_file text base method out_path (snd acc) with
  | (Ok _, s') => (count_ok (fst acc), s')
  | (Raise e, s') => (count_fail name e (fst acc), s')
  end.

Definition export_units (base : str) (method : str) (out_dir : str)
  (units : list (str * str)) (acc : report * state W) : report * state W :=
  fold_left (export_unit base method out_dir) units acc.

Definition run_exports (source base : str) (method : str) (out_dir : str)
  (s : state W) : report * state W :=
  export_units base method out_dir (Tokenizer.iter_diagrams source) (no_report, s).

(** What the [try] block came to for each unit, in the order of the units
    and from the state the units before left. *)
Fixpoint outcomes (base : str) (method : str) (out_dir : str)
  (units : list (str * str)) (s : state W) : list (str * result unit) :=
  match units with
  | [] => []
  | (name, text) :: units' =>
      let r := export_to_file text base method (path_join out_dir (name ++ lit ".png")) s in
      (name, fst r) :: outcomes base method out_dir units' (snd r)
  end.

End Orchestrator.

Definition is_ok (A : Type) (r : result A) : bool :=
  match r with
  | Ok _ => true
  | Raise _ => false
  end.

(** The failure entries of a list of outcomes. *)
Definition failed_entries (outs : list (str * result unit)) : list (str * str) :=
  flat_map (fun o => match snd o with
                     | Ok _ => []
                     | Raise e => [(fst o, exn_str e)]
                     end) outs.

(** The output files of a list of outcomes: one for each unit that did not
    fail. *)
Definition written_paths (out_dir : str) (outs : list (str * result unit)) : list str :=
  flat_map (fun o => match snd o with
                     | Ok _ => [path_join out_dir (fst o ++ lit ".png")]
                     | Raise _ => []
                     end) outs.

(** The paths of the files a log has written, in the order of the writes. *)
Definition files_written (l : list event) : list str :=
  flat_map (fun ev => match ev with
                      | Wrote path _ => [path]
                      | _ => []
                      end) l.

(** A computation that writes no file. *)
Definition no_write (W A : Type) (c : M W A) : Prop :=
  forall s, files_written (log (snd (c s))) = files_written (log s).

End Orchestrator.

(** ** A scripted environment, for the examples *)

Module Sim.

(** The server answers the calls with [script], one entry a call, and
    refuses the connection once the script is used up; the disk keeps the
    last data written to a path; the clock counts milliseconds. *)
Record machine : Type := {
  script : list HttpResult;
  millis : Z;
  disk : list (str * bytes)
}.

Definition serve (_ : Request) (w : machine) : HttpResult * machine :=
  match script w with
  | [] => (Failed (lit "Connection refused"), w)
  | r :: rest => (r, {| script := rest; millis := millis w; disk := disk w |})
  end.

Fixpoint put (path : str) (data : bytes) (d : list (str * bytes)) : list (str * bytes) :=
  match d with
  | [] => [(path, data)]
  | (p, old) :: d' =>
      if list_eq_dec N.eq_dec p path then (p, data) :: d'
      else (p, old) :: put path data d'
  end.

Definition store (path : str) (data : bytes) (w : machine) : result unit * machine :=
  (Ok tt, {| script := script w; millis := millis w; disk := put path data (disk w) |}).

(** A document from its lines, each ended by a line feed. *)
Definition document (lines : list string) : str :=
  concat (map (fun l => lit l ++ [LF]) lines).

(** [zlib.compress(raw, 9)] of the inputs the examples compress: the bytes
    of the empty text, of [a] and of two diagrams. *)
Definition zlib_table : list (bytes * bytes) :=
  [ ([],
     [0x78; 0xDA; 0x03; 0x00; 0x00; 0x00; 0x00; 0x01]);
    (lit "a",
     [0x78; 0xDA; 0x4B; 0x04; 0x00; 0x00; 0x62; 0x00; 0x62]);
    (document ["@startuml"; "@enduml"],
     [0x78; 0xDA; 0x73; 0x28; 0x2E; 0x49; 0x2C; 0x2A; 0x29; 0xCD; 0xCD; 0xE1;
      0x72; 0x48; 0xCD; 0x4B; 0x01; 0xD1; 0x00; 0x41; 0x49; 0x06; 0x96]);
    (document ["@startuml"; "Alice->Bob"; "@enduml"],
     [0x78; 0xDA; 0x73; 0x28; 0x2E; 0x49; 0x2C; 0x2A; 0x29; 0xCD; 0xCD; 0xE1;
      0x72; 0xCC; 0xC9; 0x4C; 0x4E; 0xD5; 0xB5; 0x73; 0xCA; 0x4F; 0xE2; 0x72;
      0x48; 0xCD; 0x4B; 0x01; 0x09; 0x01; 0x00; 0x9B; 0xFC; 0x09; 0xFC]) ]%N%string.

Definition zlib_of_examples (raw : bytes) : bytes :=
  match find (fun entry => Py.eqb (fst entry) raw) zlib_table with
  | Some entry => snd entry
  | None => []
  end.

(** [s.upper()] of a string of ASCII characters. *)
Definition ascii_upper (s : str) : str :=
  map (fun c => if (0x61 <=? c) && (c <=? 0x7A) then c - 32 else c)%N s.

Definition env : Env machine Z :=
  {| zlib_compress9 := zlib_of_examples;
     upper := ascii_upper;
     http := serve;
     write_file := store;
     clock := fun w => (millis w, w);
     elapsed_below := fun t t0 timeout => (t - t0 <? timeout * 1000)%Z;
     sleep := fun w =>
       {| script := script w; millis := millis w + 1500; disk := disk w |} |}.

Definition boot (answers : list HttpResult) : state machine :=
  {| world := {| script := answers; millis := 0; disk := [] |}; log := [] |}.

(** A response with a PNG body, and one with an error page. *)
Definition png (status : Z) : HttpResult :=
  Responded {| status_code := status;
               content := Transport._PNG_MAGIC ++ [0x00; 0x01]%N |}.

Definition page (status : Z) : HttpResult :=
  Responded {| status_code := status; content := lit "<html>error</html>" |}.

End Sim.

(** ** Shapes of units, requests and writes *)

Module Shapes.

(** The line holds the end directive. *)
Definition has_end (l : str) : bool := Py.contains Tokenizer._END_DIRECTIVE l.

(** A buffer that an end directive closed: its last line holds the
    directive, and no line between the first and the last does. *)
Definition closed_unit (buf : list str) : Prop :=
  exists opener body l,
    buf = opener :: body ++ [l] /\
    Forall (fun x => has_end x = false) body /\
    has_end l = true.

(** A buffer that the end of the input closed: no line after the first
    holds the end directive. *)
Definition open_unit (buf : list str) : Prop :=
  exists opener body,
    buf = opener :: body /\ Forall (fun x => has_end x = false) body.

(** No line boundary of [str.splitlines()] in the line. *)
Definition one_line (l : str) : bool := forallb (fun c => negb (Py.islinebreak c)) l.

(** A [bytes] value: every element is below 256. *)
Definition is_bytes (data : bytes) : Prop := Forall (fun b => (b < 256)%N) data.

(** The 256 values of a byte. *)
Definition all_bytes : list N := map N.of_nat (seq 0 256).

(** The index that [_enc6] reads in the alphabet, and the second and the
    third number that [_encode_bytes] gives it for a group of three bytes. *)
Definition six (b : N) : N := N.land b 0x3F.

Definition sextet2 (b1 b2 : N) : N := N.lor (N.shiftl (N.land b1 0x3) 4) (N.shiftr b2 4).

Definition sextet3 (b2 b3 : N) : N := N.lor (N.shiftl (N.land b2 0xF) 2) (N.shiftr b3 6).

(** The requests of a log, in the order they were sent. *)
Definition requests_sent (l : list event) : list Request :=
  flat_map (fun ev => match ev with
                      | Sent q => [q]
                      | _ => []
                      end) l.

(** The files of a log with the data written to them, in the order of the
    writes. *)
Definition writes (l : list event) : list (str * bytes) :=
  flat_map (fun ev => match ev with
                      | Wrote path data => [(path, data)]
                      | _ => []
                      end) l.

(** The sleeps of a log. *)
Definition sleeps (l : list event) : nat :=
  length (filter (fun ev => match ev with Slept => true | _ => false end) l).

(** The events of a round of the loop: two requests at most, and then the
    write of a PNG image at the path of the unit when the round ends with
    no exception. *)
Definition round_events (path : str) (ok : bool) (evs : list event) : Prop :=
  exists qs,
    length qs <= 2 /\
    if ok then
      exists img, Py.startswith Transport._PNG_MAGIC img = true /\
                  evs = map Sent qs ++ [Wrote path img]
    else evs = map Sent qs.

End Shapes.

(** ** The rounds of the readiness probe *)

Module Rounds.

(** [n] rounds of the loop of [_wait_for_server] that went on to the next
    one: a probe and a sleep each. *)
Definition rounds (url : str) (n : nat) : list event :=
  concat (repeat [Sent (Lifecycle.probe_request url); Slept] n).

(** The error of [_wait_for_server]. *)
Definition timed_out : exn :=
  RuntimeError (lit "Timed out waiting for local PlantUML server to start.").

End Rounds.

(** ** The process: commands, files and the exit *)

(** What [sys.exit] is given: a status, or a message for the error stream
    (and then the status is 1). *)
Inductive exit_code : Type :=
| ExitStatus (n : Z)
| ExitMessage (msg : str).

(** What ends a function of the process before its end: one of the
    exceptions of [exn], a command that returned another status than 0
    ([subprocess.CalledProcessError]), text that is not UTF-8, or
    [SystemExit]. *)
Inductive failure : Type :=
| Exception (e : exn)
| CalledProcessError (cmd : list str) (returncode : Z)
| UnicodeDecodeError (msg : str)
| SystemExit (code : exit_code).

Inductive outcome (A : Type) : Type :=
| Done (a : A)
| Threw (f : failure).
Arguments Done {A} a.
Arguments Threw {A} f.

(** The system calls of [docker_plantuml] and [main], on the state [W] of
    the world. *)
Record Host (W : Type) : Type := {
  (** [shutil.which(name)] *)
  which : str -> W -> option str;
  (** [subprocess.check_output(args, text=True)] *)
  check_output : list str -> W -> outcome str * W;
  (** [subprocess.call(args, stdout=DEVNULL, stderr=DEVNULL)] *)
  call : list str -> W -> outcome Z * W;
  (** [os.path.isfile(path)] *)
  isfile : str -> W -> bool;
  (** [os.makedirs(path, exist_ok=True)] *)
  makedirs : str -> W -> outcome unit * W;
  (** [open(path, encoding="utf-8")] and [f.read()] *)
  read_text : str -> W -> outcome str * W
}.

(** What the process does, in the order it does it: the effects of the
    functions above ([Effect]), the commands it runs, the directories it
    makes and the files it reads. *)
Inductive action : Type :=
| Effect (ev : event)
| Ran (args : list str)
| MadeDirs (path : str)
| ReadFile (path : str).

Record process (W : Type) : Type := {
  pworld : W;
  trace : list action
}.

(** [argparse.Namespace] as [main] reads it; [server] is [None] without
    [--server]. *)
Record Args : Type := {
  arg_file : str;
  arg_output : str;
  arg_server : option str;
  arg_method : str;
  arg_docker : bool;
  arg_port : Z;
  arg_image : str
}.

Module Process.

(** The exit status of the process for what [main] comes to: 0 when it
    returns, the status given to [sys.exit], and 1 for a message given to
    [sys.exit] and for an exception that nothing catches. *)
Definition exit_status_of (A : Type) (r : outcome A) : Z :=
  match r with
  | Done _ => 0%Z
  | Threw (SystemExit (ExitStatus n)) => n
  | Threw _ => 1%Z
  end.

(** The commands of a trace. *)
Definition commands (t : list action) : list (list str) :=
  flat_map (fun a => match a with Ran args => [args] | _ => [] end) t.

(** The requests of a trace. *)
Definition requests (t : list action) : list Request :=
  flat_map (fun a => match a with Effect (Sent q) => [q] | _ => [] end) t.

(** A request to the server at [base]: its URL starts with [base] less
    the slashes at its end. *)
Definition goes_to (base : str) (q : Request) : Prop :=
  Py.startswith (Py.rstrip (N.eqb 0x2F) base) (rq_url q) = true.

Definition public_server : str := lit "https://www.plantuml.com/plantuml".

Section Process.

Variables W T : Type.
Variable env : Env W T.
Variable host : Host W.

(** A function of the sections above, run by the process: it starts from
    the world of the process, and its effects go to the trace. *)
Definition enter (s : process W) : state W := {| world := pworld s; log := [] |}.

Definition leave (s : process W) (s' : state W) : process W :=
  {| pworld := world s'; trace := trace s ++ map Effect (log s') |}.

(** A command that is run and waited for, with its output or its status. *)
Definition run_output (args : list str) (s : process W) : outcome str * process W :=
  let (r, w) := check_output host args (pworld s) in
  (r, {| pworld := w; trace := trace s ++ [Ran args] |}).

Definition run_status (args : list str) (s : process W) : outcome Z * process W :=
  let (r, w) := call host args (pworld s) in
  (r, {| pworld := w; trace := trace s ++ [Ran args] |}).

Definition docker_run (image : str) (port : Z) : list str :=
  [lit "docker"; lit "run"; lit "-d"; lit "--rm"; lit "-p";
   Py.decimal port ++ lit ":8080"; image].

Definition docker_stop (cid : str) : list str :=
  [lit "docker"; lit "stop"; cid].

(** The [finally] block of [docker_plantuml], after a [try] block that came
    to [r]: the container is stopped, the status of the command is dropped,
    and an exception of the call takes the place of [r]. *)
Definition finally_stop (A : Type) (cid : str) (r : outcome A) (s : process W)
  : outcome A * process W :=
  match run_status (docker_stop cid) s with
  | (Done _, s') => (r, s')
  | (Threw f, s') => (Threw f, s')
  end.

Definition docker_not_found : exn :=
  RuntimeError (lit "Docker executable not found in PATH " ++ [0x2013%N]
                ++ lit " install Docker or drop --docker.").

(** [with docker_plantuml(image, port) as base: body(base)]. The generator
    runs to its [yield], the body of the [with] statement runs with the
    value yielded, and whatever the body comes to (a value, an exception,
    [SystemExit]) the generator goes on into its [finally] block. An
    exception before the [yield] leaves the [with] statement and the body
    is not run. [fuel] is for the loop of [_wait_for_server]. *)
Definition docker_plantuml (A : Type) (fuel : nat) (image : str) (port : Z)
  (body : str -> process W -> outcome A * process W) (s : process W)
  : option (outcome A * process W) :=
  match which host (lit "docker") (pworld s) with
  | Some (_ :: _) =>
      match run_output (docker_run image port) s with
      | (Threw f, s1) => Some (Threw f, s1)
      | (Done out, s1) =>
          let cid := Py.strip out in
          match Lifecycle._wait_for_server env fuel port 60 (enter s1) with
          | None => None
          | Some (Raise e, st) =>
              Some (finally_stop cid (Threw (Exception e)) (leave s1 st))
          | Some (Ok _, st) =>
              let (r, s2) := body (lit "http://localhost:" ++ Py.decimal port) (leave s1 st) in
              Some (finally_stop cid r s2)
          end
      end
  | _ => Some (Threw (Exception docker_not_found), s)
  end.

(** [run_exports] as a function of the process: it returns, or it ends in
    [sys.exit(1)]. *)
Definition run (source base method out_dir : str) (s : process W)
  : outcome unit * process W :=
  let (rep, st) := Orchestrator.run_exports env source base method out_dir (enter s) in
  (match Orchestrator.exit_call rep with
   | Some c => Threw (SystemExit (ExitStatus c))
   | None => Done tt
   end,
   leave s st).

Definition file_not_found (file : str) : failure :=
  SystemExit (ExitMessage (lit "Input file '" ++ file ++ lit "' not found.")).

(** [main], from the arguments that [parse_args] returned. *)
Definition main (fuel : nat) (args : Args) (s : process W)
  : option (outcome unit * process W) :=
  if negb (isfile host (arg_file args) (pworld s)) then
    Some (Threw (file_not_found (arg_file args)), s)
  else
    let (made, w1) := makedirs host (arg_output args) (pworld s) in
    let s1 := {| pworld := w1; trace := trace s ++ [MadeDirs (arg_output args)] |} in
    match made with
    | Threw f => Some (Threw f, s1)
    | Done _ =>
        let (text, w2) := read_text host (arg_file args) (pworld s1) in
        let s2 := {| pworld := w2; trace := trace s1 ++ [ReadFile (arg_file args)] |} in
        match text with
        | Threw f => Some (Threw f, s2)
        | Done source =>
            match arg_server args with
            | Some ((_ :: _) as server) =>
                Some (run source (Py.rstrip (N.eqb 0x2F) server)
                        (arg_method args) (arg_output args) s2)
            | _ =>
                if arg_docker args then
                  docker_plantuml fuel (arg_image args) (arg_port args)
                    (fun base => run source base (arg_method args) (arg_output args)) s2
                else
                  Some (run source public_server (arg_method args) (arg_output args) s2)
            end
        end
    end.

End Process.

End Process.

(** ** A scripted system, for the examples *)

Module SimHost.

(** A system with or without Docker, with one input file [diagrams.puml]
    that holds [source]; the container started has the identifier
    [c0ffee], and the commands return the status 0. *)
Definition host (docker : bool) (source : str) : Host Sim.machine :=
  {| which := fun name _ =>
       if docker && Py.eqb name (lit "docker") then Some (lit "/usr/bin/docker") else None;
     check_output := fun _ w => (Done (lit "c0ffee" ++ [LF]), w);
     call := fun _ w => (Done 0%Z, w);
     isfile := fun path _ => Py.eqb path (lit "diagrams.puml");
     makedirs := fun _ w => (Done tt, w);
     read_text := fun _ w => (Done source, w) |}.

(** The same system with an input file that is not UTF-8. *)
Definition unreadable : Host Sim.machine :=
  {| which := which (host true []);
     check_output := check_output (host true []);
     call := call (host true []);
     isfile := isfile (host true []);
     makedirs := makedirs (host true []);
     read_text := fun _ w =>
       (Threw (UnicodeDecodeError (lit "invalid start byte")), w) |}.

Definition boot (answers : list HttpResult) : process Sim.machine :=
  {| pworld := {| Sim.script := answers; Sim.millis := 0; Sim.disk := [] |};
     trace := [] |}.

(** The probe of the wait for the container at port 18080, and the state
    after a wait that one probe ended, with [answers] left to give. *)
Definition probe : Request :=
  Lifecycle.probe_request (lit "http://localhost:18080/png/SoWkIImgAStDuN98pKi1qG00").

Definition probed (answers : list HttpResult) : state Sim.machine :=
  {| world := {| Sim.script := answers; Sim.millis := 0; Sim.disk := [] |};
     log := [Sent probe] |}.

Definition image : str := lit "plantuml/plantuml-server".

Definition args (file : str) (server : option str) (docker : bool) : Args :=
  {| arg_file := file;
     arg_output := lit "./exported";
     arg_server := server;
     arg_method := lit "AUTO";
     arg_docker := docker;
     arg_port := 18080;
     arg_image := image |}.

End SimHost.

(** * Properties *)

(** ** Encoder *)

Module EncoderProps.

Import Encoder.

Lemma land_63_below b : (N.to_nat (N.land b 0x3F) < 64)%nat.
Proof.
  change 0x3F%N with (N.ones 6).
  rewrite N.land_ones.
  assert (H : (b mod 2 ^ 6 < 2 ^ 6)%N) by (apply N.mod_lt; discriminate).
  generalize dependent (b mod 2 ^ 6)%N. intros x H.
  change (2 ^ 6)%N with 64%N in H. lia.
Qed.

Lemma alphabet_symbols : forallb in_alphabet _ALPHABET = true.
Proof. vm_compute. reflexivity. Qed.

Lemma alphabet_length : length _ALPHABET = 64.
Proof. reflexivity. Qed.

Lemma enc6_in_alphabet b : forallb in_alphabet (_enc6 b) = true.
Proof.
  unfold _enc6. cbn [forallb]. rewrite andb_true_r.
  pose proof alphabet_symbols as Hall.
  rewrite forallb_forall in Hall. apply Hall.
  apply nth_In. rewrite alphabet_length. apply land_63_below.
Qed.

Lemma enc6_length b : length (_enc6 b) = 1.
Proof. reflexivity. Qed.

Lemma encode_group_in_alphabet b1 b2 b3 :
  forallb in_alphabet (concat (encode_group b1 b2 b3)) = true.
Proof.
  unfold encode_group. cbn [concat].
  rewrite !forallb_app, !enc6_in_alphabet. reflexivity.
Qed.

Lemma encode_group_length b1 b2 b3 : length (concat (encode_group b1 b2 b3)) = 4.
Proof. reflexivity. Qed.

(** Induction over a list three elements at a time, as the loop reads it. *)
Lemma by_threes (A : Type) (P : list A -> Prop) :
  P [] ->
  (forall a, P [a]) ->
  (forall a b, P [a; b]) ->
  (forall a b c rest, P rest -> P (a :: b :: c :: rest)) ->
  forall l, P l.
Proof.
  intros H0 H1 H2 H3.
  fix IH 1.
  intros [|a [|b [|c rest]]]; [exact H0 | apply H1 | apply H2 |].
  apply H3. apply IH.
Qed.

Lemma encode_bytes_in_alphabet data :
  forallb in_alphabet (_encode_bytes data) = true.
Proof.
  unfold _encode_bytes.
  induction data as [|a|a b|a b c rest IH] using by_threes;
    cbn [encode_groups]; try apply encode_group_in_alphabet; [reflexivity|].
  rewrite concat_app, forallb_app, encode_group_in_alphabet, IH. reflexivity.
Qed.

Lemma encode_bytes_length data :
  length (_encode_bytes data) = 4 * ((length data + 2) / 3).
Proof.
  unfold _encode_bytes.
  induction data as [|a|a b|a b c rest IH] using by_threes;
    cbn [encode_groups]; try reflexivity.
  rewrite concat_app, length_app, encode_group_length, IH.
  cbn [length].
  replace (S (S (S (length rest))) + 2) with (1 * 3 + (length rest + 2)) by lia.
  rewrite Nat.div_add_l by discriminate. lia.
Qed.

Lemma slice_to_back_length (A : Type) (l : list A) :
  length (Py.slice_to_back 2 4 l) = length l - 6.
Proof.
  unfold Py.slice_to_back, Py.slice.
  rewrite length_firstn, length_skipn. lia.
Qed.

Lemma scalar_range c :
  Py.scalar c = true -> (c < 0xD800 \/ (0xDFFF < c /\ c < 0x110000))%N.
Proof.
  unfold Py.scalar. intros H.
  apply orb_prop in H as [H|H].
  - left. now apply N.ltb_lt.
  - right. apply andb_prop in H as [H1 H2]. split; now apply N.ltb_lt.
Qed.

Lemma utf8_char_scalar c : Py.scalar c = true -> exists bs, Py.utf8_char c = Some bs.
Proof.
  intros H. apply scalar_range in H. unfold Py.utf8_char.
  destruct (c <? 0x80)%N; [eauto|].
  destruct (c <? 0x800)%N; [eauto|].
  destruct (c <? 0x10000)%N eqn:E3.
  - destruct ((0xD800 <=? c) && (c <=? 0xDFFF))%N eqn:E4; [|eauto].
    exfalso. apply andb_prop in E4 as [E5 E6].
    apply N.leb_le in E5, E6. apply N.ltb_lt in E3. lia.
  - destruct (c <? 0x110000)%N eqn:E5; [eauto|].
    exfalso. apply N.ltb_ge in E3, E5. lia.
Qed.

(** [text.encode()] raises on no text of scalar values. *)
Lemma encode_scalars text :
  forallb Py.scalar text = true -> exists raw, Py.encode text = Ok raw.
Proof.
  induction text as [|c text IH]; cbn [forallb Py.encode]; intros H.
  - eauto.
  - apply andb_prop in H as [Hc Ht].
    destruct (utf8_char_scalar c Hc) as [bs ->].
    destruct (IH Ht) as [rest ->]. eauto.
Qed.

(** C5. Whatever [zlib.compress] returns, and for every input text: the
    encoder returns a payload for every text that UTF-8 can encode (a text
    without surrogates), and every character of a payload it returns is one
    of the 64 symbols 0-9, A-Z, a-z, hyphen, underscore. *)
Theorem payload_in_alphabet (zlib : bytes -> bytes) (text : str) :
  (forall data, forallb in_alphabet (_encode_bytes data) = true) /\
  (forallb Py.scalar text = true ->
   exists payload, plantuml_encode zlib text = Ok payload) /\
  (forall payload, plantuml_encode zlib text = Ok payload ->
   forall c, In c payload -> in_alphabet c = true).
Proof.
  split; [exact encode_bytes_in_alphabet|]. split.
  - intros H. destruct (encode_scalars text H) as [raw Hraw].
    unfold plantuml_encode. rewrite Hraw. eauto.
  - unfold plantuml_encode. intros payload H c Hc.
    destruct (Py.encode text) as [raw|e]; [|discriminate].
    injection H as <-.
    pose proof (encode_bytes_in_alphabet (Py.slice_to_back 2 4 (zlib raw))) as Hall.
    rewrite forallb_forall in Hall. auto.
Qed.

Lemma plantuml_encode_length (zlib : bytes -> bytes) (text : str) (raw : bytes) :
  Py.encode text = Ok raw ->
  exists payload,
    plantuml_encode zlib text = Ok payload /\
    length payload = 4 * ((length (zlib raw) - 6 + 2) / 3).
Proof.
  intros Hraw. unfold plantuml_encode. rewrite Hraw.
  eexists. split; [reflexivity|].
  rewrite encode_bytes_length, slice_to_back_length. reflexivity.
Qed.

(** C9, as amended. The payload of a text that UTF-8 can encode has
    [4 * ceil(m / 3)] characters, where [m] is the length of the zlib
    stream of the text's bytes less its 2-byte header and its 4-byte
    checksum: a multiple of 4 that the compressor decides, and not the
    length of the text. *)
Theorem payload_length (zlib : bytes -> bytes) (text : str) (raw : bytes) :
  Py.encode text = Ok raw ->
  exists payload,
    plantuml_encode zlib text = Ok payload /\
    length payload = 4 * ((length (zlib raw) - 6 + 2) / 3) /\
    length payload mod 4 = 0.
Proof.
  intros Hraw.
  destruct (plantuml_encode_length zlib text Hraw) as (payload & Hp & Hlen).
  exists payload. repeat split; trivial.
  rewrite Hlen, Nat.mul_comm. apply Nat.Div0.mod_mul.
Qed.

(** The empty text: its zlib stream has 8 bytes, its payload the 4
    characters [0m00]. *)
Lemma payload_length_witness :
  exists payload,
    plantuml_encode Sim.zlib_of_examples [] = Ok payload /\
    length payload = 4 * ((length (Sim.zlib_of_examples []) - 6 + 2) / 3) /\
    length payload mod 4 = 0.
Proof. apply (payload_length Sim.zlib_of_examples [] (raw := [])). reflexivity. Defined.

(** C9, as it is written, fails: the payload of the one-character text [a]
    has a multiple of 4 characters with every compressor, so never 1. *)
Lemma payload_length_differs :
  ~ (exists zlib payload,
       plantuml_encode zlib (lit "a") = Ok payload /\
       length payload = length (lit "a")).
Proof.
  intros (zlib & payload & Henc & Hlen).
  destruct (@plantuml_encode_length zlib (lit "a") [0x61%N] eq_refl) as (p & Hp & Hp4).
  rewrite Henc in Hp. injection Hp as <-.
  rewrite Hlen in Hp4. cbn [lit list_ascii_of_string map length] in Hp4. lia.
Qed.

End EncoderProps.

(** ** Substrings *)

Module PyProps.

Lemma startswith_spec prefix s :
  Py.startswith prefix s = true <-> exists post, s = prefix ++ post.
Proof.
  revert s. induction prefix as [|p prefix IH]; intros s; cbn [Py.startswith].
  - split; [intros _; now exists s | reflexivity].
  - destruct s as [|x s].
    + split; [discriminate | intros [post H]; discriminate].
    + rewrite andb_true_iff, N.eqb_eq, IH. split.
      * intros [-> [post ->]]. now exists post.
      * intros [post H]. injection H as -> ->. split; [reflexivity | now exists post].
Qed.

Lemma contains_spec sub s :
  Py.contains sub s = true <-> exists pre post, s = pre ++ sub ++ post.
Proof.
  induction s as [|x s IH]; cbn [Py.contains]; rewrite orb_true_iff, startswith_spec.
  - split.
    + intros [[post H]|H]; [|discriminate]. now exists [], post.
    + intros (pre & post & H). left.
      destruct pre; [now exists post | discriminate].
  - rewrite IH. split.
    + intros [[post H]|(pre & post & H)].
      * now exists [], post.
      * exists (x :: pre), post. now rewrite H.
    + intros (pre & post & H). destruct pre as [|y pre].
      * left. now exists post.
      * right. injection H as _ H. now exists pre, post.
Qed.

End PyProps.

(** ** Tokenizer *)

Module TokenizerProps.

Import Tokenizer PyProps.

(** *** The loops *)

Lemma collect_app ls : fst (collect ls) ++ snd (collect ls) = ls.
Proof.
  induction ls as [|l ls IH]; cbn [collect]; [reflexivity|].
  destruct (negb (Py.contains _END_DIRECTIVE l)); [|reflexivity].
  destruct (collect ls) as [body after]. cbn [fst snd app] in *. now rewrite IH.
Qed.

Lemma collect_left_shorter ls : length (snd (collect ls)) <= length ls.
Proof.
  rewrite <- (collect_app ls) at 2. rewrite length_app. lia.
Qed.

(** One round of the outer loop, with the inner loop as [collect]. *)
Lemma scan_cons count line rest :
  scan count (line :: rest) =
  match _START_RE_match (Py.strip line) with
  | None => scan count rest
  | Some group1 =>
      (sanitize (raw_name group1 count), line :: fst (collect rest))
        :: scan (S count) (snd (collect rest))
  end.
Proof.
  cbn [scan]. destruct (_START_RE_match (Py.strip line)) as [group1|]; [|reflexivity].
  change (line :: fst (collect rest)) with ([line] ++ fst (collect rest)).
  generalize [line] as buf.
  induction rest as [|l ls IH]; intros buf; cbn [collect].
  - cbn [fst snd scan]. now rewrite app_nil_r.
  - destruct (negb (Py.contains _END_DIRECTIVE l)).
    + rewrite IH. destruct (collect ls) as [body after]. cbn [fst snd].
      now rewrite <- app_assoc.
    + reflexivity.
Qed.

Lemma scan_skip count line rest :
  is_start line = false -> scan count (line :: rest) = scan count rest.
Proof.
  unfold is_start. rewrite scan_cons.
  destruct (_START_RE_match (Py.strip line)); [discriminate | reflexivity].
Qed.

Lemma scan_open count line rest :
  is_start line = true ->
  exists group1,
    _START_RE_match (Py.strip line) = Some group1 /\
    scan count (line :: rest) =
    (sanitize (raw_name group1 count), line :: fst (collect rest))
      :: scan (S count) (snd (collect rest)).
Proof.
  unfold is_start. rewrite scan_cons.
  destruct (_START_RE_match (Py.strip line)) as [g|]; [|discriminate].
  intros _. now exists g.
Qed.

(** Induction over the lines the way the outer loop goes through them: past
    a line that opens no unit, or past a whole unit. *)
Lemma scan_ind (P : list str -> Prop) :
  P [] ->
  (forall line rest, is_start line = false -> P rest -> P (line :: rest)) ->
  (forall line rest, is_start line = true -> P (snd (collect rest)) -> P (line :: rest)) ->
  forall lines, P lines.
Proof.
  intros Hnil Hskip Hopen lines.
  remember (length lines) as n eqn:Hn.
  assert (Hle : length lines <= n) by lia. clear Hn.
  revert lines Hle. induction n as [|n IH]; intros [|line rest] Hle; cbn [length] in Hle;
    try exact Hnil; [lia|].
  destruct (is_start line) eqn:Hs.
  - apply Hopen; [exact Hs|]. apply IH.
    pose proof (collect_left_shorter rest). lia.
  - apply Hskip; [exact Hs|]. apply IH. lia.
Qed.

(** *** Units and start directives *)

Lemma count_starts_app a b : count_starts (a ++ b) = count_starts a + count_starts b.
Proof. unfold count_starts. now rewrite filter_app, length_app. Qed.

Lemma count_starts_cons l ls :
  count_starts (l :: ls) = (if is_start l then 1 else 0) + count_starts ls.
Proof. unfold count_starts. cbn [filter]. now destruct (is_start l). Qed.

Lemma tiles_skip l ls bufs :
  is_start l = false -> tiles ls bufs -> tiles (l :: ls) bufs.
Proof.
  intros Hl Ht. inversion Ht as [tail H0 | gap buf rest bufs' H0 Hrest]; subst.
  - apply tiles_end. now rewrite count_starts_cons, Hl.
  - change (l :: gap ++ buf ++ rest) with ((l :: gap) ++ buf ++ rest).
    apply tiles_unit; [|exact Hrest]. now rewrite count_starts_cons, Hl.
Qed.

Lemma scan_tiles lines : forall count, tiles lines (map snd (scan count lines)).
Proof.
  induction lines as [|line rest Hs IH|line rest Hs IH] using scan_ind; intros count.
  - now apply tiles_end.
  - rewrite (scan_skip count line rest Hs). now apply tiles_skip.
  - destruct (scan_open count line rest Hs) as (g & _ & ->). cbn [map snd].
    rewrite <- (collect_app rest) at 1.
    apply (tiles_unit [] (line :: fst (collect rest))); [reflexivity | apply IH].
Qed.

Lemma list_sum_step (n : nat) (l : list nat) : list_sum (n :: l) = n + list_sum l.
Proof. reflexivity. Qed.

Lemma tiles_count lines bufs :
  tiles lines bufs -> count_starts lines = list_sum (map count_starts bufs).
Proof.
  induction 1 as [tail H0 | gap buf rest bufs H0 _ IH]; [exact H0|].
  cbn [map]. rewrite list_sum_step, !count_starts_app, H0, IH. reflexivity.
Qed.

(** Every unit opens with a start directive. *)
Lemma scan_heads lines : forall count,
  Forall (fun u => exists l rest, snd u = l :: rest /\ is_start l = true) (scan count lines).
Proof.
  induction lines as [|line rest Hs IH|line rest Hs IH] using scan_ind; intros count.
  - constructor.
  - rewrite (scan_skip count line rest Hs). apply IH.
  - destruct (scan_open count line rest Hs) as (g & _ & ->).
    constructor; [|apply IH]. cbn [snd]. eauto.
Qed.

Lemma starts_of_units (units : list unit_lines) :
  Forall (fun u => exists l rest, snd u = l :: rest /\ is_start l = true) units ->
  list_sum (map count_starts (map snd units)) =
  length units + list_sum (map (fun u => count_starts (tl (snd u))) units).
Proof.
  induction 1 as [|u units (l & rest & Hu & Hl) _ IH]; [reflexivity|].
  cbn [map length]. rewrite !list_sum_step, IH, Hu, count_starts_cons, Hl. cbn [tl]. lia.
Qed.

Lemma list_sum_zero (A : Type) (f : A -> nat) (l : list A) :
  Forall (fun x => f x = 0) l -> list_sum (map f l) = 0.
Proof.
  induction 1 as [|x l Hx _ IH]; cbn [map]; [reflexivity|].
  rewrite list_sum_step. lia.
Qed.

(** C4, as amended. The tokenizer yields one unit for every start directive
    it meets outside of a unit, in the order of the document: the units lie
    one after the other in the lines of the document, each opens with a
    start directive, and no start directive lies outside of them. A start
    directive after the first line of a unit is content of that unit, so a
    document with [k] start directives yields [k] units less the directives
    inside units: at most [k], and exactly [k] when no unit holds one after
    its first line. *)
Theorem units_of_start_directives (text : str) :
  let lines := Py.splitlines text in
  let units := scan 1 lines in
  iter_diagrams text = map (fun u => (fst u, unit_text (snd u))) units /\
  tiles lines (map snd units) /\
  Forall (fun u => exists l rest, snd u = l :: rest /\ is_start l = true) units /\
  count_starts lines =
    length (iter_diagrams text) +
    list_sum (map (fun u => count_starts (tl (snd u))) units) /\
  length (iter_diagrams text) <= count_starts lines /\
  (Forall (fun u => count_starts (tl (snd u)) = 0) units ->
   length (iter_diagrams text) = count_starts lines).
Proof.
  intros lines units.
  assert (Hlen : length (iter_diagrams text) = length units)
    by (unfold iter_diagrams; apply length_map).
  assert (Hcount : count_starts lines =
                   length units + list_sum (map (fun u => count_starts (tl (snd u))) units)).
  { rewrite (tiles_count (scan_tiles lines 1)).
    apply starts_of_units, scan_heads. }
  split; [reflexivity|]. split; [apply scan_tiles|]. split; [apply scan_heads|].
  rewrite Hlen. split; [exact Hcount|]. split; [lia|].
  intros Hnone. rewrite Hcount, (list_sum_zero _ Hnone). lia.
Qed.

(** Two units, each closed before the next start directive: two start
    directives, two units. *)
Lemma units_of_start_directives_witness :
  let text := Sim.document ["@startuml A"; "a -> b"; "@enduml"; "@startuml"; "@enduml"]%string in
  length (iter_diagrams text) = count_starts (Py.splitlines text) /\
  length (iter_diagrams text) = 2.
Proof.
  cbv zeta. split; [|reflexivity].
  apply (units_of_start_directives
           (Sim.document ["@startuml A"; "a -> b"; "@enduml"; "@startuml"; "@enduml"]%string)).
  vm_compute. repeat constructor.
Defined.

(** C4, as it is written, fails: this document has two start directives and
    yields one unit, whose second line is the second directive. *)
Lemma nested_start_directive_is_content :
  let text := Sim.document ["@startuml"; "@startuml"; "@enduml"]%string in
  count_starts (Py.splitlines text) = 2 /\
  iter_diagrams text =
    [(lit "diagram_01", Sim.document ["@startuml"; "@startuml"; "@enduml"]%string)].
Proof. vm_compute. split; reflexivity. Qed.

(** *** Names *)

Lemma match_name_nonempty s : match_name s <> Some [].
Proof.
  unfold match_name.
  destruct (Py.takewhile Py.isspace s); [discriminate|].
  destruct (Py.takewhile _ _); discriminate.
Qed.

(** The [or] of the name: the fallback is taken only when the group did not
    take part in the match. *)
Lemma raw_name_spec s group1 count :
  _START_RE_match s = Some group1 ->
  raw_name group1 count =
  match group1 with
  | Some arg => arg
  | None => lit "diagram_" ++ Py.decimal02 count
  end.
Proof.
  unfold _START_RE_match.
  destruct (match_literal START_LITERAL s) as [rest|]; [|discriminate].
  intros H. injection H as <-.
  pose proof (match_name_nonempty rest) as Hne.
  destruct (match_name rest) as [[|c arg]|]; [now elim Hne | reflexivity | reflexivity].
Qed.

Lemma scan_names lines : forall count i name buf,
  nth_error (scan count lines) i = Some (name, buf) ->
  exists line rest group1,
    buf = line :: rest /\
    _START_RE_match (Py.strip line) = Some group1 /\
    name = sanitize match group1 with
                    | Some arg => arg
                    | None => lit "diagram_" ++ Py.decimal02 (count + i)
                    end.
Proof.
  induction lines as [|line rest Hs IH|line rest Hs IH] using scan_ind;
    intros count i name buf.
  - destruct i; discriminate.
  - rewrite (scan_skip count line rest Hs). apply IH.
  - destruct (scan_open count line rest Hs) as (g & Hg & ->).
    destruct i as [|i]; cbn [nth_error].
    + intros H. injection H as <- <-.
      exists line, (fst (collect rest)), g.
      rewrite Nat.add_0_r, (raw_name_spec _ count Hg). auto.
    + intros H. apply IH in H. replace (count + S i) with (S count + i) by lia. exact H.
Qed.

(** The fallback name is made of characters that the substitution keeps. *)
Lemma string_of_digits d :
  Forall (fun c => (0x30 <= c)%N /\ (c <= 0x39)%N) (lit (NilEmpty.string_of_uint d)).
Proof.
  unfold lit.
  induction d as [|d IH|d IH|d IH|d IH|d IH|d IH|d IH|d IH|d IH|d IH];
    cbn [NilEmpty.string_of_uint list_ascii_of_string map];
    [constructor| | | | | | | | | |];
    (constructor; [cbv beta; split; apply N.leb_le; reflexivity | exact IH]).
Qed.

Lemma string_of_uint_digits d :
  Forall (fun c => (0x30 <= c)%N /\ (c <= 0x39)%N) (lit (NilZero.string_of_uint d)).
Proof.
  destruct d; try apply string_of_digits.
  constructor; [cbv beta; split; apply N.leb_le; reflexivity | constructor].
Qed.

Lemma decimal02_digits n :
  Forall (fun c => (0x30 <= c)%N /\ (c <= 0x39)%N) (Py.decimal02 n).
Proof.
  unfold Py.decimal02, Py.decimal. apply Forall_app. split.
  - apply Forall_forall. intros c Hc. apply repeat_spec in Hc. subst c.
    cbv beta. split; apply N.leb_le; reflexivity.
  - destruct (Z.of_nat n) as [|p|p] eqn:E; [| |lia]; apply string_of_uint_digits.
Qed.

Lemma keeps_digit c : (0x30 <= c)%N -> (c <= 0x39)%N -> keeps c = true.
Proof.
  intros H1 H2.
  assert (H : In c (map N.of_nat (seq 48 10))).
  { rewrite <- (N2Nat.id c). apply in_map, in_seq. lia. }
  assert (Hall : forallb keeps (map N.of_nat (seq 48 10)) = true) by (vm_compute; reflexivity).
  rewrite forallb_forall in Hall. now apply Hall.
Qed.

Lemma sanitize_fallback n :
  sanitize (lit "diagram_" ++ Py.decimal02 n) = lit "diagram_" ++ Py.decimal02 n.
Proof.
  unfold sanitize. rewrite map_app. f_equal.
  pose proof (decimal02_digits n) as H.
  induction H as [|c l [H1 H2] _ IH]; [reflexivity|].
  cbn [map]. now rewrite (keeps_digit H1 H2), IH.
Qed.

(** C7. The [i]-th unit of a document (counted from 0) is the [i]-th
    buffer of the scan of its lines; the first line of that buffer is a
    start directive, and the name of the unit is the sanitized argument of
    that directive when it has one, and [diagram_NN] otherwise, where [NN]
    is [i + 1] in two digits at least: the counter goes up with every unit,
    named or not. So when the first unit opens
    with [@startuml MyDiagram] and the second with a bare [@startuml],
    their names are [MyDiagram] and [diagram_02]. *)
Theorem unit_names (text : str) :
  (forall i name body,
     nth_error (iter_diagrams text) i = Some (name, body) ->
     exists line rest group1,
       nth_error (scan 1 (Py.splitlines text)) i = Some (name, line :: rest) /\
       body = unit_text (line :: rest) /\
       _START_RE_match (Py.strip line) = Some group1 /\
       name = match group1 with
              | Some arg => sanitize arg
              | None => lit "diagram_" ++ Py.decimal02 (i + 1)
              end) /\
  (forall name1 line1 rest1 name2 line2 rest2 more,
     scan 1 (Py.splitlines text) = (name1, line1 :: rest1) :: (name2, line2 :: rest2) :: more ->
     Py.strip line1 = lit "@startuml MyDiagram" ->
     Py.strip line2 = lit "@startuml" ->
     name1 = lit "MyDiagram" /\ name2 = lit "diagram_02").
Proof.
  split.
  - intros i name body. unfold iter_diagrams. rewrite nth_error_map.
    destruct (nth_error _ i) as [[n buf]|] eqn:Hi;
      [|intros H; discriminate H].
    cbn [option_map fst snd]. intros H. injection H as <- <-.
    pose proof Hi as Hn.
    apply scan_names in Hn. destruct Hn as (line & rest & g & -> & Hg & Hname).
    exists line, rest, g. rewrite (Nat.add_comm i 1).
    split; [reflexivity|]. split; [reflexivity|]. split; [exact Hg|].
    destruct g as [arg|]; [exact Hname | now rewrite Hname, sanitize_fallback].
  - intros name1 line1 rest1 name2 line2 rest2 more Hscan H1 H2.
    pose proof (scan_names (Py.splitlines text) 1 0) as N1.
    pose proof (scan_names (Py.splitlines text) 1 1) as N2.
    rewrite Hscan in N1, N2.
    destruct (N1 _ _ eq_refl) as (l1 & r1 & g1 & E1 & G1 & ->).
    destruct (N2 _ _ eq_refl) as (l2 & r2 & g2 & E2 & G2 & ->).
    injection E1 as <- _. injection E2 as <- _.
    rewrite H1 in G1. rewrite H2 in G2.
    vm_compute in G1. vm_compute in G2.
    injection G1 as <-. injection G2 as <-.
    split; vm_compute; reflexivity.
Qed.

(** The document of the claim, a unit with a name and then one without:
    the second unit is the second buffer of the scan, its first line is the
    bare directive, and it is [diagram_02]; and the names of the two units
    are [MyDiagram] and [diagram_02]. *)
Lemma unit_names_witness :
  let text := Sim.document
    ["@startuml MyDiagram"; "Alice -> Bob"; "@enduml";
     "@startuml"; "Bob -> Alice"; "@enduml"]%string in
  (exists line rest group1,
     nth_error (scan 1 (Py.splitlines text)) 1 = Some (lit "diagram_02", line :: rest) /\
     Sim.document ["@startuml"; "Bob -> Alice"; "@enduml"]%string = unit_text (line :: rest) /\
     _START_RE_match (Py.strip line) = Some group1 /\
     lit "diagram_02" = match group1 with
                        | Some arg => sanitize arg
                        | None => lit "diagram_" ++ Py.decimal02 (1 + 1)
                        end) /\
  (nth 0 (map fst (iter_diagrams text)) [] = lit "MyDiagram" /\
   nth 1 (map fst (iter_diagrams text)) [] = lit "diagram_02").
Proof.
  intros text. split.
  - apply (proj1 (unit_names text) 1). reflexivity.
  - apply (proj2 (unit_names text)
             (nth 0 (map fst (iter_diagrams text)) [])
             (lit "@startuml MyDiagram") (map lit ["Alice -> Bob"; "@enduml"]%string)
             (nth 1 (map fst (iter_diagrams text)) [])
             (lit "@startuml") (map lit ["Bob -> Alice"; "@enduml"]%string)
             []).
    + vm_compute. reflexivity.
    + reflexivity.
    + reflexivity.
Defined.

(** *** The end directive *)

Lemma collect_body (body ls : list str) :
  Forall (fun l : str => Py.contains _END_DIRECTIVE l = false) body ->
  collect (body ++ ls) = (body ++ fst (collect ls), snd (collect ls)).
Proof.
  induction 1 as [|l body Hl _ IH]; cbn [app collect].
  - now destruct (collect ls).
  - rewrite Hl, IH. reflexivity.
Qed.

(** C10. The start directive is matched without regard to case and the end
    directive with it. Inside an open unit (after its first line [opener]
    and lines [body] that hold no end directive), a line holds the end
    directive exactly when it has the code points of [@enduml], in this
    case, somewhere in it; such a line is appended and closes the unit, the
    scan going on after it with the next count. Any other line, [@ENDUML]
    or [@EndUml] for one, is appended as content and the unit stays open
    over the lines that follow. *)
Theorem end_directive_is_case_sensitive (count : nat) (opener : str)
  (body : list str) (l : str) (rest : list str) :
  is_start opener = true ->
  Forall (fun x => Py.contains _END_DIRECTIVE x = false) body ->
  (Py.contains _END_DIRECTIVE l = true <->
   exists pre post, l = pre ++ lit "@enduml" ++ post) /\
  (Py.contains _END_DIRECTIVE l = true ->
   exists name,
     scan count (opener :: body ++ l :: rest) =
     (name, opener :: body ++ [l]) :: scan (S count) rest) /\
  (Py.contains _END_DIRECTIVE l = false ->
   exists name,
     scan count (opener :: body ++ l :: rest) =
     (name, opener :: body ++ l :: fst (collect rest))
       :: scan (S count) (snd (collect rest))) /\
  Py.contains _END_DIRECTIVE (lit "@ENDUML") = false /\
  Py.contains _END_DIRECTIVE (lit "@EndUml") = false /\
  is_start (lit "@STARTUML") = true /\
  is_start (lit "@StartUml") = true.
Proof.
  intros Hopen Hbody.
  destruct (scan_open count opener (body ++ l :: rest) Hopen) as (g & _ & Hscan).
  rewrite (collect_body (l :: rest) Hbody) in Hscan. cbn [fst snd collect] in Hscan.
  split; [apply contains_spec|].
  split; [|split].
  - intros Hl. rewrite Hl in Hscan. cbn [negb fst snd] in Hscan. eauto.
  - intros Hl. rewrite Hl in Hscan. cbn [negb] in Hscan.
    destruct (collect rest) as [more after]. cbn [fst snd] in *. eauto.
  - repeat split; vm_compute; reflexivity.
Qed.

(** A unit with [@ENDUML] in it: the line is content, and the unit ends at
    the [@enduml] after it. *)
Lemma end_directive_is_case_sensitive_witness :
  exists name,
    scan 1 (map lit ["@startuml"; "a -> b"; "@ENDUML"; "@enduml"; "tail"]%string) =
    (name, map lit ["@startuml"; "a -> b"; "@ENDUML"; "@enduml"]%string)
      :: scan 2 [lit "tail"].
Proof.
  destruct (@end_directive_is_case_sensitive 1 (lit "@startuml") [lit "a -> b"]
              (lit "@ENDUML") (map lit ["@enduml"; "tail"]%string))
    as (_ & _ & H & _).
  - reflexivity.
  - repeat constructor.
  - exact (H eq_refl).
Defined.

(** *** Sanitized names *)

Lemma below_128 c : (c < 128)%N -> In c (map N.of_nat (seq 0 128)).
Proof.
  intros H. rewrite <- (N2Nat.id c). apply in_map, in_seq. lia.
Qed.

Lemma keeps_ascii c : (c < 128)%N -> keeps c = in_name_set c.
Proof.
  intros H. apply below_128 in H.
  assert (Hall : forallb (fun c => Bool.eqb (keeps c) (in_name_set c))
                         (map N.of_nat (seq 0 128)) = true)
    by (vm_compute; reflexivity).
  rewrite forallb_forall in Hall. apply Hall in H. now apply eqb_prop.
Qed.

Lemma keeps_beyond_ascii c : (128 <= c)%N -> keeps c = Py.isalnum c.
Proof.
  intros H. unfold keeps, Py.isword.
  assert (E : forall k, (k < 128)%N -> (c =? k)%N = false)
    by (intros k Hk; apply N.eqb_neq; lia).
  rewrite !E by reflexivity. now rewrite !orb_false_r.
Qed.

Lemma name_set_is_ascii c : in_name_set c = true -> (c < 128)%N.
Proof.
  unfold in_name_set. rewrite !orb_true_iff, !andb_true_iff, !N.leb_le, !N.eqb_eq. lia.
Qed.

Lemma keeps_spec c :
  keeps c = in_name_set c || (128 <=? c)%N && Py.isalnum c.
Proof.
  destruct (N.ltb_spec c 128) as [H|H].
  - rewrite (keeps_ascii H).
    replace (128 <=? c)%N with false by (symmetry; apply N.leb_gt; exact H).
    now rewrite orb_false_r.
  - rewrite (keeps_beyond_ascii H).
    replace (128 <=? c)%N with true by (symmetry; apply N.leb_le; exact H).
    destruct (in_name_set c) eqn:E; [|reflexivity].
    apply name_set_is_ascii in E. lia.
Qed.

(** C6, as amended. Sanitization goes character by character. A character
    of [[A-Za-z0-9_.-]] stays as it is, every other ASCII character becomes
    an underscore, and a character beyond ASCII stays when Unicode holds it
    for a letter or a number (the class [\w] of the pattern) and becomes an
    underscore otherwise. The name [foo bar!] sanitizes to [foo_bar_]. *)
Theorem sanitize_spec (raw : str) :
  length (sanitize raw) = length raw /\
  (forall i c,
     nth_error raw i = Some c ->
     nth_error (sanitize raw) i =
     Some (if in_name_set c || (128 <=? c)%N && Py.isalnum c then c else 0x5F%N)) /\
  sanitize (lit "foo bar!") = lit "foo_bar_".
Proof.
  split; [apply length_map|]. split; [|reflexivity].
  intros i c H. unfold sanitize. rewrite nth_error_map, H. cbn [option_map].
  now rewrite keeps_spec.
Qed.

(** C6, as it is written, fails: [e] with an acute accent (U+00E9) is
    outside of [[A-Za-z0-9_.-]], and it is left unchanged. *)
Lemma sanitize_keeps_accented_letter :
  in_name_set 0xE9 = false /\
  sanitize (lit "caf" ++ [0xE9%N]) = lit "caf" ++ [0xE9%N].
Proof. vm_compute. split; reflexivity. Qed.

End TokenizerProps.

(** ** Transport *)

Module TransportProps.

Import Transport PyProps.

Section TransportProps.

Variables W T : Type.
Variable env : Env W T.

Lemma send_responded r s resp :
  fst (http env r (world s)) = Responded resp ->
  send env r s = (Ok resp, sent env r s).
Proof. unfold send. now intros ->. Qed.

Lemma send_failed r s msg :
  fst (http env r (world s)) = Failed msg ->
  send env r s = (Raise (RequestException msg), sent env r s).
Proof. unfold send. now intros ->. Qed.

Lemma export_post_responded diagram base data s r :
  Py.encode diagram = Ok data ->
  fst (http env (post_request base data) (world s)) = Responded r ->
  _export_post env diagram base s =
  (Ok (if _is_png r then Some (content r) else None), sent env (post_request base data) s).
Proof.
  intros Hd Hr. unfold _export_post, bind, lift, ret.
  now rewrite Hd, (send_responded _ _ Hr).
Qed.

Lemma export_post_failed diagram base data s msg :
  Py.encode diagram = Ok data ->
  fst (http env (post_request base data) (world s)) = Failed msg ->
  _export_post env diagram base s =
  (Raise (RequestException msg), sent env (post_request base data) s).
Proof.
  intros Hd Hr. unfold _export_post, bind, lift, ret.
  now rewrite Hd, (send_failed _ _ Hr).
Qed.

Lemma export_get_responded diagram base code s r :
  Encoder.plantuml_encode (zlib_compress9 env) diagram = Ok code ->
  fst (http env (get_request base code) (world s)) = Responded r ->
  _export_get env diagram base s =
  (if _is_png r then Ok (content r) else Raise (get_failed r),
   sent env (get_request base code) s).
Proof.
  intros Hc Hr. unfold _export_get, bind, lift, ret, raise.
  rewrite Hc, (send_responded _ _ Hr). now destruct (_is_png r).
Qed.

Lemma export_get_failed diagram base code s msg :
  Encoder.plantuml_encode (zlib_compress9 env) diagram = Ok code ->
  fst (http env (get_request base code) (world s)) = Failed msg ->
  _export_get env diagram base s =
  (Raise (RequestException msg), sent env (get_request base code) s).
Proof.
  intros Hc Hr. unfold _export_get, bind, lift, ret, raise.
  now rewrite Hc, (send_failed _ _ Hr).
Qed.

Lemma is_png_spec r :
  _is_png r = true <-> exists rest, content r = _PNG_MAGIC ++ rest.
Proof. apply startswith_spec. Qed.

(** A PNG body is not [b""], so it is true for [or]. *)
Lemma is_png_nonempty r :
  _is_png r = true -> exists c rest, content r = c :: rest.
Proof.
  intros H. apply is_png_spec in H as [rest ->]. cbn [_PNG_MAGIC app]. eauto.
Qed.

(** The three branches of [export_png], by [method.upper()]. *)
Lemma export_png_POST diagram base method :
  upper env method = lit "POST" ->
  export_png env diagram base method =
  (img <- _export_post env diagram base ;;
   match img with
   | None => raise (RuntimeError (lit "Server did not return PNG on POST."))
   | Some png => ret png
   end).
Proof. unfold export_png. intros ->. reflexivity. Qed.

Lemma export_png_GET diagram base method :
  upper env method = lit "GET" ->
  export_png env diagram base method = _export_get env diagram base.
Proof. unfold export_png. intros ->. reflexivity. Qed.

Lemma export_png_AUTO diagram base method :
  upper env method = lit "AUTO" ->
  export_png env diagram base method =
  (img <- _export_post env diagram base ;;
   match img with
   | Some ((_ :: _) as png) => ret png
   | _ => _export_get env diagram base
   end).
Proof. unfold export_png. intros ->. reflexivity. Qed.

(** [export_png] under [AUTO], by what [_export_post] came to. *)
Lemma export_auto_post_png diagram base method s r s' :
  upper env method = lit "AUTO" ->
  _export_post env diagram base s = (Ok (if _is_png r then Some (content r) else None), s') ->
  _is_png r = true ->
  export_png env diagram base method s = (Ok (content r), s').
Proof.
  intros Hm Hp Hr. rewrite (export_png_AUTO diagram base method Hm).
  unfold bind. rewrite Hp, Hr.
  destruct (is_png_nonempty r Hr) as (c & rest & ->). reflexivity.
Qed.

Lemma export_auto_post_other diagram base method s r s' :
  upper env method = lit "AUTO" ->
  _export_post env diagram base s = (Ok (if _is_png r then Some (content r) else None), s') ->
  _is_png r = false ->
  export_png env diagram base method s = _export_get env diagram base s'.
Proof.
  intros Hm Hp Hr. rewrite (export_png_AUTO diagram base method Hm).
  unfold bind. now rewrite Hp, Hr.
Qed.

Lemma export_auto_post_raised diagram base method s e s' :
  upper env method = lit "AUTO" ->
  _export_post env diagram base s = (Raise e, s') ->
  export_png env diagram base method s = (Raise e, s').
Proof.
  intros Hm Hp. rewrite (export_png_AUTO diagram base method Hm).
  unfold bind. now rewrite Hp.
Qed.

Lemma export_post_method diagram base method s r s' :
  upper env method = lit "POST" ->
  _export_post env diagram base s = (Ok (if _is_png r then Some (content r) else None), s') ->
  export_png env diagram base method s =
  (if _is_png r then Ok (content r)
   else Raise (RuntimeError (lit "Server did not return PNG on POST.")), s').
Proof.
  intros Hm Hp. rewrite (export_png_POST diagram base method Hm).
  unfold bind, ret, raise. rewrite Hp. now destruct (_is_png r).
Qed.

Lemma is_png_content r r' : content r' = content r -> _is_png r' = _is_png r.
Proof. unfold _is_png. now intros ->. Qed.

(** What [_export_get] returns is never the body of a response that is no
    PNG image. *)
Lemma export_get_not_other diagram base code s r :
  Encoder.plantuml_encode (zlib_compress9 env) diagram = Ok code ->
  _is_png r = false ->
  fst (_export_get env diagram base s) <> Ok (content r).
Proof.
  intros Hc Hr.
  destruct (fst (http env (get_request base code) (world s))) as [r2|msg] eqn:Hg.
  - rewrite (export_get_responded _ _ _ Hc Hg). cbn [fst].
    destruct (_is_png r2) eqn:H2; [|discriminate].
    intros H. injection H as H. apply is_png_content in H. congruence.
  - rewrite (export_get_failed _ _ _ Hc Hg). discriminate.
Qed.

(** C1, as amended. Under [AUTO] (a method that [upper()] turns into
    [AUTO]) the POST request is sent first. When it
    is answered with a PNG body, that body is returned and no GET is sent.
    When it is answered with any other body, whatever the status, the GET
    request is sent next: a PNG body in its answer is returned with no
    error, any other answer raises [GET failed: HTTP] with the status of the
    GET answer. An exception of the POST call (no connection, time out)
    ends the export with that exception and without a GET request, and an
    exception of the GET call ends it with that one. *)
Theorem auto_post_then_get (diagram base method : str) (data : bytes) (code : str)
  (s : state W) :
  upper env method = lit "AUTO" ->
  Py.encode diagram = Ok data ->
  Encoder.plantuml_encode (zlib_compress9 env) diagram = Ok code ->
  let post := post_request base data in
  let get := get_request base code in
  let s1 := sent env post s in
  let s2 := sent env get s1 in
  log s1 = log s ++ [Sent post] /\
  log s2 = log s ++ [Sent post; Sent get] /\
  match fst (http env post (world s)) with
  | Failed msg =>
      export_png env diagram base method s = (Raise (RequestException msg), s1)
  | Responded r1 =>
      if _is_png r1 then export_png env diagram base method s = (Ok (content r1), s1)
      else
        match fst (http env get (world s1)) with
        | Failed msg =>
            export_png env diagram base method s = (Raise (RequestException msg), s2)
        | Responded r2 =>
            export_png env diagram base method s =
            (if _is_png r2 then Ok (content r2) else Raise (get_failed r2), s2)
        end
  end.
Proof.
  intros Hm Hd Hc post get s1 s2.
  split; [reflexivity|]. split; [cbn [s2 s1 sent log]; now rewrite <- app_assoc|].
  destruct (fst (http env post (world s))) as [r1|msg] eqn:Hp.
  - pose proof (export_post_responded _ _ _ Hd Hp) as Hpost.
    destruct (_is_png r1) eqn:H1.
    + apply export_auto_post_png with (r := r1); [exact Hm | now rewrite H1 | exact H1].
    + rewrite (@export_auto_post_other diagram base method s r1 s1 Hm) by (now rewrite ?H1).
      destruct (fst (http env get (world s1))) as [r2|msg] eqn:Hg.
      * apply (export_get_responded _ _ _ Hc Hg).
      * apply (export_get_failed _ _ _ Hc Hg).
  - apply export_auto_post_raised; [exact Hm|]. apply (export_post_failed _ _ _ Hd Hp).
Qed.

(** C2. A response is a PNG image exactly when its body starts with the
    eight bytes 89 50 4E 47 0D 0A 1A 0A, whatever its status. The export of
    a diagram returns the body of the response to its POST request (under
    [POST] and [AUTO]) or to its GET request (under [GET], and under [AUTO]
    after a POST answer that is no image) exactly when that response is a
    PNG image; under [POST] and [GET], and for the GET answer under [AUTO],
    any other response is an error, with status 200 as with any other.
    [POST], [GET] and [AUTO] stand for the methods that [upper()] turns into
    these words. *)
Theorem png_magic_decides (diagram base : str) (POST GET AUTO : str) (data : bytes)
  (code : str) (s : state W) (r : Response) :
  upper env POST = lit "POST" ->
  upper env GET = lit "GET" ->
  upper env AUTO = lit "AUTO" ->
  Py.encode diagram = Ok data ->
  Encoder.plantuml_encode (zlib_compress9 env) diagram = Ok code ->
  let post := post_request base data in
  let get := get_request base code in
  (_is_png r = true <-> exists rest, content r = _PNG_MAGIC ++ rest) /\
  (forall r', content r' = content r -> _is_png r' = _is_png r) /\
  (fst (http env post (world s)) = Responded r ->
   (forall method, method = POST \/ method = AUTO ->
      (fst (export_png env diagram base method s) = Ok (content r) <-> _is_png r = true)) /\
   (_is_png r = false ->
    fst (export_png env diagram base POST s) =
    Raise (RuntimeError (lit "Server did not return PNG on POST.")))) /\
  (fst (http env get (world s)) = Responded r ->
   (fst (export_png env diagram base GET s) = Ok (content r) <-> _is_png r = true) /\
   (_is_png r = false ->
    fst (export_png env diagram base GET s) = Raise (get_failed r))) /\
  (forall r1,
     fst (http env post (world s)) = Responded r1 ->
     _is_png r1 = false ->
     fst (http env get (world (sent env post s))) = Responded r ->
     (fst (export_png env diagram base AUTO s) = Ok (content r) <-> _is_png r = true) /\
     (_is_png r = false ->
      fst (export_png env diagram base AUTO s) = Raise (get_failed r))).
Proof.
  intros HPOST HGET HAUTO Hd Hc post get.
  split; [apply is_png_spec|]. split; [apply is_png_content|].
  split; [|split].
  - intros Hp. pose proof (export_post_responded _ _ _ Hd Hp) as Hpost.
    pose proof (export_post_method diagram base POST s r HPOST Hpost) as HP. split.
    + intros method [-> | ->].
      * rewrite HP. cbn [fst]. destruct (_is_png r); split; congruence.
      * destruct (_is_png r) eqn:Hr.
        -- rewrite (@export_auto_post_png diagram base AUTO s r (sent env post s) HAUTO)
             by (now rewrite ?Hr).
           split; reflexivity.
        -- rewrite (@export_auto_post_other diagram base AUTO s r (sent env post s) HAUTO)
             by (now rewrite ?Hr).
           split; [|discriminate].
           intros H. exfalso.
           exact (@export_get_not_other diagram base code _ r Hc Hr H).
    + intros Hr. rewrite HP, Hr. reflexivity.
  - intros Hg. rewrite (export_png_GET diagram base GET HGET).
    rewrite (export_get_responded _ _ _ Hc Hg). cbn [fst].
    destruct (_is_png r); (split; [split; congruence | congruence]).
  - intros r1 Hp H1 Hg.
    pose proof (export_post_responded _ _ _ Hd Hp) as Hpost.
    rewrite (@export_auto_post_other diagram base AUTO s r1 (sent env post s) HAUTO)
      by (first [exact Hpost | exact H1]).
    rewrite (export_get_responded _ _ _ Hc Hg). cbn [fst].
    destruct (_is_png r); (split; [split; congruence | congruence]).
Qed.

End TransportProps.

(** POST is answered with an error page of status 200, and GET with a PNG
    image: the export returns the body of the GET answer. *)
Lemma auto_post_then_get_witness :
  let s := Sim.boot [Sim.page 200; Sim.png 200] in
  fst (export_png Sim.env Lifecycle.tiny (lit "http://localhost:8080") (lit "auto") s)
  = Ok (_PNG_MAGIC ++ [0x00; 0x01]%N) /\
  length (log (snd (export_png Sim.env Lifecycle.tiny (lit "http://localhost:8080") (lit "auto") s)))
  = 2.
Proof.
  cbv zeta.
  destruct (@auto_post_then_get _ _ Sim.env Lifecycle.tiny (lit "http://localhost:8080")
              (lit "auto") _ _ (Sim.boot [Sim.page 200; Sim.png 200])
              eq_refl eq_refl eq_refl)
    as (_ & _ & H).
  assert (H' : export_png Sim.env Lifecycle.tiny (lit "http://localhost:8080") (lit "auto")
                 (Sim.boot [Sim.page 200; Sim.png 200])
               = (Ok (_PNG_MAGIC ++ [0x00; 0x01]%N),
                  {| world := {| Sim.script := []; Sim.millis := 0; Sim.disk := [] |};
                     log := log (snd (export_png Sim.env Lifecycle.tiny
                                        (lit "http://localhost:8080") (lit "auto")
                                        (Sim.boot [Sim.page 200; Sim.png 200]))) |}))
    by exact H.
  rewrite H'. split; reflexivity.
Defined.

(** C1, as it is written, fails: the POST call times out, the export ends
    with that exception, and the log holds the POST request alone, though
    the server would have answered a GET request with a PNG image. *)
Lemma auto_stops_at_post_exception :
  let s := Sim.boot [Failed (lit "Read timed out."); Sim.png 200] in
  let r := export_png Sim.env Lifecycle.tiny (lit "http://localhost:8080") (lit "auto") s in
  fst r = Raise (RequestException (lit "Read timed out.")) /\
  map rq_verb (flat_map (fun ev => match ev with Sent q => [q] | _ => [] end) (log (snd r)))
  = [HttpPost] /\
  Sim.script (world (snd r)) = [Sim.png 200].
Proof. vm_compute. repeat split; reflexivity. Qed.

(** An error page with status 200 is a failure, and a PNG body with status
    500 a success. *)
Lemma png_magic_decides_witness :
  fst (export_png Sim.env Lifecycle.tiny (lit "http://localhost:8080") (lit "POST")
         (Sim.boot [Sim.page 200]))
  = Raise (RuntimeError (lit "Server did not return PNG on POST.")) /\
  fst (export_png Sim.env Lifecycle.tiny (lit "http://localhost:8080") (lit "GET")
         (Sim.boot [Sim.png 500]))
  = Ok (_PNG_MAGIC ++ [0x00; 0x01]%N).
Proof.
  split.
  - destruct (@png_magic_decides _ _ Sim.env Lifecycle.tiny (lit "http://localhost:8080")
                (lit "POST") (lit "GET") (lit "AUTO")
                _ _ (Sim.boot [Sim.page 200])
                {| status_code := 200; content := lit "<html>error</html>" |}
                eq_refl eq_refl eq_refl eq_refl eq_refl) as (_ & _ & H & _).
    destruct (H eq_refl) as [_ H']. exact (H' eq_refl).
  - destruct (@png_magic_decides _ _ Sim.env Lifecycle.tiny (lit "http://localhost:8080")
                (lit "POST") (lit "GET") (lit "AUTO")
                _ _ (Sim.boot [Sim.png 500])
                {| status_code := 500; content := _PNG_MAGIC ++ [0x00; 0x01]%N |}
                eq_refl eq_refl eq_refl eq_refl eq_refl) as (_ & _ & _ & H & _).
    destruct (H eq_refl) as [H' _]. exact (proj2 H' eq_refl).
Defined.

End TransportProps.

(** ** The readiness probe *)

Module LifecycleProps.

Import Lifecycle.

Section LifecycleProps.

Variables W T : Type.
Variable env : Env W T.

Lemma tiny_encodes :
  exists code, Encoder.plantuml_encode (zlib_compress9 env) tiny = Ok code.
Proof. unfold Encoder.plantuml_encode. eexists. reflexivity. Qed.

(** C8. In a round of the polling loop that starts before the time is out,
    an answer to the probe with status 200 or 400 ends the wait at once and
    with no error: nothing is sent and no sleep is taken after the answer.
    A connection failure is followed by the sleep and by the next round of
    the loop. The probe is the GET request for the payload of the diagram
    [@startuml\n@enduml\n] on the port of the container. *)
Theorem probe_answers (fuel : nat) (url : str) (t0 : T) (timeout : Z) (s : state W) :
  let s1 := snd (now env s) in
  let probe := probe_request url in
  elapsed_below env (fst (now env s)) t0 timeout = true ->
  (forall r,
     fst (http env probe (world s1)) = Responded r ->
     status_code r = 200%Z \/ status_code r = 400%Z ->
     poll env (S fuel) url t0 timeout s = Some (Ok tt, sent env probe s1)) /\
  (forall msg,
     fst (http env probe (world s1)) = Failed msg ->
     poll env (S fuel) url t0 timeout s =
     poll env fuel url t0 timeout (pause env (sent env probe s1))) /\
  log (sent env probe s1) = log s ++ [Sent probe] /\
  log (pause env (sent env probe s1)) = log s ++ [Sent probe; Slept] /\
  (exists code,
     Encoder.plantuml_encode (zlib_compress9 env) tiny = Ok code /\
     forall n port,
       _wait_for_server env n port timeout s =
       poll env n (probe_url port code) (fst (now env s)) timeout (snd (now env s))).
Proof.
  intros s1 probe Hin.
  assert (Hlog : log s1 = log s).
  { unfold s1, now. now destruct (clock env (world s)). }
  assert (Hpoll : forall resp, send env probe s1 = resp ->
                  poll env (S fuel) url t0 timeout s =
                  match resp with
                  | (Ok r, s2) =>
                      if is_up r then Some (Ok tt, s2)
                      else poll env fuel url t0 timeout (pause env s2)
                  | (Raise (RequestException _), s2) =>
                      poll env fuel url t0 timeout (pause env s2)
                  | (Raise e, s2) => Some (Raise e, s2)
                  end).
  { intros resp <-. cbn [poll]. fold probe.
    destruct (now env s) as [t s0] eqn:Hnow. cbn [fst snd] in *. subst s1.
    now rewrite Hin. }
  repeat split.
  - intros r Hr Hstatus. rewrite (Hpoll _ eq_refl). unfold send. rewrite Hr.
    unfold is_up. destruct Hstatus as [-> | ->]; reflexivity.
  - intros msg Hr. rewrite (Hpoll _ eq_refl). unfold send. now rewrite Hr.
  - cbn [sent log]. now rewrite Hlog.
  - cbn [pause sent log]. now rewrite Hlog, <- app_assoc.
  - destruct tiny_encodes as [code Hcode]. exists code. split; [exact Hcode|].
    intros n port. unfold _wait_for_server. rewrite Hcode.
    now destruct (now env s).
Qed.

End LifecycleProps.

(** A server that answers the probe with status 400 is up. *)
Lemma probe_answers_witness :
  poll Sim.env 1 (lit "http://localhost:18080/png/x") 0%Z 60 (Sim.boot [Sim.page 400])
  = Some (Ok tt, sent Sim.env (probe_request (lit "http://localhost:18080/png/x"))
                   (Sim.boot [Sim.page 400])).
Proof.
  destruct (@probe_answers _ _ Sim.env 0 (lit "http://localhost:18080/png/x") 0%Z 60
              (Sim.boot [Sim.page 400]) eq_refl) as (H & _).
  exact (H {| status_code := 400; content := lit "<html>error</html>" |}
           eq_refl (or_intror eq_refl)).
Defined.

(** Two refused connections, then status 400: the wait ends with no error
    after three probes and two sleeps. *)
Example wait_for_server_run :
  _wait_for_server Sim.env 5 18080 60
    (Sim.boot [Failed (lit "Connection refused"); Failed (lit "Connection refused");
               Sim.page 400; Sim.png 200])
  = Some (Ok tt,
          {| world := {| Sim.script := [Sim.png 200]; Sim.millis := 3000; Sim.disk := [] |};
             log := let probe := Sent (probe_request
                                         (lit "http://localhost:18080/png/SoWkIImgAStDuN98pKi1qG00")) in
                    [probe; Slept; probe; Slept; probe] |}).
Proof. vm_compute. reflexivity. Qed.

End LifecycleProps.

(** ** The batch *)

Module OrchestratorProps.

Import Orchestrator.

(** *** Output paths *)

Lemma keeps_no_slash : Tokenizer.keeps 0x2F = false.
Proof. vm_compute. reflexivity. Qed.

Lemma sanitize_no_slash raw : ~ In 0x2F%N (Tokenizer.sanitize raw).
Proof.
  unfold Tokenizer.sanitize. rewrite in_map_iff. intros (c & Hc & _).
  destruct (Tokenizer.keeps c) eqn:Hk.
  - subst c. rewrite keeps_no_slash in Hk. discriminate.
  - discriminate.
Qed.

Lemma unit_names_sanitized text u :
  In u (Tokenizer.iter_diagrams text) -> exists raw, fst u = Tokenizer.sanitize raw.
Proof.
  intros Hu. apply In_nth_error in Hu as [i Hi].
  unfold Tokenizer.iter_diagrams in Hi. rewrite nth_error_map in Hi.
  destruct (nth_error _ i) as [[n buf]|] eqn:Hn; [|discriminate].
  cbn [option_map] in Hi. injection Hi as <-. cbn [fst].
  apply TokenizerProps.scan_names in Hn as (_ & _ & g & _ & _ & ->). eauto.
Qed.

Lemma path_join_relative a b :
  hd 0%N b <> 0x2F%N -> path_join a b = dir_prefix a ++ b.
Proof.
  intros Hb. unfold path_join, dir_prefix.
  replace (Py.startswith [0x2F%N] b) with false.
  - destruct (Nat.eqb (length a) 0 || Py.startswith [0x2F%N] (rev a));
      [reflexivity | now rewrite <- app_assoc].
  - destruct b as [|c b]; [reflexivity|]. cbn [Py.startswith hd] in *.
    rewrite andb_true_r. symmetry. apply N.eqb_neq. congruence.
Qed.

(** Two units of a document with different names have different output
    files. *)
Lemma output_paths_differ text out_dir u1 u3 :
  In u1 (Tokenizer.iter_diagrams text) ->
  In u3 (Tokenizer.iter_diagrams text) ->
  fst u1 <> fst u3 ->
  path_join out_dir (fst u1 ++ lit ".png") <> path_join out_dir (fst u3 ++ lit ".png").
Proof.
  intros H1 H3 Hne.
  assert (Hrel : forall u, In u (Tokenizer.iter_diagrams text) ->
                 hd 0%N (fst u ++ lit ".png") <> 0x2F%N).
  { intros u Hu. destruct (unit_names_sanitized _ _ Hu) as [raw E].
    pose proof (@sanitize_no_slash raw) as Hs. rewrite <- E in Hs.
    destruct (fst u) as [|c n]; [discriminate|].
    cbn [app hd]. intros ->. apply Hs. now left. }
  rewrite !path_join_relative by auto.
  intros E. apply app_inv_head, app_inv_tail in E. contradiction.
Qed.

(** *** The effects of one export *)

Section OrchestratorProps.

Variables W T : Type.
Variable env : Env W T.

Lemma files_written_app l1 l2 :
  files_written (l1 ++ l2) = files_written l1 ++ files_written l2.
Proof. apply flat_map_app. Qed.

Lemma no_write_ret (A : Type) (a : A) : no_write (@ret W A a).
Proof. intros s. reflexivity. Qed.

Lemma no_write_raise (A : Type) (e : exn) : no_write (@raise W A e).
Proof. intros s. reflexivity. Qed.

Lemma no_write_lift (A : Type) (r : result A) : no_write (@lift W A r).
Proof. intros s. reflexivity. Qed.

Lemma no_write_send r : no_write (send env r).
Proof.
  intros s. unfold send.
  destruct (fst (http env r (world s))); cbn [snd sent log];
    now rewrite files_written_app, app_nil_r.
Qed.

Lemma no_write_bind (A B : Type) (c : M W A) (k : A -> M W B) :
  no_write c -> (forall a, no_write (k a)) -> no_write (bind c k).
Proof.
  intros Hc Hk s. unfold bind. specialize (Hc s).
  destruct (c s) as [[a|e] s']; cbn [snd] in *; [|exact Hc].
  now rewrite Hk.
Qed.

Create HintDb effects.

#[local] Hint Resolve no_write_ret no_write_raise no_write_lift no_write_send : effects.

(** Goes through a chain of [bind]. *)
Ltac through_binds := repeat (apply no_write_bind; [|intros ?]); auto with effects.

Lemma no_write_export_post diagram base : no_write (Transport._export_post env diagram base).
Proof. unfold Transport._export_post. through_binds. Qed.

Lemma no_write_export_get diagram base : no_write (Transport._export_get env diagram base).
Proof.
  unfold Transport._export_get. through_binds.
  destruct (Transport._is_png _); auto with effects.
Qed.

#[local] Hint Resolve no_write_export_post no_write_export_get : effects.

Lemma no_write_export_png diagram base method :
  no_write (Transport.export_png env diagram base method).
Proof.
  unfold Transport.export_png.
  destruct (Py.eqb _ _); [|destruct (Py.eqb _ _)].
  - apply no_write_bind; [auto with effects|].
    intros [png|]; auto with effects.
  - auto with effects.
  - apply no_write_bind; [auto with effects|].
    intros [[|c png]|]; auto with effects.
Qed.

(** The [try] block writes its output file when it ends with no exception,
    and no file otherwise. *)
Lemma export_to_file_writes text base method path s :
  files_written (log (snd (export_to_file env text base method path s))) =
  files_written (log s) ++
  match fst (export_to_file env text base method path s) with
  | Ok _ => [path]
  | Raise _ => []
  end.
Proof.
  unfold export_to_file, bind.
  pose proof (no_write_export_png text base method s) as Hpng.
  destruct (Transport.export_png env text base method s) as [[img|e] s1]; cbn [fst snd] in *.
  - unfold write. destruct (write_file env path img (world s1)) as [[u|e] w];
      cbn [fst snd log].
    + now rewrite files_written_app, Hpng.
    + now rewrite app_nil_r.
  - now rewrite app_nil_r.
Qed.

(** *** The loop *)

Variables (base method : str) (out_dir : str).

Lemma export_units_cons u units acc :
  export_units env base method out_dir (u :: units) acc =
  export_units env base method out_dir units (export_unit env base method out_dir acc u).
Proof. reflexivity. Qed.

Lemma export_unit_ok (rep : report) (s : state W) (name text : str) u s1 :
  export_to_file env text base method (path_join out_dir (name ++ lit ".png")) s = (Ok u, s1) ->
  export_unit env base method out_dir (rep, s) (name, text) = (count_ok rep, s1).
Proof. unfold export_unit. cbn [fst snd]. now intros ->. Qed.

Lemma export_unit_raise (rep : report) (s : state W) (name text : str) e s1 :
  export_to_file env text base method (path_join out_dir (name ++ lit ".png")) s = (Raise e, s1) ->
  export_unit env base method out_dir (rep, s) (name, text) = (count_fail name e rep, s1).
Proof. unfold export_unit. cbn [fst snd]. now intros ->. Qed.

Lemma export_units_spec units : forall rep s,
  let outs := outcomes env base method out_dir units s in
  let res := export_units env base method out_dir units (rep, s) in
  map fst outs = map fst units /\
  succeeded (fst res) = succeeded rep + length (filter (@is_ok unit) (map snd outs)) /\
  failed (fst res) =
    failed rep + length (filter (fun r => negb (is_ok r)) (map snd outs)) /\
  failures (fst res) = failures rep ++ failed_entries outs /\
  files_written (log (snd res)) = files_written (log s) ++ written_paths out_dir outs.
Proof.
  induction units as [|[name text] units IH]; intros rep s.
  - cbn. rewrite !app_nil_r, !Nat.add_0_r. auto.
  - cbn zeta. rewrite export_units_cons. cbn [outcomes].
    pose proof (export_to_file_writes text base method
                  (path_join out_dir (name ++ lit ".png")) s) as Hw.
    destruct (export_to_file env text base method (path_join out_dir (name ++ lit ".png")) s)
      as [[u|e] s1] eqn:Hx; cbn [fst snd] in *.
    + rewrite (@export_unit_ok rep s name text u s1 Hx).
      destruct (IH (count_ok rep) s1) as (H1 & H2 & H3 & H4 & H5).
      cbn zeta in *. cbn [map]. rewrite H1, H2, H3, H4, H5, Hw.
      unfold failed_entries, written_paths.
      cbn [map filter is_ok negb length flat_map fst snd count_ok succeeded failed failures app].
      rewrite <- !app_assoc. repeat split; try reflexivity; lia.
    + rewrite (@export_unit_raise rep s name text e s1 Hx).
      destruct (IH (count_fail name e rep) s1) as (H1 & H2 & H3 & H4 & H5).
      cbn zeta in *. cbn [map]. rewrite H1, H2, H3, H4, H5, Hw.
      unfold failed_entries, written_paths.
      cbn [map filter is_ok negb length flat_map fst snd count_fail succeeded failed failures app].
      rewrite <- !app_assoc. cbn [app]. repeat split; try reflexivity; lia.
Qed.

Lemma failed_entries_length outs :
  length (failed_entries outs) =
  length (filter (fun r : result unit => negb (is_ok r)) (map snd outs)).
Proof.
  unfold failed_entries.
  induction outs as [|[name [u|e]] outs IH]; cbn [flat_map map filter snd is_ok negb app length];
    [reflexivity | exact IH | now rewrite IH].
Qed.

Lemma ok_and_failed (l : list (result unit)) :
  length (filter (@is_ok unit) l) +
  length (filter (fun r : result unit => negb (is_ok r)) l) = length l.
Proof.
  induction l as [|[u|e] l IH]; simpl; lia.
Qed.

Lemma failing_outcome (outs : list (str * result unit)) :
  0 < length (filter (fun r : result unit => negb (is_ok r)) (map snd outs)) <->
  exists name e, In (name, Raise e) outs.
Proof.
  induction outs as [|[name [u|e]] outs IH]; cbn [map snd filter is_ok negb length].
  - split; [lia | intros (n & e & [])].
  - rewrite IH. split; intros (n & e & H); exists n, e.
    + now right.
    + destruct H as [H|H]; [discriminate | exact H].
  - split; [|lia]. intros _. exists name, e. now left.
Qed.

(** The end of [run_exports] when [failures] has as many entries as [fail]
    counts. *)
Lemma exit_status_spec rep :
  length (failures rep) = failed rep ->
  exit_status rep = if Nat.eqb (failed rep) 0 then 0%Z else 1%Z.
Proof.
  unfold exit_status, exit_call. intros H.
  destruct (failures rep); cbn [length] in H.
  - now rewrite <- H.
  - now destruct (Nat.eqb (failed rep) 0).
Qed.

Lemma combine_fst_snd (A B : Type) (l : list (A * B)) :
  combine (map fst l) (map snd l) = l.
Proof. induction l as [|[a b] l IH]; cbn; [reflexivity | now rewrite IH]. Qed.

(** C3. The orchestrator runs the [try] block of every unit of the
    tokenizer, in the order of the tokenizer and whatever the blocks before
    came to: there is one outcome for each unit, [ok] and [fail] count the
    outcomes without and with an exception, [failures] holds the name and
    the message of each exception in that order, and a file is written for
    each unit without one and for no other. The exit status is not 0 exactly
    when [fail] is not 0, that is when some unit failed. With three units
    of which the second alone fails, two files are written (those of the
    first and of the third unit, which are two files when the two names
    differ), [ok] is 2, [fail] is 1, [failures] holds the name of the second
    unit with its message, and the exit status is 1. *)
Theorem failures_are_isolated (source : str) (s : state W) :
  let units := Tokenizer.iter_diagrams source in
  let outs := outcomes env base method out_dir units s in
  let rep := fst (run_exports env source base method out_dir s) in
  let s' := snd (run_exports env source base method out_dir s) in
  map fst outs = map fst units /\
  succeeded rep = length (filter (@is_ok unit) (map snd outs)) /\
  failed rep = length (filter (fun r : result unit => negb (is_ok r)) (map snd outs)) /\
  succeeded rep + failed rep = length units /\
  failures rep = failed_entries outs /\
  files_written (log s') = files_written (log s) ++ written_paths out_dir outs /\
  (exit_status rep <> 0%Z <-> 0 < failed rep) /\
  (exit_status rep <> 0%Z <-> exists name e, In (name, Raise e) outs) /\
  (forall u1 u2 u3 e,
     units = [u1; u2; u3] ->
     map snd outs = [Ok tt; Raise e; Ok tt] ->
     succeeded rep = 2 /\
     failed rep = 1 /\
     failures rep = [(fst u2, exn_str e)] /\
     exit_status rep = 1%Z /\
     files_written (log s') =
       files_written (log s) ++
       [path_join out_dir (fst u1 ++ lit ".png"); path_join out_dir (fst u3 ++ lit ".png")] /\
     (fst u1 <> fst u3 ->
      path_join out_dir (fst u1 ++ lit ".png") <> path_join out_dir (fst u3 ++ lit ".png"))).
Proof.
  intros units outs rep s'.
  destruct (export_units_spec units no_report s) as (Hnames & Hok & Hfail & Hlist & Hfiles).
  fold outs in Hnames, Hok, Hfail, Hlist, Hfiles.
  change (export_units env base method out_dir units (no_report, s))
    with (run_exports env source base method out_dir s) in Hok, Hfail, Hlist, Hfiles.
  fold rep in Hok, Hfail, Hlist. fold s' in Hfiles.
  cbn [no_report succeeded failed failures app Nat.add] in Hok, Hfail, Hlist.
  assert (Hall : succeeded rep + failed rep = length units).
  { rewrite Hok, Hfail, <- (length_map fst units), <- Hnames.
    rewrite (length_map fst outs), <- (length_map snd outs).
    apply ok_and_failed. }
  assert (Hexit : exit_status rep = if Nat.eqb (failed rep) 0 then 0%Z else 1%Z).
  { apply exit_status_spec. now rewrite Hlist, Hfail, failed_entries_length. }
  assert (Hnz : exit_status rep <> 0%Z <-> 0 < failed rep).
  { rewrite Hexit. destruct (Nat.eqb_spec (failed rep) 0) as [E|E]; split; intros; (lia || discriminate). }
  repeat match goal with |- _ /\ _ => split end; trivial.
  - rewrite Hnz, Hfail. apply failing_outcome.
  - intros u1 u2 u3 e Hunits Houts.
    assert (Eouts : outs = [(fst u1, Ok tt); (fst u2, Raise e); (fst u3, Ok tt)]).
    { rewrite <- (combine_fst_snd outs), Hnames, Houts, Hunits. reflexivity. }
    rewrite Hexit, Hlist, Hfiles, Hok, Hfail, Eouts.
    repeat match goal with |- _ /\ _ => split end; try reflexivity.
    apply (@output_paths_differ source); fold units; rewrite Hunits; cbn [In]; auto.
Qed.

End OrchestratorProps.

(** Three units, the server answers the second POST with an error page of
    status 200: two files, two successes, one failure, exit status 1. *)
Lemma failures_are_isolated_witness :
  let source := Sim.document
    ["@startuml first"; "a -> b"; "@enduml";
     "@startuml"; "b -> c"; "@enduml";
     "@startuml third"; "c -> a"; "@enduml"]%string in
  let s := Sim.boot [Sim.png 200; Sim.page 200; Sim.png 200] in
  let run := run_exports Sim.env source (lit "http://localhost:8080") (lit "POST")
               (lit "out") s in
  succeeded (fst run) = 2 /\
  failed (fst run) = 1 /\
  failures (fst run) = [(lit "diagram_02", lit "Server did not return PNG on POST.")] /\
  exit_status (fst run) = 1%Z /\
  files_written (log (snd run)) = [lit "out/first.png"; lit "out/third.png"] /\
  map fst (Sim.disk (world (snd run))) = [lit "out/first.png"; lit "out/third.png"].
Proof.
  cbv zeta.
  destruct (@failures_are_isolated _ _ Sim.env (lit "http://localhost:8080") (lit "POST")
              (lit "out")
              (Sim.document
                 ["@startuml first"; "a -> b"; "@enduml";
                  "@startuml"; "b -> c"; "@enduml";
                  "@startuml third"; "c -> a"; "@enduml"]%string)
              (Sim.boot [Sim.png 200; Sim.page 200; Sim.png 200]))
    as (_ & _ & _ & _ & _ & _ & _ & _ & H).
  destruct (H (lit "first", Sim.document ["@startuml first"; "a -> b"; "@enduml"]%string)
              (lit "diagram_02", Sim.document ["@startuml"; "b -> c"; "@enduml"]%string)
              (lit "third", Sim.document ["@startuml third"; "c -> a"; "@enduml"]%string)
              (RuntimeError (lit "Server did not return PNG on POST."))
              eq_refl eq_refl) as (H1 & H2 & H3 & H4 & H5 & _).
  repeat match goal with |- _ /\ _ => split end;
    [exact H1 | exact H2 | exact H3 | exact H4 | exact H5 | reflexivity].
Defined.

End OrchestratorProps.

(** ** Runs on concrete inputs *)

Module Runs.

(** [\r\n] is one boundary, and no empty line follows the last boundary. *)
Example splitlines_boundaries :
  Py.splitlines (lit "a" ++ [0xD; 0xA; 0xA]%N ++ lit "b" ++ [0xD]%N)
  = [lit "a"; []; lit "b"].
Proof. reflexivity. Qed.

(** The start directive in upper case, with a name after two blanks; the
    long s (U+017F) for [s]; and a directive with text right after it, which
    has no name. *)
Example start_directive_matches :
  Tokenizer._START_RE_match (lit "@STARTUML  Foo bar") = Some (Some (lit "Foo")) /\
  Tokenizer._START_RE_match ([0x40; 0x17F]%N ++ lit "tartuml") = Some None /\
  Tokenizer._START_RE_match (lit "@startumlfoo bar") = Some None /\
  Tokenizer._START_RE_match (lit "x @startuml") = None.
Proof. repeat split; reflexivity. Qed.

(** Lines before the first unit are dropped, and a unit that the input ends
    without an end directive is yielded all the same. *)
Example unterminated_unit :
  Tokenizer.iter_diagrams (Sim.document ["title"; " @startuml a/b "; "x -> y"]%string)
  = [(lit "a_b", Sim.document [" @startuml a/b "; "x -> y"]%string)].
Proof. vm_compute. reflexivity. Qed.

(** The counter has two digits at least. *)
Example fallback_names :
  Py.decimal02 1 = lit "01" /\ Py.decimal02 10 = lit "10" /\ Py.decimal02 100 = lit "100".
Proof. repeat split; reflexivity. Qed.

(** The payloads of the empty text, of [a] and of the empty diagram. *)
Example payloads :
  Encoder.plantuml_encode Sim.zlib_of_examples [] = Ok (lit "0m00") /\
  Encoder.plantuml_encode Sim.zlib_of_examples (lit "a") = Ok (lit "ImG0") /\
  Encoder.plantuml_encode Sim.zlib_of_examples Lifecycle.tiny
  = Ok (lit "SoWkIImgAStDuN98pKi1qG00").
Proof. repeat split; vm_compute; reflexivity. Qed.

(** A text with a surrogate has no payload. *)
Example surrogate_has_no_payload :
  exists e, Encoder.plantuml_encode Sim.zlib_of_examples [0xD800%N] = Raise e.
Proof. eexists. reflexivity. Qed.

(** One diagram, method [GET], a server that answers with a PNG image: one
    request, one file [diagram_01.png] with the bytes of the answer, one
    success and no failure, exit status 0. *)
Example one_diagram_by_get :
  let source := Sim.document ["@startuml"; "Alice->Bob"; "@enduml"]%string in
  let run := Orchestrator.run_exports Sim.env source (lit "http://localhost:8080/")
               (lit "GET") (lit "./exported") (Sim.boot [Sim.png 200]) in
  fst run = {| Orchestrator.succeeded := 1;
               Orchestrator.failed := 0;
               Orchestrator.failures := [] |} /\
  Orchestrator.exit_status (fst run) = 0%Z /\
  Sim.disk (world (snd run))
  = [(lit "./exported/diagram_01.png", Transport._PNG_MAGIC ++ [0x00; 0x01]%N)] /\
  map (fun ev => match ev with Sent q => rq_url q | _ => [] end) (log (snd run))
  = [lit "http://localhost:8080/png/SoWkIImgAStDuNBCoKnErRLpoa_YSaZDIm490G00";
     []].
Proof. vm_compute. repeat split; reflexivity. Qed.

(** Two units of one name: the second file replaces the first. *)
Example same_name_overwrites :
  let source := Sim.document
    ["@startuml A"; "a -> b"; "@enduml"; "@startuml A"; "b -> a"; "@enduml"]%string in
  let run := Orchestrator.run_exports Sim.env source (lit "http://localhost:8080")
               (lit "POST") (lit "out")
               (Sim.boot [Sim.png 200;
                          Responded {| status_code := 200;
                                       content := Transport._PNG_MAGIC ++ [0x02]%N |}]) in
  Orchestrator.succeeded (fst run) = 2 /\
  Orchestrator.files_written (log (snd run)) = [lit "out/A.png"; lit "out/A.png"] /\
  Sim.disk (world (snd run)) = [(lit "out/A.png", Transport._PNG_MAGIC ++ [0x02]%N)].
Proof. vm_compute. repeat split; reflexivity. Qed.

(** The time runs out before the server is up: the wait raises after the
    rounds that fit in the time, here one second. *)
Example wait_times_out :
  Lifecycle._wait_for_server Sim.env 5 18080 1 (Sim.boot [])
  = Some (Raise (RuntimeError
                   (lit "Timed out waiting for local PlantUML server to start.")),
          {| world := {| Sim.script := []; Sim.millis := 1500; Sim.disk := [] |};
             log := [Sent (Lifecycle.probe_request
                             (lit "http://localhost:18080/png/SoWkIImgAStDuN98pKi1qG00"));
                     Slept] |}).
Proof. vm_compute. reflexivity. Qed.

End Runs.

(** * Further properties *)

(** ** Tokenizer: the shape and the text of a unit *)

Module UnitProps.

Import Tokenizer Shapes PyProps TokenizerProps.

(** The inner loop stops at the first line with the end directive, or takes
    all the lines that are left. *)
Lemma collect_shape (ls : list str) :
  (exists body l,
     fst (collect ls) = body ++ [l] /\
     Forall (fun x => has_end x = false) body /\
     has_end l = true) \/
  (fst (collect ls) = ls /\
   snd (collect ls) = [] /\
   Forall (fun x => has_end x = false) ls).
Proof.
  induction ls as [|x ls IH]; cbn [collect].
  - right. repeat split. constructor.
  - fold (has_end x). destruct (has_end x) eqn:Hx; cbn [negb].
    + left. exists [], x. repeat split; [constructor | exact Hx].
    + destruct (collect ls) as [b after]. cbn [fst snd] in *.
      destruct IH as [(body & l & -> & Hb & Hl) | (-> & -> & Hall)].
      * left. exists (x :: body), l. repeat split; [constructor; assumption | exact Hl].
      * right. repeat split. constructor; assumption.
Qed.

Lemma scan_shape lines : forall count us u,
  scan count lines = us ++ [u] ->
  Forall (fun v => closed_unit (snd v)) us /\
  (closed_unit (snd u) \/ open_unit (snd u)).
Proof.
  induction lines as [|line rest Hs IH|line rest Hs IH] using scan_ind;
    intros count us u.
  - destruct us; discriminate.
  - rewrite (scan_skip count line rest Hs). apply IH.
  - destruct (scan_open count line rest Hs) as (g & _ & ->).
    destruct (collect_shape rest) as [(body & l & Hb & Hbody & Hl) | (Hb & Hafter & Hall)].
    + assert (Hclosed : closed_unit (line :: fst (collect rest)))
        by (exists line, body, l; rewrite Hb; auto).
      destruct us as [|v us]; cbn [app]; intros H; injection H as Hv Hrest.
      * subst u. split; [constructor | now left].
      * subst v. destruct (IH _ _ _ Hrest) as [Hus Hu].
        split; [constructor; assumption | exact Hu].
    + rewrite Hafter. cbn [scan].
      destruct us as [|v [|w us]]; cbn [app]; intros H; try discriminate.
      injection H as <-. split; [constructor|]. right.
      exists line, rest. rewrite Hb. auto.
Qed.

(** X1. Every unit but the last ends with a line that holds the end directive,
    and no line between the first and the last line of a unit holds it; the
    last unit is of that kind too, or it runs to the end of the document
    with no end directive after its first line. *)
Theorem only_last_unit_unterminated (text : str) (us : list unit_lines) (u : unit_lines) :
  scan 1 (Py.splitlines text) = us ++ [u] ->
  Forall (fun v => closed_unit (snd v)) us /\
  (closed_unit (snd u) \/ open_unit (snd u)).
Proof. apply scan_shape. Qed.

(** Two units: the first is closed by its end directive, the second runs
    to the end of the document. *)
Lemma only_last_unit_unterminated_witness :
  Forall (fun v => closed_unit (snd v))
    [(lit "A", map lit ["@startuml A"; "a -> b"; "@enduml"]%string)] /\
  (closed_unit (map lit ["@startuml"; "b -> a"]%string) \/
   open_unit (map lit ["@startuml"; "b -> a"]%string)).
Proof.
  apply (@only_last_unit_unterminated
           (Sim.document ["@startuml A"; "a -> b"; "@enduml"; "@startuml"; "b -> a"]%string)
           [(lit "A", map lit ["@startuml A"; "a -> b"; "@enduml"]%string)]
           (lit "diagram_02", map lit ["@startuml"; "b -> a"]%string)).
  reflexivity.
Defined.

(** *** Lines and text *)

Lemma splitlines_from_one_line :
  forall n text, length text <= n ->
  forall cur, one_line cur = true ->
  Forall (fun l => one_line l = true) (Py.splitlines_from cur text).
Proof.
  induction n as [|n IH]; intros [|c text] Hn cur Hcur; cbn [length] in Hn;
    try lia; cbn [Py.splitlines_from].
  - destruct cur; constructor; [assumption | constructor].
  - destruct cur; constructor; [assumption | constructor].
  - destruct (Py.islinebreak c) eqn:Hc.
    + constructor; [exact Hcur|].
      destruct text as [|d text'].
      * constructor.
      * destruct ((c =? 13)%N && (d =? 10)%N); apply IH; cbn [length] in *;
          try reflexivity; lia.
    + apply IH; [lia|]. unfold one_line in *.
      rewrite forallb_app, Hcur. cbn [forallb]. now rewrite Hc.
Qed.

(** The lines of [splitlines] hold no line boundary. *)
Lemma splitlines_one_line text :
  Forall (fun l => one_line l = true) (Py.splitlines text).
Proof.
  apply (@splitlines_from_one_line (length text)); [lia | reflexivity].
Qed.

Lemma splitlines_from_line (l : str) : forall cur rest,
  one_line l = true ->
  Py.splitlines_from cur (l ++ LF :: rest) = (cur ++ l) :: Py.splitlines_from [] rest.
Proof.
  induction l as [|c l IH]; intros cur rest Hl.
  - cbn [app Py.splitlines_from]. rewrite app_nil_r.
    change (Py.islinebreak LF) with true. cbv iota.
    destruct rest as [|d rest']; reflexivity.
  - cbn [one_line forallb] in Hl. apply andb_prop in Hl as [Hc Hl].
    cbn [app Py.splitlines_from].
    destruct (Py.islinebreak c); [discriminate|].
    rewrite IH by exact Hl. now rewrite <- app_assoc.
Qed.

(** Lines joined into the text of a unit split into the same lines. *)
Lemma splitlines_unit_text (buf : list str) :
  buf <> [] ->
  Forall (fun l => one_line l = true) buf ->
  Py.splitlines (unit_text buf) = buf.
Proof.
  unfold Py.splitlines, unit_text.
  induction buf as [|p buf IH]; intros Hne Hall; [now elim Hne|].
  inversion Hall as [|? ? Hp Hbuf]; subst.
  destruct buf as [|q buf].
  - cbn [Py.join]. rewrite (splitlines_from_line p [] [] Hp). reflexivity.
  - change (Py.join [LF] (p :: q :: buf)) with (p ++ [LF] ++ Py.join [LF] (q :: buf)).
    rewrite <- !app_assoc. cbn [app].
    rewrite (splitlines_from_line p [] _ Hp). cbn [app].
    f_equal. apply IH; [discriminate | exact Hbuf].
Qed.

Lemma tiles_lines (P : str -> Prop) lines bufs :
  tiles lines bufs -> Forall P lines -> Forall (Forall P) bufs.
Proof.
  induction 1 as [tail H0 | gap buf rest bufs H0 _ IH]; intros Hall; [constructor|].
  apply Forall_app in Hall as [_ Hall]. apply Forall_app in Hall as [Hbuf Hrest].
  constructor; auto.
Qed.

(** The buffers of the units of a document hold lines without a line
    boundary, and none is empty. *)
Lemma scan_buffers text count :
  Forall (fun u => snd u <> [] /\ Forall (fun l => one_line l = true) (snd u))
         (scan count (Py.splitlines text)).
Proof.
  pose proof (@tiles_lines (fun l => one_line l = true) _ _
                (scan_tiles (Py.splitlines text) count) (splitlines_one_line text)) as Hl.
  pose proof (scan_heads (Py.splitlines text) count) as Hh.
  rewrite Forall_map in Hl.
  induction (scan count (Py.splitlines text)) as [|u us IH]; [constructor|].
  inversion Hl as [|? ? Hu1 Hus1]; inversion Hh as [|? ? (opener & rest & Hu & _) Hus2]; subst.
  constructor; [|auto]. split; [rewrite Hu; discriminate | assumption].
Qed.

Lemma unit_of_text text name body :
  In (name, body) (iter_diagrams text) ->
  exists buf,
    In (name, buf) (scan 1 (Py.splitlines text)) /\ body = unit_text buf.
Proof.
  unfold iter_diagrams. rewrite in_map_iff. intros ([n buf] & H & Hin).
  cbn [fst snd] in H. injection H as <- <-. now exists buf.
Qed.

(** X2. The text of a unit ends with a line feed, and split into lines it gives
    the lines of the document that the unit holds: the text is the source
    of the unit with every line boundary turned into one line feed. *)
Theorem unit_text_splits_back (text name body : str) :
  In (name, body) (iter_diagrams text) ->
  exists buf,
    In (name, buf) (scan 1 (Py.splitlines text)) /\
    body = Py.join [LF] buf ++ [LF] /\
    Py.splitlines body = buf /\
    Forall (fun l => In l (Py.splitlines text)) buf.
Proof.
  intros Hin. destruct (unit_of_text _ _ _ Hin) as (buf & Hbuf & ->).
  exists buf. split; [exact Hbuf|]. split; [reflexivity|].
  pose proof (scan_buffers text 1) as Hall. rewrite Forall_forall in Hall.
  destruct (Hall _ Hbuf) as [Hne Hlines]. cbn [snd] in *.
  split; [now apply splitlines_unit_text|].
  pose proof (@tiles_lines (fun l => In l (Py.splitlines text)) _ _
                (scan_tiles (Py.splitlines text) 1)) as Ht.
  assert (Hself : Forall (fun l => In l (Py.splitlines text)) (Py.splitlines text))
    by (apply Forall_forall; auto).
  specialize (Ht Hself). rewrite Forall_map, Forall_forall in Ht.
  apply (Ht (name, buf) Hbuf).
Qed.

(** A unit of a document with carriage returns. *)
Lemma unit_text_splits_back_witness :
  exists buf,
    In (lit "diagram_01", buf)
       (scan 1 (Py.splitlines (lit "@startuml" ++ [0xD; 0xA]%N ++ lit "a -> b"
                               ++ [0xD; 0xA]%N ++ lit "@enduml"))) /\
    Sim.document ["@startuml"; "a -> b"; "@enduml"]%string = Py.join [LF] buf ++ [LF] /\
    Py.splitlines (Sim.document ["@startuml"; "a -> b"; "@enduml"]%string) = buf /\
    Forall (fun l => In l (Py.splitlines (lit "@startuml" ++ [0xD; 0xA]%N ++ lit "a -> b"
                                          ++ [0xD; 0xA]%N ++ lit "@enduml"))) buf.
Proof.
  apply (@unit_text_splits_back
           (lit "@startuml" ++ [0xD; 0xA]%N ++ lit "a -> b" ++ [0xD; 0xA]%N ++ lit "@enduml")
           (lit "diagram_01")).
  left. reflexivity.
Defined.

(** *** A unit tokenized again *)






(** *** Names *)

Lemma keeps_underscore : keeps 0x5F = true.
Proof. vm_compute. reflexivity. Qed.

Lemma sanitize_kept raw : Forall (fun c => keeps c = true) (sanitize raw).
Proof.
  unfold sanitize. apply Forall_map, Forall_forall. intros c _.
  destruct (keeps c) eqn:Hc; [exact Hc | exact keeps_underscore].
Qed.

Lemma sanitize_fixed name :
  Forall (fun c => keeps c = true) name -> sanitize name = name.
Proof.
  unfold sanitize. induction 1 as [|c name Hc _ IH]; cbn [map]; [reflexivity|].
  now rewrite Hc, IH.
Qed.

Lemma start_group_nonempty s group1 count :
  _START_RE_match s = Some group1 ->
  match group1 with
  | Some arg => arg
  | None => lit "diagram_" ++ Py.decimal02 count
  end <> [].
Proof.
  unfold _START_RE_match.
  destruct (match_literal START_LITERAL s) as [rest|]; [|discriminate].
  intros H. injection H as <-.
  pose proof (match_name_nonempty rest) as Hne.
  destruct (match_name rest) as [[|c arg]|]; [now elim Hne | discriminate | discriminate].
Qed.

(** X4. The name of a unit is not empty and sanitizing it again changes
    nothing. Each of its characters is one of [[A-Za-z0-9_.-]] or, beyond
    ASCII, a letter or a number of Unicode: there is no path separator, no
    blank and no control character in a name. *)
Theorem unit_names_are_safe (text name body : str) :
  In (name, body) (iter_diagrams text) ->
  name <> [] /\
  sanitize name = name /\
  (forall c, In c name ->
     in_name_set c = true \/ ((128 <= c)%N /\ Py.isalnum c = true)) /\
  ~ In 0x2F%N name.
Proof.
  intros Hin. destruct (unit_of_text _ _ _ Hin) as (buf & Hbuf & _).
  apply In_nth_error in Hbuf as [i Hi].
  destruct (scan_names _ _ _ Hi) as (line & rest & g & _ & Hg & ->).
  pose proof (sanitize_kept (match g with
                             | Some arg => arg
                             | None => lit "diagram_" ++ Py.decimal02 (1 + i)
                             end)) as Hkept.
  assert (Hchars : forall c, In c (sanitize match g with
                                            | Some arg => arg
                                            | None => lit "diagram_" ++ Py.decimal02 (1 + i)
                                            end) ->
                   in_name_set c = true \/ ((128 <= c)%N /\ Py.isalnum c = true)).
  { intros c Hc. rewrite Forall_forall in Hkept. specialize (Hkept c Hc).
    rewrite keeps_spec in Hkept. apply orb_prop in Hkept as [H|H]; [now left|].
    apply andb_prop in H as [H1 H2]. right. split; [now apply N.leb_le | exact H2]. }
  split; [|split; [|split]].
  - pose proof (start_group_nonempty _ (1 + i) Hg) as Hne.
    intros E. apply Hne. unfold sanitize in E. now apply map_eq_nil in E.
  - now apply sanitize_fixed.
  - exact Hchars.
  - intros Hslash. destruct (Hchars _ Hslash) as [H|[H _]]; [discriminate | lia].
Qed.

(** A name with a path in it. *)
Lemma unit_names_are_safe_witness :
  lit ".._.._etc_passwd" <> [] /\
  sanitize (lit ".._.._etc_passwd") = lit ".._.._etc_passwd" /\
  (forall c, In c (lit ".._.._etc_passwd") ->
     in_name_set c = true \/ ((128 <= c)%N /\ Py.isalnum c = true)) /\
  ~ In 0x2F%N (lit ".._.._etc_passwd").
Proof.
  apply (@unit_names_are_safe
           (Sim.document ["@startuml ../../etc/passwd"; "@enduml"]%string)
           (lit ".._.._etc_passwd")
           (Sim.document ["@startuml ../../etc/passwd"; "@enduml"]%string)).
  left. reflexivity.
Defined.

End UnitProps.

(** ** Encoder: concatenation, and what the payload keeps *)

Module PackingProps.

Import Encoder Shapes EncoderProps.

Lemma encode_bytes_cons3 b1 b2 b3 rest :
  _encode_bytes (b1 :: b2 :: b3 :: rest) =
  concat (encode_group b1 b2 b3) ++ _encode_bytes rest.
Proof. unfold _encode_bytes. cbn [encode_groups]. apply concat_app. Qed.

Lemma encode_bytes_app_threes (a : bytes) : forall b,
  length a mod 3 = 0 ->
  _encode_bytes (a ++ b) = _encode_bytes a ++ _encode_bytes b.
Proof.
  induction a as [|x|x y|x y z rest IH] using by_threes; intros b Ha.
  - reflexivity.
  - discriminate.
  - discriminate.
  - cbn [app]. rewrite !encode_bytes_cons3, IH, app_assoc; [reflexivity|].
    cbn [length] in Ha.
    replace (S (S (S (length rest)))) with (length rest + 1 * 3) in Ha by lia.
    now rewrite Nat.Div0.mod_add in Ha.
Qed.

(** X5. The payload of two byte strings one after the other is the payload of
    the first followed by the payload of the second, when the length of the
    first is a multiple of 3 (no padding in the middle). *)
Theorem payload_of_concatenation (a b : bytes) :
  length a mod 3 = 0 ->
  _encode_bytes (a ++ b) = _encode_bytes a ++ _encode_bytes b.
Proof. apply encode_bytes_app_threes. Qed.

Lemma payload_of_concatenation_witness :
  _encode_bytes ([0x4B; 0x04; 0x00] ++ [0x00; 0x62])%N
  = _encode_bytes [0x4B; 0x04; 0x00]%N ++ _encode_bytes [0x00; 0x62]%N.
Proof. apply (@payload_of_concatenation [0x4B; 0x04; 0x00]%N). reflexivity. Defined.

(** *** The payload keeps the bytes *)

Lemma in_all_bytes b : (b < 256)%N -> In b all_bytes.
Proof.
  intros H. unfold all_bytes. rewrite <- (N2Nat.id b). apply in_map, in_seq. lia.
Qed.

Lemma for_all_bytes (P : N -> bool) :
  forallb P all_bytes = true -> forall b, (b < 256)%N -> P b = true.
Proof.
  intros H b Hb. rewrite forallb_forall in H. apply H, in_all_bytes, Hb.
Qed.

Lemma for_all_byte_pairs (P : N -> N -> bool) :
  forallb (fun a => forallb (P a) all_bytes) all_bytes = true ->
  forall a b, (a < 256)%N -> (b < 256)%N -> P a b = true.
Proof.
  intros H a b Ha Hb.
  apply (@for_all_bytes (P a)); [|exact Hb].
  apply (@for_all_bytes (fun a => forallb (P a) all_bytes) H a Ha).
Qed.

Lemma alphabet_distinct i j :
  (i < 64)%N -> (j < 64)%N ->
  nth (N.to_nat i) _ALPHABET 0%N = nth (N.to_nat j) _ALPHABET 0%N -> i = j.
Proof.
  intros Hi Hj H.
  assert (Hall : forallb (fun a => forallb (fun b =>
                   negb (nth (N.to_nat a) _ALPHABET 0 =? nth (N.to_nat b) _ALPHABET 0)%N
                   || (a =? b)%N || negb (a <? 64)%N || negb (b <? 64)%N)
                   all_bytes) all_bytes = true)
    by (vm_compute; reflexivity).
  pose proof (@for_all_byte_pairs _ Hall i j) as Hij. cbv beta in Hij.
  rewrite H, N.eqb_refl in Hij. cbn [negb orb] in Hij.
  apply N.ltb_lt in Hi, Hj. rewrite Hi, Hj in Hij. cbn [negb] in Hij.
  rewrite !orb_false_r in Hij. apply N.eqb_eq, Hij; apply N.ltb_lt in Hi, Hj; lia.
Qed.

Lemma six_below b : (six b < 64)%N.
Proof. pose proof (land_63_below b). unfold six. lia. Qed.

Lemma enc6_same x y : _enc6 x = _enc6 y -> six x = six y.
Proof.
  unfold _enc6. intros H. injection H as H.
  apply alphabet_distinct; [apply six_below | apply six_below | exact H].
Qed.

(** The four symbols of a group give back its three bytes. *)
Lemma first_byte b1 b2 :
  (b1 < 256)%N -> (b2 < 256)%N ->
  (six (N.shiftr b1 2) * 4 + six (sextet2 b1 b2) / 16 = b1)%N.
Proof.
  intros H1 H2. apply N.eqb_eq.
  apply (@for_all_byte_pairs
           (fun b1 b2 => (six (N.shiftr b1 2) * 4 + six (sextet2 b1 b2) / 16 =? b1)%N));
    [vm_compute; reflexivity | exact H1 | exact H2].
Qed.

Lemma second_byte_high b1 b2 :
  (b1 < 256)%N -> (b2 < 256)%N ->
  (six (sextet2 b1 b2) mod 16 = N.shiftr b2 4)%N.
Proof.
  intros H1 H2. apply N.eqb_eq.
  apply (@for_all_byte_pairs
           (fun b1 b2 => (six (sextet2 b1 b2) mod 16 =? N.shiftr b2 4)%N));
    [vm_compute; reflexivity | exact H1 | exact H2].
Qed.

Lemma second_byte_low b2 b3 :
  (b2 < 256)%N -> (b3 < 256)%N ->
  (six (sextet3 b2 b3) / 4 = N.land b2 0xF)%N.
Proof.
  intros H2 H3. apply N.eqb_eq.
  apply (@for_all_byte_pairs
           (fun b2 b3 => (six (sextet3 b2 b3) / 4 =? N.land b2 0xF)%N));
    [vm_compute; reflexivity | exact H2 | exact H3].
Qed.

Lemma second_byte b :
  (b < 256)%N -> (N.shiftr b 4 * 16 + N.land b 0xF = b)%N.
Proof.
  intros H. apply N.eqb_eq.
  apply (@for_all_bytes (fun b => (N.shiftr b 4 * 16 + N.land b 0xF =? b)%N));
    [vm_compute; reflexivity | exact H].
Qed.

Lemma third_byte b2 b3 :
  (b2 < 256)%N -> (b3 < 256)%N ->
  (six (sextet3 b2 b3) mod 4 * 64 + six (N.land b3 0x3F) = b3)%N.
Proof.
  intros H2 H3. apply N.eqb_eq.
  apply (@for_all_byte_pairs
           (fun b2 b3 => (six (sextet3 b2 b3) mod 4 * 64 + six (N.land b3 0x3F) =? b3)%N));
    [vm_compute; reflexivity | exact H2 | exact H3].
Qed.

Lemma encode_group_symbols b1 b2 b3 :
  concat (encode_group b1 b2 b3) =
  [ nth (N.to_nat (six (N.shiftr b1 2))) _ALPHABET 0%N;
    nth (N.to_nat (six (sextet2 b1 b2))) _ALPHABET 0%N;
    nth (N.to_nat (six (sextet3 b2 b3))) _ALPHABET 0%N;
    nth (N.to_nat (six (N.land b3 0x3F))) _ALPHABET 0%N ].
Proof. reflexivity. Qed.

Lemma encode_group_same b1 b2 b3 c1 c2 c3 :
  (b1 < 256)%N -> (b2 < 256)%N -> (b3 < 256)%N ->
  (c1 < 256)%N -> (c2 < 256)%N -> (c3 < 256)%N ->
  concat (encode_group b1 b2 b3) = concat (encode_group c1 c2 c3) ->
  b1 = c1 /\ b2 = c2 /\ b3 = c3.
Proof.
  intros Hb1 Hb2 Hb3 Hc1 Hc2 Hc3 H.
  rewrite !encode_group_symbols in H.
  pose proof (first_byte Hb1 Hb2) as F1. pose proof (first_byte Hc1 Hc2) as G1.
  pose proof (second_byte_high Hb1 Hb2) as F2. pose proof (second_byte_high Hc1 Hc2) as G2.
  pose proof (second_byte_low Hb2 Hb3) as F3. pose proof (second_byte_low Hc2 Hc3) as G3.
  pose proof (third_byte Hb2 Hb3) as F4. pose proof (third_byte Hc2 Hc3) as G4.
  pose proof (second_byte Hb2) as F5. pose proof (second_byte Hc2) as G5.
  pose proof (six_below (N.shiftr b1 2)) as L1. pose proof (six_below (N.shiftr c1 2)) as M1.
  pose proof (six_below (sextet2 b1 b2)) as L2. pose proof (six_below (sextet2 c1 c2)) as M2.
  pose proof (six_below (sextet3 b2 b3)) as L3. pose proof (six_below (sextet3 c2 c3)) as M3.
  pose proof (six_below (N.land b3 0x3F)) as L4. pose proof (six_below (N.land c3 0x3F)) as M4.
  set (s1 := six (N.shiftr b1 2)) in *. set (t1 := six (N.shiftr c1 2)) in *.
  set (s2 := six (sextet2 b1 b2)) in *. set (t2 := six (sextet2 c1 c2)) in *.
  set (s3 := six (sextet3 b2 b3)) in *. set (t3 := six (sextet3 c2 c3)) in *.
  set (s4 := six (N.land b3 0x3F)) in *. set (t4 := six (N.land c3 0x3F)) in *.
  clearbody s1 t1 s2 t2 s3 t3 s4 t4.
  injection H as E1 E2 E3 E4.
  apply alphabet_distinct in E1, E2, E3, E4; try assumption.
  subst t1 t2 t3 t4.
  assert (E5 : N.shiftr b2 4 = N.shiftr c2 4) by congruence.
  assert (E6 : N.land b2 0xF = N.land c2 0xF) by congruence.
  rewrite E5, E6 in F5.
  repeat split; congruence.
Qed.

Lemma same_length_prefix (A : Type) (a : list A) : forall a' b b',
  length a = length a' -> a ++ b = a' ++ b' -> a = a' /\ b = b'.
Proof.
  induction a as [|x a IH]; intros [|x' a'] b b' Hlen H; try discriminate.
  - auto.
  - cbn [app] in H. injection H as -> H. cbn [length] in Hlen.
    destruct (IH a' b b') as [-> ->]; [lia | exact H | auto].
Qed.

Lemma encode_bytes_same (d1 : bytes) : forall d2,
  is_bytes d1 -> is_bytes d2 ->
  length d1 = length d2 ->
  _encode_bytes d1 = _encode_bytes d2 ->
  d1 = d2.
Proof.
  unfold is_bytes.
  induction d1 as [|x|x y|x y z rest IH] using by_threes; intros d2 H1 H2 Hlen Henc.
  - destruct d2; [reflexivity | discriminate].
  - destruct d2 as [|x' [|? ?]]; try discriminate.
    inversion H1; inversion H2; subst.
    unfold _encode_bytes in Henc. cbn [encode_groups] in Henc.
    apply encode_group_same in Henc as (-> & _); try assumption; reflexivity.
  - destruct d2 as [|x' [|y' [|? ?]]]; try discriminate.
    inversion H1 as [|? ? ? H1']; inversion H1'; inversion H2 as [|? ? ? H2'];
      inversion H2'; subst.
    unfold _encode_bytes in Henc. cbn [encode_groups] in Henc.
    apply encode_group_same in Henc as (-> & -> & _); try assumption; reflexivity.
  - destruct d2 as [|x' [|y' [|z' rest']]]; try discriminate.
    inversion H1 as [|? ? ? H1']; inversion H1' as [|? ? ? H1''];
      inversion H1''; inversion H2 as [|? ? ? H2']; inversion H2' as [|? ? ? H2''];
      inversion H2''; subst.
    rewrite !encode_bytes_cons3 in Henc.
    assert (Hhead : concat (encode_group x y z) = concat (encode_group x' y' z')
                    /\ _encode_bytes rest = _encode_bytes rest').
    { apply same_length_prefix; [|exact Henc]. now rewrite !encode_group_length. }
    destruct Hhead as [Hg Hr].
    apply encode_group_same in Hg as (-> & -> & ->); try assumption.
    f_equal. f_equal. f_equal. apply IH; try assumption.
    cbn [length] in Hlen. lia.
Qed.

(** X6. Two byte strings of one length with one payload are the same bytes: of
    the stream it packs, the payload loses nothing but the count of padding
    bytes. *)
Theorem payload_keeps_bytes (d1 d2 : bytes) :
  is_bytes d1 -> is_bytes d2 ->
  length d1 = length d2 ->
  _encode_bytes d1 = _encode_bytes d2 ->
  d1 = d2.
Proof. apply encode_bytes_same. Qed.

Lemma payload_keeps_bytes_witness : [0x03; 0x00]%N = [0x03; 0x00]%N.
Proof.
  apply (@payload_keeps_bytes [0x03; 0x00]%N [0x03; 0x00]%N);
    try reflexivity; repeat constructor.
Defined.

(** Without the length the padding is lost: one byte and the same byte
    with a zero byte after it have one payload. *)
Example padding_is_not_kept :
  _encode_bytes [0x03]%N = _encode_bytes [0x03; 0x00]%N.
Proof. reflexivity. Qed.

End PackingProps.

(** ** Transport: what is sent and what is returned *)

Module ExportProps.

Import Transport Shapes PyProps TransportProps.

Lemma str_eqb_eq (a : str) : forall b, Py.eqb a b = true -> a = b.
Proof.
  induction a as [|x a IH]; intros [|y b] H; cbn [Py.eqb] in H; try discriminate.
  - reflexivity.
  - apply andb_prop in H as [Hx Hab]. apply N.eqb_eq in Hx. subst y.
    now rewrite (IH b Hab).
Qed.

(** *** The base address without its slashes *)

Lemma takewhile_dropwhile p (l : str) : Py.takewhile p l ++ Py.dropwhile p l = l.
Proof.
  induction l as [|c l IH]; cbn [Py.takewhile Py.dropwhile]; [reflexivity|].
  destruct (p c); [cbn [app]; now rewrite IH | reflexivity].
Qed.

Lemma takewhile_all p (l : str) : forallb p (Py.takewhile p l) = true.
Proof.
  induction l as [|c l IH]; cbn [Py.takewhile]; [reflexivity|].
  destruct (p c) eqn:Hc; [cbn [forallb]; now rewrite Hc | reflexivity].
Qed.

Lemma dropwhile_head p (l : str) :
  match Py.dropwhile p l with
  | [] => True
  | c :: _ => p c = false
  end.
Proof.
  induction l as [|c l IH]; cbn [Py.dropwhile]; [exact I|].
  destruct (p c) eqn:Hc; [exact IH | exact Hc].
Qed.

Lemma all_slashes (t : str) :
  forallb (N.eqb 0x2F) t = true -> t = repeat 0x2F%N (length t).
Proof.
  induction t as [|c t IH]; cbn [forallb length repeat]; [reflexivity|].
  intros H. apply andb_prop in H as [Hc Ht]. apply N.eqb_eq in Hc. subst c.
  now rewrite <- IH.
Qed.

Lemma dropwhile_slashes n (l : str) :
  Py.dropwhile (N.eqb 0x2F) (repeat 0x2F%N n ++ l) = Py.dropwhile (N.eqb 0x2F) l.
Proof. induction n as [|n IH]; [reflexivity | exact IH]. Qed.

Lemma rev_slashes n : rev (repeat 0x2F%N n) = repeat 0x2F%N n.
Proof.
  rewrite (all_slashes (rev (repeat 0x2F%N n))).
  - now rewrite length_rev, repeat_length.
  - apply forallb_forall. intros c Hc. apply in_rev, repeat_spec in Hc. now subst c.
Qed.

Lemma rstrip_slashes (base : str) n :
  Py.rstrip (N.eqb 0x2F) (base ++ repeat 0x2F%N n) = Py.rstrip (N.eqb 0x2F) base.
Proof.
  unfold Py.rstrip. now rewrite rev_app_distr, rev_slashes, dropwhile_slashes.
Qed.

Lemma rstrip_stem (base : str) :
  exists k,
    base = Py.rstrip (N.eqb 0x2F) base ++ repeat 0x2F%N k /\
    last (Py.rstrip (N.eqb 0x2F) base) 0%N <> 0x2F%N.
Proof.
  unfold Py.rstrip.
  exists (length (Py.takewhile (N.eqb 0x2F) (rev base))). split.
  - rewrite <- (rev_involutive base) at 1.
    rewrite <- (takewhile_dropwhile (N.eqb 0x2F) (rev base)) at 1.
    rewrite rev_app_distr. f_equal.
    rewrite (all_slashes _ (takewhile_all (N.eqb 0x2F) (rev base))) at 1.
    apply rev_slashes.
  - pose proof (dropwhile_head (N.eqb 0x2F) (rev base)) as H.
    destruct (Py.dropwhile (N.eqb 0x2F) (rev base)) as [|c l]; [discriminate|].
    cbn [rev]. rewrite last_last. intros ->. discriminate.
Qed.

(** X7. The URL of the GET request is made of the base address without the
    slashes at its end, so that slashes added to the base change nothing;
    what is left of the base does not end with a slash. *)
Theorem get_url_drops_trailing_slashes (base code : str) (n : nat) :
  get_request (base ++ repeat 0x2F%N n) code = get_request base code /\
  exists stem k,
    base = stem ++ repeat 0x2F%N k /\
    last stem 0%N <> 0x2F%N /\
    rq_url (get_request base code) = stem ++ lit "/png/" ++ code.
Proof.
  split.
  - unfold get_request. now rewrite rstrip_slashes.
  - destruct (rstrip_stem base) as (k & Hbase & Hlast).
    exists (Py.rstrip (N.eqb 0x2F) base), k. auto.
Qed.

Section ExportProps.

Variables W T : Type.
Variable env : Env W T.

Lemma requests_sent_app l1 l2 :
  requests_sent (l1 ++ l2) = requests_sent l1 ++ requests_sent l2.
Proof. apply flat_map_app. Qed.

(** What [_export_post] and [_export_get] come to. *)
Lemma export_post_unencodable diagram base e s :
  Py.encode diagram = Raise e -> _export_post env diagram base s = (Raise e, s).
Proof. intros H. unfold _export_post, bind, lift. now rewrite H. Qed.

Lemma export_get_unencodable diagram base e s :
  Py.encode diagram = Raise e -> _export_get env diagram base s = (Raise e, s).
Proof.
  intros H. unfold _export_get, bind, lift, Encoder.plantuml_encode. now rewrite H.
Qed.

Lemma plantuml_encode_defined diagram data :
  Py.encode diagram = Ok data ->
  exists code, Encoder.plantuml_encode (zlib_compress9 env) diagram = Ok code.
Proof. intros H. unfold Encoder.plantuml_encode. rewrite H. eauto. Qed.

Lemma export_post_sent diagram base data s :
  Py.encode diagram = Ok data ->
  snd (_export_post env diagram base s) = sent env (post_request base data) s /\
  match fst (_export_post env diagram base s) with
  | Ok (Some img) => Py.startswith _PNG_MAGIC img = true
  | _ => True
  end.
Proof.
  intros Hd.
  destruct (fst (http env (post_request base data) (world s))) as [r|msg] eqn:Hr.
  - rewrite (export_post_responded _ _ _ _ Hd Hr). cbn [fst snd]. split; [reflexivity|].
    destruct (_is_png r) eqn:Hp; [exact Hp | exact I].
  - rewrite (export_post_failed _ _ _ _ Hd Hr). cbn [fst snd]. auto.
Qed.

Lemma export_get_sent diagram base code s :
  Encoder.plantuml_encode (zlib_compress9 env) diagram = Ok code ->
  snd (_export_get env diagram base s) = sent env (get_request base code) s /\
  match fst (_export_get env diagram base s) with
  | Ok img => Py.startswith _PNG_MAGIC img = true
  | Raise _ => True
  end.
Proof.
  intros Hc.
  destruct (fst (http env (get_request base code) (world s))) as [r|msg] eqn:Hr.
  - rewrite (export_get_responded _ _ _ _ Hc Hr). cbn [fst snd]. split; [reflexivity|].
    destruct (_is_png r) eqn:Hp; [exact Hp | exact I].
  - rewrite (export_get_failed _ _ _ _ Hc Hr). cbn [fst snd]. auto.
Qed.

(** The three branches of [export_png], for a method of any spelling. *)
Lemma export_png_branches diagram base method :
  (upper env method = lit "POST" /\
   export_png env diagram base method =
   (img <- _export_post env diagram base ;;
    match img with
    | None => raise (RuntimeError (lit "Server did not return PNG on POST."))
    | Some png => ret png
    end)) \/
  (upper env method = lit "GET" /\
   export_png env diagram base method = _export_get env diagram base) \/
  (upper env method <> lit "POST" /\ upper env method <> lit "GET" /\
   export_png env diagram base method =
   (img <- _export_post env diagram base ;;
    match img with
    | Some ((_ :: _) as png) => ret png
    | _ => _export_get env diagram base
    end)).
Proof.
  unfold export_png. cbv zeta.
  destruct (Py.eqb (upper env method) (lit "POST")) eqn:E1.
  - left. split; [|reflexivity]. now apply str_eqb_eq.
  - right. destruct (Py.eqb (upper env method) (lit "GET")) eqn:E2.
    + left. split; [|reflexivity]. now apply str_eqb_eq.
    + right. repeat split.
      * intros H. rewrite H in E1. discriminate.
      * intros H. rewrite H in E2. discriminate.
Qed.

Lemma export_png_magic (diagram base method : str) (s s' : state W) (img : bytes) :
  export_png env diagram base method s = (Ok img, s') ->
  Py.startswith _PNG_MAGIC img = true.
Proof.
  intros H.
  destruct (Py.encode diagram) as [data|e] eqn:Hd.
  - destruct (plantuml_encode_defined _ Hd) as [code Hc].
    destruct (export_png_branches diagram base method) as [[_ E] | [[_ E] | (_ & _ & E)]];
      rewrite E in H; clear E.
    + unfold bind, ret, raise in H.
      destruct (export_post_sent diagram base s Hd) as [_ Hp].
      destruct (_export_post env diagram base s) as [[[png|]|e] s1]; cbn [fst] in Hp;
        try discriminate H.
      injection H as <- _. exact Hp.
    + destruct (export_get_sent diagram base s Hc) as [_ Hg].
      rewrite H in Hg. exact Hg.
    + unfold bind, ret in H.
      destruct (export_post_sent diagram base s Hd) as [_ Hp].
      destruct (_export_post env diagram base s) as [[[[|c png]|]|e] s1]; cbn [fst] in Hp;
        try discriminate H;
        first [ injection H as <- _; exact Hp
              | destruct (export_get_sent diagram base s1 Hc) as [_ Hg];
                rewrite H in Hg; exact Hg ].
  - destruct (export_png_branches diagram base method) as [[_ E] | [[_ E] | (_ & _ & E)]];
      rewrite E in H; clear E.
    + unfold bind in H. rewrite (export_post_unencodable _ _ _ Hd) in H. discriminate.
    + rewrite (export_get_unencodable _ _ _ Hd) in H. discriminate.
    + unfold bind in H. rewrite (export_post_unencodable _ _ _ Hd) in H. discriminate.
Qed.

(** X8. Whatever the method and whatever the server answers, the bytes that
    [export_png] returns start with the PNG magic. *)
Theorem export_returns_png (diagram base method : str) (s s' : state W) (img : bytes) :
  export_png env diagram base method s = (Ok img, s') ->
  Py.startswith _PNG_MAGIC img = true.
Proof. apply export_png_magic. Qed.

Lemma export_png_unencodable (diagram base method : str) (e : exn) (s : state W) :
  Py.encode diagram = Raise e ->
  export_png env diagram base method s = (Raise e, s).
Proof.
  intros Hd.
  destruct (export_png_branches diagram base method) as [[_ E] | [[_ E] | (_ & _ & E)]];
    rewrite E; clear E; unfold bind;
    rewrite ?(export_post_unencodable _ _ _ Hd), ?(export_get_unencodable _ _ _ Hd);
    reflexivity.
Qed.

(** X9. A text that UTF-8 cannot encode (it holds a surrogate) is sent nowhere:
    under every method [export_png] raises the error of the encoding and
    leaves the world and the log as they are. *)
Theorem unencodable_text_is_not_sent (diagram base method : str) (e : exn) (s : state W) :
  Py.encode diagram = Raise e ->
  export_png env diagram base method s = (Raise e, s).
Proof. apply export_png_unencodable. Qed.

Lemma export_png_requests (diagram base method : str) (data : bytes)
  (code : str) (s : state W) :
  Py.encode diagram = Ok data ->
  Encoder.plantuml_encode (zlib_compress9 env) diagram = Ok code ->
  let post := post_request base data in
  let get := get_request base code in
  exists qs,
    log (snd (export_png env diagram base method s)) = log s ++ map Sent qs /\
    (upper env method = lit "POST" -> qs = [post]) /\
    (upper env method = lit "GET" -> qs = [get]) /\
    (qs = [post] \/ qs = [get] \/ qs = [post; get]).
Proof.
  intros Hd Hc. cbv zeta.
  destruct (export_png_branches diagram base method) as [[Hm E] | [[Hm E] | (H1 & H2 & E)]];
    rewrite E; clear E.
  - exists [(post_request base data)]. unfold bind, ret, raise.
    destruct (export_post_sent diagram base s Hd) as [Hs _].
    destruct (_export_post env diagram base s) as [[[png|]|e] s1]; cbn [snd] in *; subst s1;
      (split; [reflexivity|]); (split; [reflexivity|]);
      (split; [rewrite Hm; discriminate | auto]).
  - exists [(get_request base code)].
    destruct (export_get_sent diagram base s Hc) as [Hs _]. rewrite Hs.
    split; [reflexivity|]. split; [rewrite Hm; discriminate|]. auto.
  - unfold bind, ret.
    destruct (export_post_sent diagram base s Hd) as [Hs _].
    destruct (_export_post env diagram base s) as [[[[|c png]|]|e] s1]; cbn [snd] in *; subst s1.
    + exists [(post_request base data); (get_request base code)]. destruct (export_get_sent diagram base (sent env (post_request base data) s) Hc) as [Hg _].
      rewrite Hg. cbn [sent log map]. rewrite <- app_assoc.
      split; [reflexivity|]. repeat split; try contradiction; auto.
    + exists [(post_request base data)]. cbn [snd sent log map].
      split; [reflexivity|]. repeat split; try contradiction; auto.
    + exists [(post_request base data); (get_request base code)]. destruct (export_get_sent diagram base (sent env (post_request base data) s) Hc) as [Hg _].
      rewrite Hg. cbn [sent log map]. rewrite <- app_assoc.
      split; [reflexivity|]. repeat split; try contradiction; auto.
    + exists [(post_request base data)]. cbn [snd sent log map].
      split; [reflexivity|]. repeat split; try contradiction; auto.
Qed.

(** X10. For a text that UTF-8 can encode, [export_png] sends one request or
    two and does nothing else: the POST request alone under [POST], the GET
    request alone under [GET], and under any other method the POST request,
    followed or not by the GET request. *)
Theorem export_sends_one_or_two_requests (diagram base method : str) (data : bytes)
  (code : str) (s : state W) :
  Py.encode diagram = Ok data ->
  Encoder.plantuml_encode (zlib_compress9 env) diagram = Ok code ->
  let post := post_request base data in
  let get := get_request base code in
  exists qs,
    log (snd (export_png env diagram base method s)) = log s ++ map Sent qs /\
    (upper env method = lit "POST" -> qs = [post]) /\
    (upper env method = lit "GET" -> qs = [get]) /\
    (qs = [post] \/ qs = [get] \/ qs = [post; get]).
Proof. apply export_png_requests. Qed.

(** In every case [export_png] adds to the log the requests it sends, two
    at most, and nothing else. *)
Lemma export_png_log (diagram base method : str) (s : state W) :
  exists qs,
    log (snd (export_png env diagram base method s)) = log s ++ map Sent qs /\
    length qs <= 2.
Proof.
  destruct (Py.encode diagram) as [data|e] eqn:Hd.
  - destruct (plantuml_encode_defined _ Hd) as [code Hc].
    destruct (@export_png_requests diagram base method data code s Hd Hc)
      as (qs & Hlog & _ & _ & Hqs).
    exists qs. split; [exact Hlog|].
    destruct Hqs as [-> | [-> | ->]]; cbn [length]; lia.
  - exists []. rewrite (@export_png_unencodable diagram base method e s Hd).
    cbn [snd map length].
    rewrite app_nil_r. auto.
Qed.

End ExportProps.

(** POST is answered with an error page and GET with an image: the bytes
    returned are those of the image. *)
Lemma export_returns_png_witness :
  Py.startswith _PNG_MAGIC (_PNG_MAGIC ++ [0x00; 0x01]%N) = true.
Proof.
  apply (@export_returns_png _ _ Sim.env Lifecycle.tiny (lit "http://localhost:8080")
           (lit "auto") (Sim.boot [Sim.page 200; Sim.png 200])
           (snd (export_png Sim.env Lifecycle.tiny (lit "http://localhost:8080")
                   (lit "auto") (Sim.boot [Sim.page 200; Sim.png 200])))).
  reflexivity.
Defined.

Lemma unencodable_text_is_not_sent_witness :
  export_png Sim.env [0xD800%N] (lit "http://localhost:8080") (lit "AUTO")
    (Sim.boot [Sim.png 200])
  = (Raise (UnicodeEncodeError (lit "surrogates not allowed")), Sim.boot [Sim.png 200]).
Proof.
  apply (@unencodable_text_is_not_sent _ _ Sim.env [0xD800%N]). reflexivity.
Defined.

(** A method that is none of the three is taken as [AUTO]. *)
Lemma export_sends_one_or_two_requests_witness :
  exists qs,
    log (snd (export_png Sim.env Lifecycle.tiny (lit "http://localhost:8080") (lit "put")
                (Sim.boot [Sim.page 404; Sim.page 404])))
    = [] ++ map Sent qs /\
    (Sim.ascii_upper (lit "put") = lit "POST" ->
     qs = [post_request (lit "http://localhost:8080") (Sim.document ["@startuml"; "@enduml"]%string)]) /\
    (Sim.ascii_upper (lit "put") = lit "GET" ->
     qs = [get_request (lit "http://localhost:8080") (lit "SoWkIImgAStDuN98pKi1qG00")]) /\
    (qs = [post_request (lit "http://localhost:8080") (Sim.document ["@startuml"; "@enduml"]%string)] \/
     qs = [get_request (lit "http://localhost:8080") (lit "SoWkIImgAStDuN98pKi1qG00")] \/
     qs = [post_request (lit "http://localhost:8080") (Sim.document ["@startuml"; "@enduml"]%string);
           get_request (lit "http://localhost:8080") (lit "SoWkIImgAStDuN98pKi1qG00")]).
Proof.
  apply (@export_sends_one_or_two_requests _ _ Sim.env Lifecycle.tiny
           (lit "http://localhost:8080") (lit "put")
           (Sim.document ["@startuml"; "@enduml"]%string) (lit "SoWkIImgAStDuN98pKi1qG00")
           (Sim.boot [Sim.page 404; Sim.page 404]));
    reflexivity.
Defined.

End ExportProps.

(** ** The readiness probe: rounds, answers and the time *)

Module WaitProps.

Import Lifecycle Shapes Rounds.

Section WaitProps.

Variables W T : Type.
Variable env : Env W T.

Lemma now_log (s : state W) : log (snd (now env s)) = log s.
Proof. unfold now. now destruct (clock env (world s)). Qed.

(** One round of the loop. *)
Lemma poll_round fuel url t0 timeout s :
  poll env (S fuel) url t0 timeout s =
  if elapsed_below env (fst (now env s)) t0 timeout then
    match fst (http env (probe_request url) (world (snd (now env s)))) with
    | Responded r =>
        if is_up r then Some (Ok tt, sent env (probe_request url) (snd (now env s)))
        else poll env fuel url t0 timeout
               (pause env (sent env (probe_request url) (snd (now env s))))
    | Failed _ =>
        poll env fuel url t0 timeout
          (pause env (sent env (probe_request url) (snd (now env s))))
    end
  else Some (Raise timed_out, snd (now env s)).
Proof.
  cbn [poll]. destruct (now env s) as [t s1]. cbn [fst snd].
  destruct (elapsed_below env t t0 timeout); [|reflexivity].
  unfold send. now destruct (fst (http env (probe_request url) (world s1))).
Qed.

Lemma rounds_next url n :
  [Sent (probe_request url); Slept] ++ rounds url n = rounds url (S n).
Proof. reflexivity. Qed.

Lemma poll_log fuel url t0 timeout : forall s res s',
  poll env fuel url t0 timeout s = Some (res, s') ->
  exists n,
    match res with
    | Ok _ => log s' = log s ++ rounds url n ++ [Sent (probe_request url)]
    | Raise e => e = timed_out /\ log s' = log s ++ rounds url n
    end.
Proof.
  induction fuel as [|fuel IH]; intros s res s'; [discriminate|].
  rewrite poll_round.
  assert (Hnext : poll env fuel url t0 timeout
                    (pause env (sent env (probe_request url) (snd (now env s))))
                  = Some (res, s') ->
                  exists n,
                    match res with
                    | Ok _ => log s' = log s ++ rounds url n ++ [Sent (probe_request url)]
                    | Raise e => e = timed_out /\ log s' = log s ++ rounds url n
                    end).
  { intros H. apply IH in H as [n Hn]. exists (S n).
    cbn [pause sent log] in Hn. rewrite now_log, <- !app_assoc in Hn.
    cbn [app] in Hn. rewrite <- rounds_next, <- !app_assoc. exact Hn. }
  destruct (elapsed_below env (fst (now env s)) t0 timeout).
  - destruct (fst (http env (probe_request url) (world (snd (now env s))))) as [r|msg].
    + destruct (is_up r); [|exact Hnext].
      intros H. injection H as <- <-. exists 0.
      cbn [sent log rounds repeat concat app]. now rewrite now_log.
    + exact Hnext.
  - intros H. injection H as <- <-. exists 0. split; [reflexivity|].
    cbn [rounds repeat concat]. now rewrite app_nil_r, now_log.
Qed.

(** X11. When the wait ends, it has sent probes and slept between them, and
    nothing else. It ends with no error right after a probe, with no sleep
    behind it; the only error it ends with is the time out, after a sleep or
    before any probe. No failure of a probe comes out of it. *)
Theorem wait_ends_after_probe_or_times_out (fuel : nat) (port timeout : Z)
  (s s' : state W) (res : result unit) :
  _wait_for_server env fuel port timeout s = Some (res, s') ->
  exists code n,
    Encoder.plantuml_encode (zlib_compress9 env) tiny = Ok code /\
    match res with
    | Ok _ =>
        log s' = log s ++ rounds (probe_url port code) n
                   ++ [Sent (probe_request (probe_url port code))]
    | Raise e =>
        e = timed_out /\ log s' = log s ++ rounds (probe_url port code) n
    end.
Proof.
  unfold _wait_for_server.
  destruct (Encoder.plantuml_encode (zlib_compress9 env) tiny) as [code|e] eqn:Hc;
    [|discriminate].
  pose proof (now_log s) as Hlog. destruct (now env s) as [t0 s0]. cbn [snd] in Hlog.
  intros H. apply poll_log in H as [n Hn]. rewrite Hlog in Hn. now exists code, n.
Qed.

(** X12. An answer to the probe with another status than 200 and 400 is taken as
    no answer: the sleep and the next round follow. When the time is out at
    the start of a round, the wait raises its error and sends no probe. *)
Theorem probe_other_status_or_time_out (fuel : nat) (url : str) (t0 : T) (timeout : Z)
  (s : state W) :
  let s1 := snd (now env s) in
  let probe := probe_request url in
  (elapsed_below env (fst (now env s)) t0 timeout = true ->
   forall r,
     fst (http env probe (world s1)) = Responded r ->
     status_code r <> 200%Z -> status_code r <> 400%Z ->
     poll env (S fuel) url t0 timeout s =
     poll env fuel url t0 timeout (pause env (sent env probe s1))) /\
  (elapsed_below env (fst (now env s)) t0 timeout = false ->
   poll env (S fuel) url t0 timeout s = Some (Raise timed_out, s1) /\
   log s1 = log s).
Proof.
  cbv zeta. rewrite poll_round. split.
  - intros -> r -> H200 H400. unfold is_up.
    apply Z.eqb_neq in H200, H400. now rewrite H200, H400.
  - intros ->. split; [reflexivity | apply now_log].
Qed.

End WaitProps.

(** A server that answers the first probe with status 500 and the second
    with status 200. *)
Lemma wait_ends_after_probe_or_times_out_witness :
  exists code n,
    Encoder.plantuml_encode Sim.zlib_of_examples tiny = Ok code /\
    [Sent (probe_request (lit "http://localhost:18080/png/SoWkIImgAStDuN98pKi1qG00"));
     Slept;
     Sent (probe_request (lit "http://localhost:18080/png/SoWkIImgAStDuN98pKi1qG00"))]
    = [] ++ rounds (probe_url 18080 code) n ++ [Sent (probe_request (probe_url 18080 code))].
Proof.
  apply (@wait_ends_after_probe_or_times_out _ _ Sim.env 3 18080 60
           (Sim.boot [Sim.page 500; Sim.png 200])
           {| world := {| Sim.script := []; Sim.millis := 1500; Sim.disk := [] |};
              log := [Sent (probe_request
                              (lit "http://localhost:18080/png/SoWkIImgAStDuN98pKi1qG00"));
                      Slept;
                      Sent (probe_request
                              (lit "http://localhost:18080/png/SoWkIImgAStDuN98pKi1qG00"))] |}
           (Ok tt)).
  vm_compute. reflexivity.
Defined.

Lemma probe_other_status_or_time_out_witness :
  poll Sim.env 2 (lit "http://localhost:18080/png/x") 0%Z 60 (Sim.boot [Sim.page 500])
  = poll Sim.env 1 (lit "http://localhost:18080/png/x") 0%Z 60
      (pause Sim.env (sent Sim.env (probe_request (lit "http://localhost:18080/png/x"))
                        (Sim.boot [Sim.page 500]))).
Proof.
  destruct (@probe_other_status_or_time_out _ _ Sim.env 1 (lit "http://localhost:18080/png/x")
              0%Z 60 (Sim.boot [Sim.page 500])) as [H _].
  apply (H eq_refl {| status_code := 500; content := lit "<html>error</html>" |} eq_refl);
    discriminate.
Defined.

End WaitProps.

(** ** The batch: files, requests, and documents without a diagram *)

Module BatchProps.

Import Orchestrator Shapes.

Lemma writes_app l1 l2 : writes (l1 ++ l2) = writes l1 ++ writes l2.
Proof. apply flat_map_app. Qed.

Lemma requests_app l1 l2 : requests_sent (l1 ++ l2) = requests_sent l1 ++ requests_sent l2.
Proof. apply flat_map_app. Qed.

Lemma sleeps_app l1 l2 : sleeps (l1 ++ l2) = sleeps l1 + sleeps l2.
Proof. unfold sleeps. now rewrite filter_app, length_app. Qed.

Lemma writes_of_requests qs : writes (map Sent qs) = [].
Proof. induction qs as [|q qs IH]; [reflexivity | exact IH]. Qed.

Lemma sleeps_of_requests qs : sleeps (map Sent qs) = 0.
Proof. induction qs as [|q qs IH]; [reflexivity | exact IH]. Qed.

Lemma requests_of_requests qs : requests_sent (map Sent qs) = qs.
Proof.
  induction qs as [|q qs IH]; [reflexivity|].
  change (requests_sent (map Sent (q :: qs))) with (q :: requests_sent (map Sent qs)).
  now rewrite IH.
Qed.

Section BatchProps.

Variables W T : Type.
Variable env : Env W T.
Variables (base method : str) (out_dir : str).

Lemma export_to_file_events text path s :
  exists evs,
    log (snd (export_to_file env text base method path s)) = log s ++ evs /\
    round_events path (is_ok (fst (export_to_file env text base method path s))) evs.
Proof.
  unfold export_to_file, bind.
  destruct (ExportProps.export_png_log env text base method s) as (qs & Hlog & Hlen).
  pose proof (@ExportProps.export_png_magic _ _ env text base method s) as Hpng.
  destruct (Transport.export_png env text base method s) as [[img|e] s1];
    cbn [fst snd] in *.
  - unfold write.
    destruct (write_file env path img (world s1)) as [[u|e] w]; cbn [fst snd log is_ok].
    + exists (map Sent qs ++ [Wrote path img]). rewrite Hlog, <- app_assoc.
      split; [reflexivity|]. exists qs. split; [exact Hlen|].
      exists img. split; [apply (Hpng s1 img eq_refl) | reflexivity].
    + exists (map Sent qs). split; [exact Hlog|]. exists qs. split; [exact Hlen | reflexivity].
  - exists (map Sent qs). split; [exact Hlog|]. exists qs. split; [exact Hlen | reflexivity].
Qed.

(** What the loop adds to the log. *)
Lemma export_units_events units : forall rep s,
  let res := export_units env base method out_dir units (rep, s) in
  exists evs,
    log (snd res) = log s ++ evs /\
    length (requests_sent evs) <= 2 * length units /\
    sleeps evs = 0 /\
    length (writes evs) + succeeded rep = succeeded (fst res) /\
    Forall (fun w =>
              Py.startswith Transport._PNG_MAGIC (snd w) = true /\
              exists name, In name (map fst units) /\
                           fst w = path_join out_dir (name ++ lit ".png"))
           (writes evs).
Proof.
  induction units as [|[name text] units IH]; intros rep s.
  - exists []. cbn. rewrite app_nil_r. repeat split; auto.
  - cbv zeta. rewrite OrchestratorProps.export_units_cons.
    destruct (export_to_file_events text (path_join out_dir (name ++ lit ".png")) s)
      as (evs1 & Hlog1 & qs & Hqs & Hround).
    destruct (export_to_file env text base method (path_join out_dir (name ++ lit ".png")) s)
      as [[u|e] s1] eqn:Hx; cbn [fst snd is_ok] in *.
    + rewrite (@OrchestratorProps.export_unit_ok _ _ env base method out_dir rep s name text u s1 Hx).
      destruct Hround as (img & Himg & ->).
      destruct (IH (count_ok rep) s1) as (evs & Hlog & Hreq & Hsl & Hw & Hall).
      exists ((map Sent qs ++ [Wrote (path_join out_dir (name ++ lit ".png")) img]) ++ evs).
      rewrite Hlog, Hlog1, <- !app_assoc.
      rewrite !requests_app, !writes_app, !sleeps_app, !length_app,
        requests_of_requests, writes_of_requests, sleeps_of_requests, Hsl.
      cbn [requests_sent writes sleeps flat_map filter length app map fst] in *.
      repeat split; try reflexivity; try lia.
      * cbn [count_ok succeeded] in Hw. lia.
      * constructor.
        -- cbn [fst snd]. split; [exact Himg|]. exists name. split; [now left | reflexivity].
        -- eapply Forall_impl; [|exact Hall]. cbn beta. intros w (Hp & n & Hn & Hpath).
           split; [exact Hp|]. exists n. split; [now right | exact Hpath].
    + rewrite (@OrchestratorProps.export_unit_raise _ _ env base method out_dir rep s name text e s1 Hx).
      subst evs1.
      destruct (IH (count_fail name e rep) s1) as (evs & Hlog & Hreq & Hsl & Hw & Hall).
      exists (map Sent qs ++ evs).
      rewrite Hlog, Hlog1, <- !app_assoc.
      rewrite !requests_app, !writes_app, !sleeps_app, !length_app,
        requests_of_requests, writes_of_requests, sleeps_of_requests, Hsl.
      cbn [length app map fst] in *.
      repeat split; try reflexivity; try lia.
      * cbn [count_fail succeeded] in Hw. exact Hw.
      * eapply Forall_impl; [|exact Hall]. cbn beta. intros w (Hp & n & Hn & Hpath).
        split; [exact Hp|]. exists n. split; [now right | exact Hpath].
Qed.

(** A document without a unit leaves everything as it is. *)
Lemma run_of_no_unit source s :
  Tokenizer.iter_diagrams source = [] ->
  run_exports env source base method out_dir s = (no_report, s).
Proof. unfold run_exports. now intros ->. Qed.

Lemma unit_path source name :
  In name (map fst (Tokenizer.iter_diagrams source)) ->
  ~ In 0x2F%N name /\
  path_join out_dir (name ++ lit ".png") = dir_prefix out_dir ++ name ++ lit ".png".
Proof.
  rewrite in_map_iff. intros (u & <- & Hu).
  destruct (OrchestratorProps.unit_names_sanitized _ _ Hu) as [raw E].
  pose proof (@OrchestratorProps.sanitize_no_slash raw) as Hs. rewrite <- E in Hs.
  split; [exact Hs|]. apply OrchestratorProps.path_join_relative.
  destruct (fst u) as [|c n]; [discriminate|].
  cbn [app hd]. intros ->. apply Hs. now left.
Qed.

(** X13. Every file that a run writes is the file of a unit of the document, in
    the output directory itself (its name is the name of the unit, with no
    path separator in it, and [.png]), and the bytes written to it start
    with the PNG magic. There are as many writes as successes. *)
Theorem written_files_are_images_of_units (source : str) (s : state W) :
  let res := run_exports env source base method out_dir s in
  exists evs,
    log (snd res) = log s ++ evs /\
    length (writes evs) = succeeded (fst res) /\
    Forall (fun w =>
              Py.startswith Transport._PNG_MAGIC (snd w) = true /\
              exists name,
                In name (map fst (Tokenizer.iter_diagrams source)) /\
                ~ In 0x2F%N name /\
                fst w = dir_prefix out_dir ++ name ++ lit ".png")
           (writes evs).
Proof.
  cbv zeta. unfold run_exports.
  destruct (export_units_events (Tokenizer.iter_diagrams source) no_report s)
    as (evs & Hlog & _ & _ & Hw & Hall).
  exists evs. split; [exact Hlog|]. split.
  - cbn [no_report succeeded] in Hw. lia.
  - eapply Forall_impl; [|exact Hall]. cbn beta. intros w (Hp & n & Hn & Hpath).
    split; [exact Hp|]. exists n. destruct (unit_path source n Hn) as [Hs E].
    split; [exact Hn|]. split; [exact Hs|]. now rewrite <- E.
Qed.


(** X15. A document with no start directive (the empty document for one) is no
    error: nothing is sent, nothing is written, the two counts are 0 and the
    exit status is 0. *)
Theorem document_without_directive (source : str) (s : state W) :
  Tokenizer.count_starts (Py.splitlines source) = 0 ->
  run_exports env source base method out_dir s = (no_report, s) /\
  exit_status (fst (run_exports env source base method out_dir s)) = 0%Z.
Proof.
  intros H0.
  assert (Hnone : Tokenizer.iter_diagrams source = []).
  { unfold Tokenizer.iter_diagrams.
    pose proof (TokenizerProps.tiles_count
                  (TokenizerProps.scan_tiles (Py.splitlines source) 1)) as Hc.
    rewrite (TokenizerProps.starts_of_units
               (TokenizerProps.scan_heads (Py.splitlines source) 1)), H0 in Hc.
    destruct (Tokenizer.scan 1 (Py.splitlines source)); [reflexivity|].
    cbn [length] in Hc. lia. }
  rewrite (run_of_no_unit _ _ Hnone). split; reflexivity.
Qed.

End BatchProps.

(** Three units of which the second fails: two files, both images. *)
Lemma written_files_are_images_of_units_witness :
  let source := Sim.document
    ["@startuml first"; "a -> b"; "@enduml";
     "@startuml"; "b -> c"; "@enduml";
     "@startuml third"; "c -> a"; "@enduml"]%string in
  let res := run_exports Sim.env source (lit "http://localhost:8080") (lit "POST")
               (lit "out") (Sim.boot [Sim.png 200; Sim.page 200; Sim.png 200]) in
  exists evs,
    log (snd res) = [] ++ evs /\
    length (writes evs) = succeeded (fst res) /\
    Forall (fun w =>
              Py.startswith Transport._PNG_MAGIC (snd w) = true /\
              exists name,
                In name (map fst (Tokenizer.iter_diagrams source)) /\
                ~ In 0x2F%N name /\
                fst w = dir_prefix (lit "out") ++ name ++ lit ".png")
           (writes evs).
Proof.
  exact (@written_files_are_images_of_units _ _ Sim.env (lit "http://localhost:8080")
           (lit "POST") (lit "out")
           (Sim.document
              ["@startuml first"; "a -> b"; "@enduml";
               "@startuml"; "b -> c"; "@enduml";
               "@startuml third"; "c -> a"; "@enduml"]%string)
           (Sim.boot [Sim.png 200; Sim.page 200; Sim.png 200])).
Defined.

(** The empty document, and a document of text alone. *)
Lemma document_without_directive_witness :
  run_exports Sim.env (Sim.document ["no diagram"; "in this text"]%string)
    (lit "http://localhost:8080") (lit "AUTO") (lit "out") (Sim.boot [])
  = (no_report, Sim.boot []) /\
  exit_status (fst (run_exports Sim.env (Sim.document ["no diagram"; "in this text"]%string)
                      (lit "http://localhost:8080") (lit "AUTO") (lit "out") (Sim.boot [])))
  = 0%Z.
Proof.
  apply (@document_without_directive _ _ Sim.env (lit "http://localhost:8080") (lit "AUTO")
           (lit "out") (Sim.document ["no diagram"; "in this text"]%string) (Sim.boot [])).
  reflexivity.
Defined.

End BatchProps.

(** ** The container and the command line *)

Module ProcessProps.

Import Process Rounds.

Lemma commands_app t1 t2 : commands (t1 ++ t2) = commands t1 ++ commands t2.
Proof. apply flat_map_app. Qed.

Lemma trace_requests_app t1 t2 : requests (t1 ++ t2) = requests t1 ++ requests t2.
Proof. apply flat_map_app. Qed.

Lemma commands_of_effects evs : commands (map Effect evs) = [].
Proof. induction evs as [|e evs IH]; [reflexivity | exact IH]. Qed.

Lemma requests_of_effects evs : requests (map Effect evs) = Shapes.requests_sent evs.
Proof.
  induction evs as [|e evs IH]; [reflexivity|].
  change (requests (map Effect (e :: evs)))
    with (match e with Sent q => [q] | _ => [] end ++ requests (map Effect evs)).
  now rewrite IH.
Qed.

Lemma post_goes_to base data : goes_to base (Transport.post_request base data).
Proof.
  unfold goes_to. apply PyProps.startswith_spec.
  destruct (ExportProps.rstrip_stem base) as (k & E & _).
  exists (repeat 0x2F%N k ++ lit "/png"). cbn [Transport.post_request rq_url].
  rewrite app_assoc, <- E. reflexivity.
Qed.

Lemma get_goes_to base code : goes_to base (Transport.get_request base code).
Proof.
  unfold goes_to. apply PyProps.startswith_spec.
  exists (lit "/png/" ++ code). reflexivity.
Qed.

Lemma rstrip_twice (base : str) :
  Py.rstrip (N.eqb 0x2F) (Py.rstrip (N.eqb 0x2F) base) = Py.rstrip (N.eqb 0x2F) base.
Proof.
  destruct (ExportProps.rstrip_stem base) as (k & E & _).
  rewrite E at 2. now rewrite ExportProps.rstrip_slashes.
Qed.

Section ProcessProps.

Variables W T : Type.
Variable env : Env W T.
Variable host : Host W.

(** *** The requests of a batch *)

Lemma export_png_urls (diagram base method : str) (s : state W) :
  exists qs,
    log (snd (Transport.export_png env diagram base method s)) = log s ++ map Sent qs /\
    Forall (goes_to base) qs.
Proof.
  destruct (Py.encode diagram) as [data|e] eqn:He.
  - destruct (ExportProps.plantuml_encode_defined env diagram He) as [code Hc].
    destruct (@ExportProps.export_png_requests _ _ env diagram base method data code s He Hc)
      as (qs & Hlog & _ & _ & Hqs).
    exists qs. split; [exact Hlog|].
    destruct Hqs as [->|[->| ->]]; repeat constructor;
      first [apply post_goes_to | apply get_goes_to].
  - rewrite (@ExportProps.export_png_unencodable _ _ env diagram base method e s He).
    exists []. cbn. now rewrite app_nil_r.
Qed.

Lemma export_to_file_urls (text base method path : str) (s : state W) :
  exists evs,
    log (snd (Orchestrator.export_to_file env text base method path s)) = log s ++ evs /\
    Forall (goes_to base) (Shapes.requests_sent evs).
Proof.
  unfold Orchestrator.export_to_file, bind.
  destruct (export_png_urls text base method s) as (qs & Hlog & Hqs).
  destruct (Transport.export_png env text base method s) as [[img|e] s1]; cbn [fst snd] in *.
  - unfold write.
    destruct (write_file env path img (world s1)) as [[u|e] w]; cbn [fst snd log].
    + exists (map Sent qs ++ [Wrote path img]). rewrite Hlog, <- app_assoc.
      split; [reflexivity|].
      rewrite BatchProps.requests_app, BatchProps.requests_of_requests.
      cbn. now rewrite app_nil_r.
    + exists (map Sent qs). split; [exact Hlog|].
      now rewrite BatchProps.requests_of_requests.
  - exists (map Sent qs). split; [exact Hlog|].
    now rewrite BatchProps.requests_of_requests.
Qed.

Lemma export_units_urls (base method out_dir : str) units : forall rep s,
  exists evs,
    log (snd (Orchestrator.export_units env base method out_dir units (rep, s))) = log s ++ evs /\
    Forall (goes_to base) (Shapes.requests_sent evs).
Proof.
  induction units as [|[name text] units IH]; intros rep s.
  - exists []. cbn. rewrite app_nil_r. split; [reflexivity | constructor].
  - rewrite OrchestratorProps.export_units_cons.
    destruct (export_to_file_urls text base method
                (Orchestrator.path_join out_dir (name ++ lit ".png")) s)
      as (evs1 & Hlog1 & Hall1).
    destruct (Orchestrator.export_to_file env text base method
                (Orchestrator.path_join out_dir (name ++ lit ".png")) s)
      as [[u|e] s1] eqn:Hx; cbn [fst snd] in *.
    + rewrite (@OrchestratorProps.export_unit_ok _ _ env base method out_dir rep s name text u s1 Hx).
      destruct (IH (Orchestrator.count_ok rep) s1) as (evs & Hlog & Hall).
      exists (evs1 ++ evs). rewrite Hlog, Hlog1, <- app_assoc. split; [reflexivity|].
      rewrite BatchProps.requests_app. apply Forall_app. now split.
    + rewrite (@OrchestratorProps.export_unit_raise _ _ env base method out_dir rep s name text e s1 Hx).
      destruct (IH (Orchestrator.count_fail name e rep) s1) as (evs & Hlog & Hall).
      exists (evs1 ++ evs). rewrite Hlog, Hlog1, <- app_assoc. split; [reflexivity|].
      rewrite BatchProps.requests_app. apply Forall_app. now split.
Qed.

Lemma run_exports_failures (source base method out_dir : str) (s : state W) :
  let rep := fst (Orchestrator.run_exports env source base method out_dir s) in
  length (Orchestrator.failures rep) = Orchestrator.failed rep.
Proof.
  cbv zeta. unfold Orchestrator.run_exports.
  destruct (@OrchestratorProps.export_units_spec _ _ env base method out_dir
              (Tokenizer.iter_diagrams source) Orchestrator.no_report s)
    as (_ & _ & Hf & Hl & _).
  cbv zeta in Hf, Hl. rewrite Hf, Hl.
  cbn [Orchestrator.no_report Orchestrator.failed Orchestrator.failures app Nat.add].
  apply OrchestratorProps.failed_entries_length.
Qed.

(** What [run] comes to, and what it adds to the trace. *)
Lemma run_spec (source base method out_dir : str) (s : process W) :
  let batch := Orchestrator.run_exports env source base method out_dir (enter s) in
  snd (run env source base method out_dir s) = leave s (snd batch) /\
  trace (leave s (snd batch)) = trace s ++ map Effect (log (snd batch)) /\
  Forall (goes_to base) (Shapes.requests_sent (log (snd batch))) /\
  exit_status_of (fst (run env source base method out_dir s))
  = (if Nat.eqb (Orchestrator.failed (fst batch)) 0 then 0%Z else 1%Z) /\
  (Orchestrator.failed (fst batch) = 0 -> fst (run env source base method out_dir s) = Done tt).
Proof.
  cbv zeta. unfold run.
  pose proof (run_exports_failures source base method out_dir (enter s)) as Hlen.
  destruct (export_units_urls base method out_dir (Tokenizer.iter_diagrams source)
              Orchestrator.no_report (enter s)) as (evs & Hlog & Hall).
  fold (Orchestrator.run_exports env source base method out_dir (enter s)) in Hlog.
  cbv zeta in Hlen.
  destruct (Orchestrator.run_exports env source base method out_dir (enter s)) as [rep st].
  cbn [fst snd] in *. cbn [enter log app] in Hlog.
  split; [reflexivity|]. split; [reflexivity|]. split; [now rewrite Hlog|].
  pose proof (OrchestratorProps.exit_status_spec rep Hlen) as Hs.
  unfold Orchestrator.exit_status in Hs. unfold Orchestrator.exit_call in *.
  destruct (Orchestrator.failures rep) as [|x l]; cbn [length] in Hlen.
  - rewrite <- Hlen. cbn. split; reflexivity.
  - destruct (Nat.eqb (Orchestrator.failed rep) 0) eqn:E.
    + apply Nat.eqb_eq in E. rewrite E in Hlen. discriminate Hlen.
    + cbn [exit_status_of]. split; [exact Hs|]. intros H0. rewrite H0 in E. discriminate E.
Qed.

(** *** The container *)

Lemma finally_stop_spec (A : Type) (cid : str) (r : outcome A) (s : process W) :
  trace (snd (finally_stop host cid r s)) = trace s ++ [Ran (docker_stop cid)] /\
  (forall code, fst (call host (docker_stop cid) (pworld s)) = Done code ->
                fst (finally_stop host cid r s) = r).
Proof.
  unfold finally_stop, run_status.
  destruct (call host (docker_stop cid) (pworld s)) as [[code|f] w]; cbn [fst snd trace].
  - split; [reflexivity | intros; reflexivity].
  - split; [reflexivity | intros code H; discriminate H].
Qed.

(** X16. Once [docker run] has given the identifier of a container, the
    container is stopped on every path, and [docker stop] is the last thing
    done: after a wait that raised (the body of the [with] statement is
    then not run), and after the body, whether it returned, raised or called
    [sys.exit]. The status that [docker stop] returns changes nothing: the
    [with] statement ends as the wait or the body ended. *)
Theorem container_is_always_stopped (A : Type) (fuel : nat) (image : str) (port : Z)
  (body : str -> process W -> outcome A * process W) (s : process W)
  (path out : str) (w1 : W) (waited : result unit) (st : state W) :
  which host (lit "docker") (pworld s) = Some path -> path <> [] ->
  check_output host (docker_run image port) (pworld s) = (Done out, w1) ->
  let started := {| pworld := w1; trace := trace s ++ [Ran (docker_run image port)] |} in
  Lifecycle._wait_for_server env fuel port 60 (enter started) = Some (waited, st) ->
  let tried := match waited with
               | Ok _ => body (lit "http://localhost:" ++ Py.decimal port) (leave started st)
               | Raise e => (Threw (Exception e), leave started st)
               end in
  exists r s',
    docker_plantuml env host fuel image port body s = Some (r, s') /\
    trace s' = trace (snd tried) ++ [Ran (docker_stop (Py.strip out))] /\
    (forall code,
       fst (call host (docker_stop (Py.strip out)) (pworld (snd tried))) = Done code ->
       r = fst tried).
Proof.
  intros Hwhich Hpath Hrun started Hwait tried.
  unfold docker_plantuml, run_output. rewrite Hwhich.
  destruct path as [|c path]; [contradiction|].
  rewrite Hrun. fold started. rewrite Hwait.
  destruct waited as [u|e]; subst tried; cbv beta iota.
  - destruct (body (lit "http://localhost:" ++ Py.decimal port) (leave started st)) as [r s2].
    destruct (finally_stop_spec (Py.strip out) r s2) as [Ht Hr].
    exists (fst (finally_stop host (Py.strip out) r s2)),
           (snd (finally_stop host (Py.strip out) r s2)).
    rewrite <- surjective_pairing. cbn [fst snd]. auto.
  - destruct (finally_stop_spec (Py.strip out) (@Threw A (Exception e)) (leave started st))
      as [Ht Hr].
    exists (fst (finally_stop host (Py.strip out) (@Threw A (Exception e)) (leave started st))),
           (snd (finally_stop host (Py.strip out) (@Threw A (Exception e)) (leave started st))).
    rewrite <- surjective_pairing. cbn [fst snd]. auto.
Qed.

(** X17. The commands of the [with] statement, for a body that runs none.
    When [shutil.which] finds no Docker, the statement raises its
    [RuntimeError] and the state is as before: no command is run. When it
    finds Docker and [docker run] fails, the statement raises what the
    command raised, and [docker run] is the only command: no [docker stop]
    follows. When [docker run] gives an identifier, the statement ends
    exactly when the wait ends, and its commands are [docker run] and then
    [docker stop] of that identifier, once. *)
Theorem stop_only_follows_run (A : Type) (fuel : nat) (image : str) (port : Z)
  (body : str -> process W -> outcome A * process W) (s : process W) :
  (forall base s0, commands (trace (snd (body base s0))) = commands (trace s0)) ->
  let found := match which host (lit "docker") (pworld s) with
               | Some (_ :: _) => true
               | _ => false
               end in
  let ran := check_output host (docker_run image port) (pworld s) in
  let started := {| pworld := snd ran; trace := trace s ++ [Ran (docker_run image port)] |} in
  (found = false ->
   docker_plantuml env host fuel image port body s
   = Some (Threw (Exception docker_not_found), s)) /\
  (found = true -> forall f, fst ran = Threw f ->
   docker_plantuml env host fuel image port body s = Some (Threw f, started) /\
   commands (trace started) = commands (trace s) ++ [docker_run image port]) /\
  (found = true -> forall out, fst ran = Done out ->
   (Lifecycle._wait_for_server env fuel port 60 (enter started) = None ->
    docker_plantuml env host fuel image port body s = None) /\
   (forall waited st,
      Lifecycle._wait_for_server env fuel port 60 (enter started) = Some (waited, st) ->
      exists r s',
        docker_plantuml env host fuel image port body s = Some (r, s') /\
        commands (trace s')
        = commands (trace s) ++ [docker_run image port; docker_stop (Py.strip out)])).
Proof.
  intros Hbody found ran started. subst found started ran.
  unfold docker_plantuml, run_output.
  destruct (which host (lit "docker") (pworld s)) as [[|c path]|].
  - split; [reflexivity|]. split; intros H; discriminate H.
  - split; [intros H; discriminate H|].
    destruct (check_output host (docker_run image port) (pworld s)) as [[out|f] w1];
      cbn [fst snd].
    + split; [intros _ f H; discriminate H|].
      intros _ out' H. injection H as <-.
      set (started := {| pworld := w1; trace := trace s ++ [Ran (docker_run image port)] |}).
      assert (Hstarted : forall st, commands (trace (leave started st))
                                    = commands (trace s) ++ [docker_run image port]).
      { intros st. cbn [leave started trace].
        rewrite !commands_app, commands_of_effects, app_nil_r. reflexivity. }
      split; [now intros ->|].
      intros waited st ->.
      destruct waited as [u|e].
      * specialize (Hbody (lit "http://localhost:" ++ Py.decimal port) (leave started st)).
        destruct (body (lit "http://localhost:" ++ Py.decimal port) (leave started st))
          as [r0 s2]. cbn [snd] in Hbody.
        destruct (finally_stop_spec (Py.strip out) r0 s2) as [Ht _].
        exists (fst (finally_stop host (Py.strip out) r0 s2)),
               (snd (finally_stop host (Py.strip out) r0 s2)).
        rewrite <- surjective_pairing. split; [reflexivity|].
        rewrite Ht, commands_app, Hbody, Hstarted, <- app_assoc. reflexivity.
      * destruct (finally_stop_spec (Py.strip out) (@Threw A (Exception e)) (leave started st))
          as [Ht _].
        exists (fst (finally_stop host (Py.strip out) (@Threw A (Exception e))
                       (leave started st))),
               (snd (finally_stop host (Py.strip out) (@Threw A (Exception e))
                       (leave started st))).
        rewrite <- surjective_pairing. split; [reflexivity|].
        rewrite Ht, commands_app, Hstarted, <- app_assoc. reflexivity.
    + split; [|intros _ out H; discriminate H].
      intros _ f' H. injection H as <-. split; [reflexivity|].
      cbn [trace]. rewrite commands_app. reflexivity.
  - split; [reflexivity|]. split; intros H; discriminate H.
Qed.

(** *** The command line *)

Lemma run_commands (source base method out_dir : str) (s : process W) :
  commands (trace (snd (run env source base method out_dir s))) = commands (trace s).
Proof.
  destruct (run_spec source base method out_dir s) as (-> & -> & _).
  now rewrite commands_app, commands_of_effects, app_nil_r.
Qed.

(** X18. A failure of the setup ends [main] with that failure, and [main]
    has then sent no request and run no command. When the input is no file,
    [main] calls [sys.exit] with the message of line 185, the exit status
    is 1, and the state is as before: the output directory is not made.
    When [os.makedirs] raises, [main] ends with what it raised, and the
    input is not read. When the input cannot be read, [main] ends with what
    the reading raised. *)
Theorem setup_failure_sends_nothing (fuel : nat) (args : Args) (s : process W) :
  let made := makedirs host (arg_output args) (pworld s) in
  let read := read_text host (arg_file args) (snd made) in
  let s1 := {| pworld := snd made; trace := trace s ++ [MadeDirs (arg_output args)] |} in
  let s2 := {| pworld := snd read;
               trace := trace s ++ [MadeDirs (arg_output args); ReadFile (arg_file args)] |} in
  (isfile host (arg_file args) (pworld s) = false ->
   main env host fuel args s = Some (Threw (file_not_found (arg_file args)), s) /\
   exit_status_of (@Threw unit (file_not_found (arg_file args))) = 1%Z) /\
  (isfile host (arg_file args) (pworld s) = true ->
   forall f, fst made = Threw f ->
   main env host fuel args s = Some (Threw f, s1) /\
   requests (trace s1) = requests (trace s) /\
   commands (trace s1) = commands (trace s)) /\
  (isfile host (arg_file args) (pworld s) = true ->
   forall u f, fst made = Done u -> fst read = Threw f ->
   main env host fuel args s = Some (Threw f, s2) /\
   requests (trace s2) = requests (trace s) /\
   commands (trace s2) = commands (trace s)).
Proof.
  cbv zeta. unfold main.
  destruct (isfile host (arg_file args) (pworld s)); cbn [negb].
  - split; [intros H; discriminate H|].
    destruct (makedirs host (arg_output args) (pworld s)) as [[u|f] w1];
      cbn [fst snd pworld trace].
    + split; [intros _ f H; discriminate H|].
      intros _ u' f _.
      destruct (read_text host (arg_file args) w1) as [[source|f'] w2]; cbn [fst snd];
        intros H; [discriminate H|]. injection H as <-.
      rewrite <- app_assoc. cbn [app]. split; [reflexivity|].
      rewrite trace_requests_app, commands_app. cbn. now rewrite !app_nil_r.
    + split; [|intros _ u f' H; discriminate H].
      intros _ f' H. injection H as <-. split; [reflexivity|].
      rewrite trace_requests_app, commands_app. cbn. now rewrite !app_nil_r.
  - split; [intros _; split; reflexivity|]. split; intros H; discriminate H.
Qed.

(** X19. With a server option that is not empty, [main] does not look at the
    Docker options: [--docker], the port and the image change nothing, no
    command is run, and every request goes to the server of the option. *)
Theorem server_option_wins (fuel : nat) (args : Args) (s : process W) (server : str) :
  arg_server args = Some server -> server <> [] ->
  (forall fuel' docker port image,
     main env host fuel'
       {| arg_file := arg_file args; arg_output := arg_output args;
          arg_server := arg_server args; arg_method := arg_method args;
          arg_docker := docker; arg_port := port; arg_image := image |} s
     = main env host fuel args s) /\
  exists r s' t,
    main env host fuel args s = Some (r, s') /\
    trace s' = trace s ++ t /\
    commands t = [] /\
    Forall (goes_to server) (requests t).
Proof.
  intros Hserver Hne. destruct server as [|c server]; [contradiction|].
  unfold main. cbn [arg_file arg_output arg_server arg_method]. rewrite Hserver.
  split; [reflexivity|].
  destruct (isfile host (arg_file args) (pworld s)); cbn [negb].
  - destruct (makedirs host (arg_output args) (pworld s)) as [[u|f] w1]; cbn [pworld].
    + destruct (read_text host (arg_file args) w1) as [[source|f] w2].
      * match goal with
        | |- context [run env source ?b ?m ?o ?s2] =>
            destruct (run_spec source b m o s2) as (Hs & Ht & Hall & _);
            exists (fst (run env source b m o s2)), (snd (run env source b m o s2)),
              ([MadeDirs (arg_output args); ReadFile (arg_file args)]
                 ++ map Effect (log (snd (Orchestrator.run_exports env source b m o (enter s2)))))
        end.
        rewrite <- surjective_pairing. split; [reflexivity|].
        rewrite Hs, Ht. cbn [trace]. rewrite <- !app_assoc. split; [reflexivity|].
        rewrite commands_app, trace_requests_app, commands_of_effects, requests_of_effects.
        split; [reflexivity|]. cbn [requests flat_map app].
        eapply Forall_impl; [|exact Hall]. unfold goes_to. intros q.
        now rewrite rstrip_twice.
      * eexists _, _, [MadeDirs (arg_output args); ReadFile (arg_file args)].
        split; [reflexivity|]. cbn [trace]. rewrite <- app_assoc.
        split; [reflexivity|]. split; [reflexivity | constructor].
    + eexists _, _, [MadeDirs (arg_output args)].
      split; [reflexivity|]. split; [reflexivity|]. split; [reflexivity | constructor].
  - eexists _, _, []. split; [reflexivity|]. rewrite app_nil_r.
    split; [reflexivity|]. split; [reflexivity | constructor].
Qed.

(** X20. Without a server option, and with the empty one, [main] without
    [--docker] runs no command, and every request goes to the public
    server. *)
Theorem public_server_is_the_default (fuel : nat) (args : Args) (s : process W) :
  arg_server args = None \/ arg_server args = Some [] ->
  arg_docker args = false ->
  exists r s' t,
    main env host fuel args s = Some (r, s') /\
    trace s' = trace s ++ t /\
    commands t = [] /\
    Forall (goes_to public_server) (requests t).
Proof.
  intros Hserver Hdocker. unfold main. rewrite Hdocker.
  destruct (isfile host (arg_file args) (pworld s)); cbn [negb].
  - destruct (makedirs host (arg_output args) (pworld s)) as [[u|f] w1]; cbn [pworld].
    + destruct (read_text host (arg_file args) w1) as [[source|f] w2].
      * match goal with
        | |- context [run env source ?b ?m ?o ?s2] =>
            destruct (run_spec source b m o s2) as (Hs & Ht & Hall & _);
            exists (fst (run env source b m o s2)), (snd (run env source b m o s2)),
              ([MadeDirs (arg_output args); ReadFile (arg_file args)]
                 ++ map Effect (log (snd (Orchestrator.run_exports env source b m o (enter s2)))))
        end.
        split; [destruct Hserver as [-> | ->]; now rewrite <- surjective_pairing|].
        rewrite Hs, Ht. cbn [trace]. rewrite <- !app_assoc. split; [reflexivity|].
        rewrite commands_app, trace_requests_app, commands_of_effects, requests_of_effects.
        split; [reflexivity|]. exact Hall.
      * eexists _, _, [MadeDirs (arg_output args); ReadFile (arg_file args)].
        split; [reflexivity|]. cbn [trace]. rewrite <- app_assoc.
        split; [reflexivity|]. split; [reflexivity | constructor].
    + eexists _, _, [MadeDirs (arg_output args)].
      split; [reflexivity|]. split; [reflexivity|]. split; [reflexivity | constructor].
  - eexists _, _, []. split; [reflexivity|]. rewrite app_nil_r.
    split; [reflexivity|]. split; [reflexivity | constructor].
Qed.

(** X21. With [--docker] and no server option, once the container has started
    and the wait has ended with no error: the batch is run against the
    container, every one of its requests goes to [localhost] at the port of
    the option, and the container is stopped after the batch, also when
    units have failed and the batch has ended in [sys.exit(1)]. For any
    status that [docker stop] returns, the exit status of the process is
    that of the batch: 0 when no unit failed, else 1. *)
Theorem docker_batch_is_torn_down (fuel : nat) (args : Args) (s : process W)
  (w1 w2 w3 : W) (source path out : str) (st : state W) :
  isfile host (arg_file args) (pworld s) = true ->
  makedirs host (arg_output args) (pworld s) = (Done tt, w1) ->
  read_text host (arg_file args) w1 = (Done source, w2) ->
  arg_server args = None \/ arg_server args = Some [] ->
  arg_docker args = true ->
  which host (lit "docker") w2 = Some path -> path <> [] ->
  check_output host (docker_run (arg_image args) (arg_port args)) w2 = (Done out, w3) ->
  let started :=
    {| pworld := w3;
       trace := (trace s ++ [MadeDirs (arg_output args); ReadFile (arg_file args)])
                  ++ [Ran (docker_run (arg_image args) (arg_port args))] |} in
  Lifecycle._wait_for_server env fuel (arg_port args) 60 (enter started) = Some (Ok tt, st) ->
  let base := lit "http://localhost:" ++ Py.decimal (arg_port args) in
  let batch := Orchestrator.run_exports env source base (arg_method args) (arg_output args)
                 (enter (leave started st)) in
  exists r s',
    main env host fuel args s = Some (r, s') /\
    trace s' = trace started ++ map Effect (log st) ++ map Effect (log (snd batch))
                 ++ [Ran (docker_stop (Py.strip out))] /\
    Forall (goes_to base) (Shapes.requests_sent (log (snd batch))) /\
    (forall code,
       fst (call host (docker_stop (Py.strip out)) (world (snd batch))) = Done code ->
       exit_status_of r
       = if Nat.eqb (Orchestrator.failed (fst batch)) 0 then 0%Z else 1%Z).
Proof.
  intros Hfile Hmake Hread Hserver Hdocker Hwhich Hpath Hrun started Hwait base batch.
  assert (Hmain : main env host fuel args s
                  = docker_plantuml env host fuel (arg_image args) (arg_port args)
                      (fun base => run env source base (arg_method args) (arg_output args))
                      {| pworld := w2;
                         trace := trace s ++ [MadeDirs (arg_output args);
                                              ReadFile (arg_file args)] |}).
  { unfold main. rewrite Hfile, Hmake. cbn [negb pworld trace]. rewrite Hread, Hdocker.
    rewrite <- app_assoc. cbn [app]. now destruct Hserver as [-> | ->]. }
  rewrite Hmain.
  unfold docker_plantuml, run_output. cbn [pworld trace]. rewrite Hwhich.
  destruct path as [|c path]; [contradiction|].
  rewrite Hrun. fold started. rewrite Hwait. fold base.
  destruct (run_spec source base (arg_method args) (arg_output args) (leave started st))
    as (Hs & Ht & Hall & Hstatus & _).
  fold batch in Hs, Ht, Hall, Hstatus.
  destruct (run env source base (arg_method args) (arg_output args) (leave started st))
    as [r0 s2]. cbn [fst snd] in Hs, Hstatus.
  destruct (finally_stop_spec (Py.strip out) r0 s2) as [Hstop Hr].
  exists (fst (finally_stop host (Py.strip out) r0 s2)),
         (snd (finally_stop host (Py.strip out) r0 s2)).
  rewrite <- surjective_pairing. split; [reflexivity|].
  split; [|split; [exact Hall|]].
  - rewrite Hstop, Hs, Ht. cbn [leave trace]. now rewrite <- !app_assoc.
  - intros code Hcode. rewrite (Hr code); [exact Hstatus|].
    rewrite Hs. exact Hcode.
Qed.

End ProcessProps.

(** Docker is there, the container answers the first probe, and the body of
    the [with] statement calls [sys.exit(1)]. *)
Lemma container_is_always_stopped_witness :
  let body := fun (_ : str) (s : process Sim.machine) =>
                (@Threw unit (SystemExit (ExitStatus 1)), s) in
  exists r s',
    docker_plantuml Sim.env (SimHost.host true []) 1 SimHost.image 18080 body
      (SimHost.boot [Sim.png 200]) = Some (r, s') /\
    trace s' = [Ran (docker_run SimHost.image 18080); Effect (Sent SimHost.probe)]
                 ++ [Ran (docker_stop (lit "c0ffee"))] /\
    (forall code : Z, Done 0%Z = Done code -> r = Threw (SystemExit (ExitStatus 1))).
Proof.
  intros body.
  apply (@container_is_always_stopped _ _ Sim.env (SimHost.host true []) unit 1
           SimHost.image 18080 body (SimHost.boot [Sim.png 200])
           (lit "/usr/bin/docker") (lit "c0ffee" ++ [LF])
           (pworld (SimHost.boot [Sim.png 200])) (Ok tt) (SimHost.probed [])).
  - reflexivity.
  - discriminate.
  - reflexivity.
  - vm_compute. reflexivity.
Defined.

(** No Docker: nothing is run. And Docker with a container that answers
    the first probe, for a body that returns: the two commands. *)
Lemma stop_only_follows_run_witness :
  let body := fun (_ : str) (s0 : process Sim.machine) => (Done tt, s0) in
  docker_plantuml Sim.env (SimHost.host false []) 1 SimHost.image 18080 body
    (SimHost.boot [Sim.png 200])
  = Some (Threw (Exception docker_not_found), SimHost.boot [Sim.png 200]) /\
  exists r s',
    docker_plantuml Sim.env (SimHost.host true []) 1 SimHost.image 18080 body
      (SimHost.boot [Sim.png 200]) = Some (r, s') /\
    commands (trace s')
    = [] ++ [docker_run SimHost.image 18080; docker_stop (Py.strip (lit "c0ffee" ++ [LF]))].
Proof.
  intros body. split.
  - apply (@stop_only_follows_run _ _ Sim.env (SimHost.host false []) unit 1 SimHost.image
             18080 body (SimHost.boot [Sim.png 200])).
    + intros base s0. reflexivity.
    + reflexivity.
  - destruct (@stop_only_follows_run _ _ Sim.env (SimHost.host true []) unit 1 SimHost.image
                18080 body (SimHost.boot [Sim.png 200])) as (_ & _ & H).
    + intros base s0. reflexivity.
    + destruct (H eq_refl (lit "c0ffee" ++ [LF]) eq_refl) as [_ Hends].
      apply (Hends (Ok tt) (SimHost.probed [])).
      vm_compute. reflexivity.
Defined.

(** An input that is no file; and an input that is a file but not UTF-8. *)
Lemma setup_failure_sends_nothing_witness :
  let missing := SimHost.args (lit "missing.puml") None true in
  let given := SimHost.args (lit "diagrams.puml") None true in
  (main Sim.env (SimHost.host true []) 1 missing (SimHost.boot [])
   = Some (Threw (file_not_found (lit "missing.puml")), SimHost.boot []) /\
   exit_status_of (@Threw unit (file_not_found (lit "missing.puml"))) = 1%Z) /\
  (main Sim.env SimHost.unreadable 1 given (SimHost.boot [])
   = Some (Threw (UnicodeDecodeError (lit "invalid start byte")),
           {| pworld := pworld (SimHost.boot []);
              trace := [MadeDirs (lit "./exported"); ReadFile (lit "diagrams.puml")] |}) /\
   requests [MadeDirs (lit "./exported"); ReadFile (lit "diagrams.puml")] = [] /\
   commands [MadeDirs (lit "./exported"); ReadFile (lit "diagrams.puml")] = []).
Proof.
  intros missing given. split.
  - apply (@setup_failure_sends_nothing _ _ Sim.env (SimHost.host true []) 1 missing
             (SimHost.boot [])).
    reflexivity.
  - destruct (@setup_failure_sends_nothing _ _ Sim.env SimHost.unreadable 1 given
                (SimHost.boot [])) as (_ & _ & H).
    apply (H eq_refl tt (UnicodeDecodeError (lit "invalid start byte")) eq_refl eq_refl).
Defined.

(** A server option with a slash at its end, and [--docker]. *)
Lemma server_option_wins_witness :
  let host := SimHost.host true (Sim.document ["@startuml"; "Alice->Bob"; "@enduml"]%string) in
  let args := SimHost.args (lit "diagrams.puml") (Some (lit "http://localhost:8080/")) true in
  let s := SimHost.boot [Sim.png 200] in
  (forall fuel' docker port image,
     main Sim.env host fuel'
       {| arg_file := arg_file args; arg_output := arg_output args;
          arg_server := arg_server args; arg_method := arg_method args;
          arg_docker := docker; arg_port := port; arg_image := image |} s
     = main Sim.env host 0 args s) /\
  exists r s' t,
    main Sim.env host 0 args s = Some (r, s') /\
    trace s' = trace s ++ t /\
    commands t = [] /\
    Forall (goes_to (lit "http://localhost:8080/")) (requests t).
Proof.
  intros host args s.
  apply (@server_option_wins _ _ Sim.env host 0 args s (lit "http://localhost:8080/")).
  - reflexivity.
  - discriminate.
Defined.

(** The empty server option, without [--docker]. *)
Lemma public_server_is_the_default_witness :
  let host := SimHost.host true (Sim.document ["@startuml"; "Alice->Bob"; "@enduml"]%string) in
  let args := SimHost.args (lit "diagrams.puml") (Some []) false in
  let s := SimHost.boot [Sim.png 200] in
  exists r s' t,
    main Sim.env host 0 args s = Some (r, s') /\
    trace s' = trace s ++ t /\
    commands t = [] /\
    Forall (goes_to public_server) (requests t).
Proof.
  intros host args s.
  apply (@public_server_is_the_default _ _ Sim.env host 0 args s).
  - right. reflexivity.
  - reflexivity.
Defined.

(** A container that answers the probe, then answers the POST request of
    the one unit with an error page, and then refuses the connection: the
    unit fails, and the container is stopped. *)
Lemma docker_batch_is_torn_down_witness :
  let source := Sim.document ["@startuml"; "Alice->Bob"; "@enduml"]%string in
  let host := SimHost.host true source in
  let args := SimHost.args (lit "diagrams.puml") None true in
  let s := SimHost.boot [Sim.png 200; Sim.page 500] in
  let started :=
    {| pworld := pworld s;
       trace := (trace s ++ [MadeDirs (arg_output args); ReadFile (arg_file args)])
                  ++ [Ran (docker_run SimHost.image 18080)] |} in
  let st := SimHost.probed [Sim.page 500] in
  let base := lit "http://localhost:" ++ Py.decimal 18080 in
  let batch := Orchestrator.run_exports Sim.env source base (arg_method args) (arg_output args)
                 (enter (leave started st)) in
  exists r s',
    main Sim.env host 1 args s = Some (r, s') /\
    trace s' = trace started ++ map Effect (log st) ++ map Effect (log (snd batch))
                 ++ [Ran (docker_stop (lit "c0ffee"))] /\
    Forall (goes_to base) (Shapes.requests_sent (log (snd batch))) /\
    (forall code : Z, Done 0%Z = Done code -> exit_status_of r = 1%Z).
Proof.
  intros source host args s started st base batch.
  apply (@docker_batch_is_torn_down _ _ Sim.env host 1 args s (pworld s) (pworld s) (pworld s)
           source (lit "/usr/bin/docker") (lit "c0ffee" ++ [LF]) st).
  - reflexivity.
  - reflexivity.
  - reflexivity.
  - left. reflexivity.
  - reflexivity.
  - reflexivity.
  - discriminate.
  - reflexivity.
  - vm_compute. reflexivity.
Defined.

(** The run of the last example: the directory, the file, the container,
    the probe, the two requests of the unit, and the stop; the exit status
    is 1. *)
Example docker_batch_run :
  let source := Sim.document ["@startuml"; "Alice->Bob"; "@enduml"]%string in
  option_map (fun res => (exit_status_of (fst res), length (trace (snd res)),
                          commands (trace (snd res)),
                          map rq_url (requests (trace (snd res)))))
    (main Sim.env (SimHost.host true source) 1 (SimHost.args (lit "diagrams.puml") None true)
       (SimHost.boot [Sim.png 200; Sim.page 500]))
  = Some (1%Z, 7,
          [docker_run SimHost.image 18080; docker_stop (lit "c0ffee")],
          [lit "http://localhost:18080/png/SoWkIImgAStDuN98pKi1qG00";
           lit "http://localhost:18080/png";
           lit "http://localhost:18080/png/SoWkIImgAStDuNBCoKnErRLpoa_YSaZDIm490G00"]).
Proof. vm_compute. reflexivity. Qed.

End ProcessProps.
